(** * Virtual cavity simulator: the RF chain, the per-step driver, the bounded
    history store, session files and the parameter scan.

    A shallow embedding of [advanced_cavity_gui.py] (class
    [CavitySimulationGUI]) and of the helper functions and pulse counter it
    shares with [sim_cavity_standalone.py].

    Conventions of the embedding.
    - A Python [float] is read as a real number ([R]); a Python [complex] as
      a pair of reals ([C]).  Rounding is not modelled, and the text written
      for a number in a file is taken to be read back as that number.
    - A Python [int] used as an index is a [Z]; list and array indexing is
      Python's, negative indices included ([py_index]).
    - A [dict] whose iteration order is observable is an association list in
      insertion order ([dict]).
    - A method of the class is a function on the object's fields
      ([sim_state]); a method that may raise returns the fields as they are
      when the exception leaves it, together with the exception ([M]).
    - The values set once by [__init__] are a [config]; the collaborators
      that are not part of the repository ([llrflibs.rf_sim.sim_scav_step],
      the discrete mechanical model, the random generator) are a
      [collaborators] record.  Both are parameters of the methods.
    - Threads are not modelled: a method runs from its first statement to
      its last, and the scan thread is run where it is started.
    - Widgets, plots and sleeps are left out; a message box is the value a
      method returns. *)

From Stdlib Require Import Reals Lra Lia ZArith List String Bool Arith.
From Stdlib Require Import DecimalString FunctionalExtensionality.
Import ListNotations.

Local Open Scope R_scope.

(* ------------------------------------------------------------------------- *)
(** ** Numbers *)

Module Cplx.

(** Python / numpy complex numbers. *)
Record C : Type := mkC { Re : R; Im : R }.

Definition C0 : C := mkC 0 0.
Definition Ci : C := mkC 0 1.

(** A real operand is promoted to a complex with imaginary part [0]. *)
Definition RtoC (x : R) : C := mkC x 0.

Definition Cmult (a b : C) : C :=
  mkC (Re a * Re b - Im a * Im b) (Re a * Im b + Im a * Re b).

(** [np.exp] on a complex argument. *)
Definition Cexp (z : C) : C :=
  mkC (exp (Re z) * cos (Im z)) (exp (Re z) * sin (Im z)).

(** [np.abs]. *)
Definition Cabs (z : C) : R := sqrt (Re z * Re z + Im z * Im z).

(** [np.arctan2 y x]. *)
Definition arctan2 (y x : R) : R :=
  if Rlt_dec 0 x then atan (y / x)
  else if Rlt_dec x 0 then
    (if Rle_dec 0 y then atan (y / x) + PI else atan (y / x) - PI)
  else if Rlt_dec 0 y then PI / 2
  else if Rlt_dec y 0 then - (PI / 2)
  else 0.

(** [np.angle]. *)
Definition Cangle (z : C) : R := arctan2 (Im z) (Re z).

End Cplx.
Import Cplx.

(** [np.log10]. *)
Definition log10 (x : R) : R := ln x / ln 10.

(* ------------------------------------------------------------------------- *)
(** ** Python values, exceptions, sequences and dictionaries *)

(** The exceptions the modelled code can raise. *)
Inductive exn : Type :=
| KeyError (key : string)
| IndexError
| ValueError
| TypeError
| UnboundLocalError (name : string).

(** The outcome of an expression that may raise. *)
Definition result (A : Type) : Type := (exn + A)%type.

Definition ok {A} (a : A) : result A := inr a.
Definition raise {A} (e : exn) : result A := inl e.

Definition rbind {A B} (r : result A) (k : A -> result B) : result B :=
  match r with
  | inl e => inl e
  | inr a => k a
  end.

(** The values held by the control-parameter dictionary: floats, and the
    boolean of the [pulsed] check box. *)
Inductive pyval : Type :=
| PFloat (x : R)
| PBool (b : bool).

(** Truth value of a Python object in [if v:]. *)
Definition truthy (v : pyval) : bool :=
  match v with
  | PFloat x => if Req_dec_T x 0 then false else true
  | PBool b => b
  end.

(** The number a Python value stands for in arithmetic ([True] is [1]). *)
Definition to_float (v : pyval) : R :=
  match v with
  | PFloat x => x
  | PBool true => 1
  | PBool false => 0
  end.

Definition len {A} (l : list A) : Z := Z.of_nat (List.length l).

(** [l[i]]: an index in [-len, len) selects an element, counting from the end
    when negative; any other index raises [IndexError]. *)
Definition py_index {A} (l : list A) (i : Z) : result A :=
  let j := if (i <? 0)%Z then (i + len l)%Z else i in
  if (j <? 0)%Z then raise IndexError
  else match nth_error l (Z.to_nat j) with
       | Some x => ok x
       | None => raise IndexError
       end.

(** [l.pop(0)]: [IndexError] on an empty list. *)
Definition pop0 {A} (l : list A) : result (list A) :=
  match l with
  | [] => raise IndexError
  | _ :: t => ok t
  end.

(** [l.append(x)]. *)
Definition append {A} (l : list A) (x : A) : list A := l ++ [x].

(** [a[lo:hi] = v] on a numpy array: every position in the slice, clipped to
    the array, receives [v]. *)
Fixpoint slice_fill_from {A} (pos lo hi : nat) (v : A) (l : list A) : list A :=
  match l with
  | [] => []
  | x :: t =>
      (if (lo <=? pos)%nat && (pos <? hi)%nat then v else x)
        :: slice_fill_from (S pos) lo hi v t
  end.

Definition slice_fill {A} (lo hi : nat) (v : A) (l : list A) : list A :=
  slice_fill_from 0 lo hi v l.

(** A dictionary in insertion order. *)
Definition dict (V : Type) : Type := list (string * V).

Fixpoint dict_get {V} (k : string) (d : dict V) : result V :=
  match d with
  | [] => raise (KeyError k)
  | (k', v) :: t => if String.eqb k k' then ok v else dict_get k t
  end.

(** [d[k] = v]: an existing key keeps its position, a new key goes last. *)
Fixpoint dict_set {V} (k : string) (v : V) (d : dict V) : dict V :=
  match d with
  | [] => [(k, v)]
  | (k', v') :: t =>
      if String.eqb k k' then (k', v) :: t else (k', v') :: dict_set k v t
  end.

Definition dict_keys {V} (d : dict V) : list string := map fst d.

(* ------------------------------------------------------------------------- *)
(** ** RF chain stages ([sim_rfsrc], [sim_iqmod], [sim_amp]) *)

(** [sim_rfsrc(fsrc, Asrc, pha_src, Ts)]. *)
Definition sim_rfsrc (fsrc Asrc pha_src Ts : R) : C * R :=
  let pha := pha_src + 2 * PI * fsrc * Ts in
  (Cmult (RtoC Asrc) (Cexp (Cmult Ci (RtoC pha))), pha).

(** The index expression [buf_id if buf_id < len(buf) else -1]. *)
Definition buf_index {A} (buf : list A) (buf_id : Z) : Z :=
  if (buf_id <? len buf)%Z then buf_id else (-1)%Z.

(** [sim_iqmod(sig_in, pulsed, base_pul, base_cw, buf_id)]; [pulsed] is the
    truth value of the argument. *)
Definition sim_iqmod (sig_in : C) (pulsed : bool) (base_pul : list C)
    (base_cw : R) (buf_id : Z) : result C :=
  if pulsed then
    rbind (py_index base_pul (buf_index base_pul buf_id))
          (fun g => ok (Cmult sig_in g))
  else ok (Cmult sig_in (RtoC base_cw)).

(** The pulse counter of the main loop of [sim_cavity_standalone.py]:
    [if pulsed: buf_id += 1; if buf_id >= pul_len: buf_id = 0]. *)
Definition standalone_pulse_branch (pulsed : bool) (pul_len buf_id : Z) : Z :=
  if pulsed then
    let buf_id := (buf_id + 1)%Z in
    if (pul_len <=? buf_id)%Z then 0%Z else buf_id
  else buf_id.

(** [sim_amp(sig_in, gain_dB)]. *)
Definition sim_amp (sig_in : C) (gain_dB : R) : C :=
  Cmult sig_in (RtoC (Rpower 10 (gain_dB / 20))).

(* ------------------------------------------------------------------------- *)
(** ** Collaborators *)

(** A [numpy] matrix, by rows. *)
Definition matrix : Type := list (list R).

(** [m.shape]. *)
Definition shape (m : matrix) : nat * nat :=
  (List.length m, match m with [] => 0%nat | r :: _ => List.length r end).

(** [np.matrix(np.zeros(shape))]. *)
Definition zeros (sh : nat * nat) : matrix := repeat (repeat 0 (snd sh)) (fst sh).

(** [np.real(m[0, i])] under [try: ... except: 0]. *)
Definition mode_value (m : matrix) (i : nat) : R :=
  match m with
  | [] => 0
  | r :: _ => match nth_error r i with Some v => v | None => 0 end
  end.

(** What the simulator takes from outside the repository.
    - [sim_scav_step half_bw dw_step0 detuning0 vf_step vb state_vc Ts beta
      state_m0 Am Bm Cm Dm mech_exe] is [llrflibs.rf_sim.sim_scav_step]; it
      returns [(status, vc, vr, dw, state_m)], [status] being [true] on
      success.
    - [Ad], [Bd], [Cd], [Dd] are the discrete mechanical model that
      [ss_discrete] returns for [cav_ss_mech(mech_modes)].
    - [randn k] is the value of the [k]-th call of [np.random.randn()]. *)
Record collaborators : Type := {
  sim_scav_step :
    R -> R -> R -> C -> C -> C -> R -> R ->
    matrix -> matrix -> matrix -> matrix -> matrix -> bool ->
    bool * C * C * R * matrix;
  Ad : matrix;
  Bd : matrix;
  Cd : matrix;
  Dd : matrix;
  randn : nat -> R
}.

(* ------------------------------------------------------------------------- *)
(** ** The simulator object *)

(** [l[i] = x] for an index known to be in range. *)
Fixpoint list_update {A} (i : nat) (x : A) (l : list A) : list A :=
  match l, i with
  | [], _ => []
  | _ :: t, O => x :: t
  | y :: t, S i' => y :: list_update i' x t
  end.

(** The values fixed by [__init__] and [init_simulation_params] and never
    written afterwards. *)
Record config : Type := {
  Ts : R;
  t_fill : nat;
  t_flat : nat;
  buf_size : nat;
  pul_len : Z;
  mech_f : list R;
  mech_Q : list R;
  mech_K : list R;
  f0 : R;
  beta : R;
  roQ : R;
  QL : R;
  ib : R;
  beam_cw : R;
  base_cw : R;
  max_history : Z
}.

(** The values of [advanced_cavity_gui.py]. *)
Definition gui_config : config :=
  {| Ts := 1 / 1000000;
     t_fill := 510;
     t_flat := 1300;
     buf_size := 2048 * 8;
     pul_len := 2048 * 10;
     mech_f := [280; 341; 460; 487; 618];
     mech_Q := [40; 20; 50; 80; 100];
     mech_K := [2; 8 / 10; 2; 6 / 10; 2 / 10];
     f0 := 1300000000;
     beta := 10000;
     roQ := 1036;
     QL := 3000000;
     ib := 8 / 1000;
     beam_cw := 0;
     base_cw := 1;
     max_history := 10000 |}.

(** The values of [sim_cavity_standalone.py], which keeps no history. *)
Definition standalone_config : config :=
  {| Ts := 1 / 1000000;
     t_fill := 510;
     t_flat := 1300;
     buf_size := 2048 * 8;
     pul_len := 2048 * 2;
     mech_f := [280; 341; 460; 487; 618];
     mech_Q := [40; 20; 50; 80; 100];
     mech_K := [2; 8 / 10; 2; 6 / 10; 2 / 10];
     f0 := 1300000000;
     beta := 10000;
     roQ := 1036;
     QL := 3000000;
     ib := 8 / 1000;
     beam_cw := 0;
     base_cw := 1;
     max_history := 10000 |}.

(** The keys of [history_data] that hold one number per sample. *)
Definition main_keys : list string :=
  ["time"; "vc_real"; "vc_imag"; "vc_mag"; "vc_phase";
   "vr_real"; "vr_imag"; "vr_mag"; "vr_phase"; "detuning"]%string.

(** [history_data]: the sample channels (a dictionary from the keys above to
    lists), the list of per-mode channels under ['mech_modes'], and the
    dictionary of control-parameter channels under ['control_params'].  The
    three parts are kept apart because their values have different types;
    in the dictionary's key order the sample channels come first, then
    ['mech_modes'], then ['control_params']. *)
Record history : Type := mkHistory {
  h_main : dict (list R);
  h_mech_modes : list (list R);
  h_control_params : dict (list pyval)
}.

(** The fields of [CavitySimulationGUI] that the modelled methods read or
    write.  [rng_draws] is the state of numpy's global generator: how many
    samples have been drawn from it. *)
Record sim_state : Type := mkState {
  control_params : dict pyval;
  simulation_running : bool;
  recording : bool;
  playback_mode : bool;
  state_m : matrix;
  state_vc : C;
  pha_src : R;
  buf_id : Z;
  dw : R;
  beam_pul : list C;
  base_pul : list C;
  history_data : history;
  rng_draws : nat
}.

Definition set_control_params (v : dict pyval) (s : sim_state) : sim_state :=
  mkState v (simulation_running s) (recording s) (playback_mode s) (state_m s)
    (state_vc s) (pha_src s) (buf_id s) (dw s) (beam_pul s) (base_pul s)
    (history_data s) (rng_draws s).

Definition set_simulation_running (v : bool) (s : sim_state) : sim_state :=
  mkState (control_params s) v (recording s) (playback_mode s) (state_m s)
    (state_vc s) (pha_src s) (buf_id s) (dw s) (beam_pul s) (base_pul s)
    (history_data s) (rng_draws s).

Definition set_recording (v : bool) (s : sim_state) : sim_state :=
  mkState (control_params s) (simulation_running s) v (playback_mode s)
    (state_m s) (state_vc s) (pha_src s) (buf_id s) (dw s) (beam_pul s)
    (base_pul s) (history_data s) (rng_draws s).

Definition set_state_m (v : matrix) (s : sim_state) : sim_state :=
  mkState (control_params s) (simulation_running s) (recording s)
    (playback_mode s) v (state_vc s) (pha_src s) (buf_id s) (dw s)
    (beam_pul s) (base_pul s) (history_data s) (rng_draws s).

Definition set_state_vc (v : C) (s : sim_state) : sim_state :=
  mkState (control_params s) (simulation_running s) (recording s)
    (playback_mode s) (state_m s) v (pha_src s) (buf_id s) (dw s)
    (beam_pul s) (base_pul s) (history_data s) (rng_draws s).

Definition set_pha_src (v : R) (s : sim_state) : sim_state :=
  mkState (control_params s) (simulation_running s) (recording s)
    (playback_mode s) (state_m s) (state_vc s) v (buf_id s) (dw s)
    (beam_pul s) (base_pul s) (history_data s) (rng_draws s).

Definition set_buf_id (v : Z) (s : sim_state) : sim_state :=
  mkState (control_params s) (simulation_running s) (recording s)
    (playback_mode s) (state_m s) (state_vc s) (pha_src s) v (dw s)
    (beam_pul s) (base_pul s) (history_data s) (rng_draws s).

Definition set_dw (v : R) (s : sim_state) : sim_state :=
  mkState (control_params s) (simulation_running s) (recording s)
    (playback_mode s) (state_m s) (state_vc s) (pha_src s) (buf_id s) v
    (beam_pul s) (base_pul s) (history_data s) (rng_draws s).

Definition set_beam_pul (v : list C) (s : sim_state) : sim_state :=
  mkState (control_params s) (simulation_running s) (recording s)
    (playback_mode s) (state_m s) (state_vc s) (pha_src s) (buf_id s) (dw s)
    v (base_pul s) (history_data s) (rng_draws s).

Definition set_history_data (v : history) (s : sim_state) : sim_state :=
  mkState (control_params s) (simulation_running s) (recording s)
    (playback_mode s) (state_m s) (state_vc s) (pha_src s) (buf_id s) (dw s)
    (beam_pul s) (base_pul s) v (rng_draws s).

Definition set_rng_draws (v : nat) (s : sim_state) : sim_state :=
  mkState (control_params s) (simulation_running s) (recording s)
    (playback_mode s) (state_m s) (state_vc s) (pha_src s) (buf_id s) (dw s)
    (beam_pul s) (base_pul s) (history_data s) v.

(** A method body: it runs on the object's fields and either returns a value
    or raises, leaving the fields as they are at that point. *)
Definition M (A : Type) : Type := sim_state -> sim_state * result A.

Definition ret {A} (a : A) : M A := fun s => (s, ok a).

Definition bind {A B} (m : M A) (k : A -> M B) : M B :=
  fun s =>
    match m s with
    | (s', inl e) => (s', inl e)
    | (s', inr a) => k a s'
    end.

Definition gets {A} (f : sim_state -> A) : M A := fun s => (s, ok (f s)).
Definition modify (f : sim_state -> sim_state) : M unit := fun s => (f s, ok tt).
Definition lift {A} (r : result A) : M A := fun s => (s, r).

Declare Scope py_scope.
Delimit Scope py_scope with py.
Notation "x <- c ;; k" := (bind c (fun x => k))
  (at level 61, c at next level, right associativity) : py_scope.
Notation "' p <- c ;; k" := (bind c (fun x => let 'p := x in k))
  (at level 61, p pattern, c at next level, right associativity) : py_scope.
Notation "c ;; k" := (bind c (fun _ => k))
  (at level 61, right associativity) : py_scope.
Local Open Scope py_scope.

(** [for x in xs: body x]. *)
Fixpoint for_each {A} (xs : list A) (body : A -> M unit) : M unit :=
  match xs with
  | [] => ret tt
  | x :: t => body x ;; for_each t body
  end.

(* ------------------------------------------------------------------------- *)
(** ** Session files and [numpy.linspace] *)

(** A parsed JSON document. *)
#[local] Unset Elimination Schemes.
Inductive json : Type :=
| JNum (x : R)
| JBool (b : bool)
| JStr (s : string)
| JArr (items : list json)
| JObj (members : list (string * json)).
#[local] Set Elimination Schemes.

(** The rows of a CSV file.  A cell of a data row is the text [str(x)] of a
    float, which [float] reads back as [x]; it is kept as the number. *)
Record csv_file : Type := mkCsv {
  csv_header : list string;
  csv_rows : list (list R)
}.

Inductive file_content : Type :=
| JsonFile (doc : json)
| CsvFile (table : csv_file).

(** The message boxes of [tkinter.messagebox]. *)
Inductive dialog : Type :=
| NoDialog
| ShowWarning (title message : string)
| ShowInfo (title message : string)
| ShowError (title message : string)
| ShowFailure (title message : string) (cause : exn).

(** [s.endswith(suffix)]. *)
Definition endswith (s suffix : string) : bool :=
  let n := String.length s in
  let m := String.length suffix in
  (m <=? n)%nat && String.eqb (substring (n - m) m s) suffix.

(** [str(n)] for a natural number. *)
Definition str_of_nat (n : nat) : string := NilEmpty.string_of_uint (Nat.to_uint n).

(** [[f(x) for x in xs]] where [f] may raise. *)
Fixpoint map_result {A B} (f : A -> result B) (xs : list A) : result (list B) :=
  match xs with
  | [] => ok []
  | x :: t => rbind (f x) (fun y => rbind (map_result f t) (fun ys => ok (y :: ys)))
  end.

Definition json_of_floats (l : list R) : json := JArr (map JNum l).

Definition json_of_pyval (v : pyval) : json :=
  match v with
  | PFloat x => JNum x
  | PBool b => JBool b
  end.

(** What [json.dump] writes for [history_data]. *)
Definition json_of_history (h : history) : json :=
  JObj (map (fun kv => (fst kv, json_of_floats (snd kv))) (h_main h)
        ++ [("mech_modes"%string, JArr (map json_of_floats (h_mech_modes h)));
            ("control_params"%string,
             JObj (map (fun kv => (fst kv, JArr (map json_of_pyval (snd kv))))
                       (h_control_params h)))]).

Definition float_of_json (j : json) : result R :=
  match j with
  | JNum x => ok x
  | _ => raise TypeError
  end.

Definition floats_of_json (j : json) : result (list R) :=
  match j with
  | JArr items => map_result float_of_json items
  | _ => raise TypeError
  end.

Definition pyval_of_json (j : json) : result pyval :=
  match j with
  | JNum x => ok (PFloat x)
  | JBool b => ok (PBool b)
  | _ => raise TypeError
  end.

Definition pyvals_of_json (j : json) : result (list pyval) :=
  match j with
  | JArr items => map_result pyval_of_json items
  | _ => raise TypeError
  end.

Definition is_sample_key (k : string) : bool :=
  negb (String.eqb k "mech_modes") && negb (String.eqb k "control_params").

(** The loaded ['data'] object read as a history: every member other than
    ['mech_modes'] and ['control_params'] is a sample channel.  Python keeps
    the object as it is; an object of another shape, which Python would trip
    over only when the channels are used, is refused here with [TypeError]. *)
Definition history_of_json (j : json) : result history :=
  match j with
  | JObj members =>
      rbind (map_result
               (fun kv => rbind (floats_of_json (snd kv)) (fun l => ok (fst kv, l)))
               (filter (fun kv => is_sample_key (fst kv)) members))
        (fun main =>
      rbind (dict_get "mech_modes" members) (fun jm =>
      rbind (match jm with
             | JArr items => map_result floats_of_json items
             | _ => raise TypeError
             end) (fun mech =>
      rbind (dict_get "control_params" members) (fun jc =>
      rbind (match jc with
             | JObj cs =>
                 map_result
                   (fun kv => rbind (pyvals_of_json (snd kv)) (fun l => ok (fst kv, l)))
                   cs
             | _ => raise TypeError
             end) (fun ctrl =>
      ok (mkHistory main mech ctrl))))))
  | _ => raise TypeError
  end.

(** [np.linspace(start, stop, num)]: [num] samples [start + i * step] with
    [step = (stop - start) / (num - 1)], the last one set to [stop]. *)
Definition linspace (start stop : R) (num : nat) : list R :=
  let div := (num - 1)%nat in
  let step := (stop - start) / INR div in
  let y := map (fun i => INR i * step + start) (seq 0 num) in
  if (1 <? num)%nat then firstn div y ++ [stop] else y.

(** What a scan hands to the foreground. *)
Inductive scan_outcome : Type :=
| ScanRejected (title message : string)
| ScanPlot (param_values responses : list R) (param_name : string).

(* ------------------------------------------------------------------------- *)
(** ** The methods of [CavitySimulationGUI] *)

Section Simulator.

Variable env : collaborators.
Variable cfg : config.

(** [self.RL] and [self.wh]. *)
Definition RL : R := 5 / 10 * roQ cfg * QL cfg.
Definition wh : R := PI * f0 cfg / QL cfg.

(** [len(self.mech_modes['f'])]. *)
Definition n_modes : nat := List.length (mech_f cfg).

(** [sim_cav]: the beam voltage, then one call of the integrator, whose
    [status] is bound and not read. *)
Definition sim_cav (half_bw RL dw_step0 detuning0 : R) (vf_step state_vc : C)
    (Ts beta : R) (state_m0 Am Bm Cm Dm : matrix)
    (pulsed : bool) (beam_pul : list C) (beam_cw : R) (buf_id : Z)
  : result (C * C * R * C * matrix) :=
  rbind
    (if pulsed then
       rbind (py_index beam_pul (buf_index beam_pul buf_id))
             (fun b => ok (Cmult (RtoC (- RL)) b))
     else ok (RtoC (- RL * beam_cw)))
    (fun vb =>
       let '(status, vc, vr, dw, state_m) :=
         sim_scav_step env half_bw dw_step0 detuning0 vf_step vb state_vc
                       Ts beta state_m0 Am Bm Cm Dm true in
       let state_vc := vc in
       ok (vc, vr, dw, state_vc, state_m)).

(** [np.random.randn()]. *)
Definition draw_randn : M R :=
  k <- gets rng_draws ;;
  modify (set_rng_draws (S k)) ;;
  ret (randn env k).

(** The pulse counter of [simulation_step]. *)
Definition advance_buf_id : M unit :=
  b <- gets buf_id ;;
  modify (set_buf_id (b + 1)) ;;
  b <- gets buf_id ;;
  if (pul_len cfg <=? b)%Z then modify (set_buf_id 0) else ret tt.

(** [simulation_step]. *)
Definition simulation_step : M (C * C * R) :=
  params <- gets control_params ;;
  p_ib <- lift (dict_get "ib" params) ;;
  bp <- gets beam_pul ;;
  modify (set_beam_pul
            (slice_fill (t_fill cfg) (t_flat cfg) (RtoC (to_float p_ib)) bp)) ;;
  p_fsrc <- lift (dict_get "fsrc" params) ;;
  p_amp <- lift (dict_get "amp" params) ;;
  pha0 <- gets pha_src ;;
  let '(S0, pha) := sim_rfsrc (to_float p_fsrc) (to_float p_amp) pha0 (Ts cfg) in
  modify (set_pha_src pha) ;;
  p_pulsed <- lift (dict_get "pulsed" params) ;;
  (if truthy p_pulsed then advance_buf_id else ret tt) ;;
  p_pulsed <- lift (dict_get "pulsed" params) ;;
  base <- gets base_pul ;;
  b <- gets buf_id ;;
  S1 <- lift (sim_iqmod S0 (truthy p_pulsed) base (base_cw cfg) b) ;;
  p_gain <- lift (dict_get "gain_dB" params) ;;
  let S2 := sim_amp S1 (to_float p_gain) in
  x <- draw_randn ;;
  let dw_micr := 2 * PI * x * 10 in
  dw0 <- gets dw ;;
  vc0 <- gets state_vc ;;
  sm0 <- gets state_m ;;
  p_pulsed <- lift (dict_get "pulsed" params) ;;
  bp <- gets beam_pul ;;
  b <- gets buf_id ;;
  '(vc, vr, dw1, vc1, sm1) <-
     lift (sim_cav wh RL dw0 (0 + dw_micr) S2 vc0 (Ts cfg) (beta cfg) sm0
                   (Ad env) (Bd env) (Cd env) (Dd env)
                   (truthy p_pulsed) bp (beam_cw cfg) b) ;;
  modify (set_dw dw1) ;;
  modify (set_state_vc vc1) ;;
  modify (set_state_m sm1) ;;
  d <- gets dw ;;
  ret (vc, vr, d).

(** Writes to one part of [history_data]. *)
Definition put_main (d : dict (list R)) : M unit :=
  modify (fun s =>
    let h := history_data s in
    set_history_data (mkHistory d (h_mech_modes h) (h_control_params h)) s).

Definition put_mech_modes (m : list (list R)) : M unit :=
  modify (fun s =>
    let h := history_data s in
    set_history_data (mkHistory (h_main h) m (h_control_params h)) s).

Definition put_control_history (c : dict (list pyval)) : M unit :=
  modify (fun s =>
    let h := history_data s in
    set_history_data (mkHistory (h_main h) (h_mech_modes h) c) s).

(** [self.history_data[key].pop(0)]. *)
Definition channel_pop0 (key : string) : M unit :=
  h <- gets history_data ;;
  l <- lift (dict_get key (h_main h)) ;;
  l' <- lift (pop0 l) ;;
  put_main (dict_set key l' (h_main h)).

(** [self.history_data[key].append(x)]. *)
Definition channel_append (key : string) (x : R) : M unit :=
  h <- gets history_data ;;
  l <- lift (dict_get key (h_main h)) ;;
  put_main (dict_set key (append l x) (h_main h)).

(** [self.history_data['mech_modes'][i].append(x)]. *)
Definition mech_append (i : nat) (x : R) : M unit :=
  h <- gets history_data ;;
  l <- lift (py_index (h_mech_modes h) (Z.of_nat i)) ;;
  put_mech_modes (list_update i (append l x) (h_mech_modes h)).

(** [self.history_data['control_params'][param].append(value)]. *)
Definition control_append (param : string) (value : pyval) : M unit :=
  h <- gets history_data ;;
  l <- lift (dict_get param (h_control_params h)) ;;
  put_control_history (dict_set param (append l value) (h_control_params h)).

(** The eviction of [store_data]: [pop(0)] on every sample channel, and on
    every per-mode and control-parameter channel that is not empty. *)
Definition evict_oldest : M unit :=
  h <- gets history_data ;;
  for_each (dict_keys (h_main h)) channel_pop0 ;;
  h <- gets history_data ;;
  put_mech_modes (map (@tl R) (h_mech_modes h)) ;;
  h <- gets history_data ;;
  put_control_history (map (fun kv => (fst kv, tl (snd kv))) (h_control_params h)).

(** [store_data], first block: limit the history size. *)
Definition limit_history_size : M unit :=
  h <- gets history_data ;;
  t <- lift (dict_get "time" (h_main h)) ;;
  if (max_history cfg <=? len t)%Z then evict_oldest else ret tt.

(** [store_data], second block: store the new sample. *)
Definition store_samples (current_time : R) (vc vr : C) (dw : R) : M unit :=
  channel_append "time" current_time ;;
  channel_append "vc_real" (Re vc) ;;
  channel_append "vc_imag" (Im vc) ;;
  channel_append "vc_mag" (Cabs vc) ;;
  channel_append "vc_phase" (Cangle vc * 180 / PI) ;;
  channel_append "vr_real" (Re vr) ;;
  channel_append "vr_imag" (Im vr) ;;
  channel_append "vr_mag" (Cabs vr) ;;
  channel_append "vr_phase" (Cangle vr * 180 / PI) ;;
  channel_append "detuning" (dw / (2 * PI)).

(** [store_data], third block: store the mechanical mode data. *)
Definition store_mech_modes : M unit :=
  for_each (seq 0 n_modes)
    (fun i => sm <- gets state_m ;; mech_append i (mode_value sm i)).

(** [store_data], last block: store the control parameters if recording. *)
Definition store_control_params : M unit :=
  rec <- gets recording ;;
  if rec then
    params <- gets control_params ;;
    for_each params (fun kv => control_append (fst kv) (snd kv))
  else ret tt.

(** [store_data(current_time, vc, vr, dw)]. *)
Definition store_data (current_time : R) (vc vr : C) (dw : R) : M unit :=
  limit_history_size ;;
  store_samples current_time vc vr dw ;;
  store_mech_modes ;;
  store_control_params.

(** One turn of the [while] loop of [simulation_loop], [now] being
    [time.time() - start_time]; the plot refresh is not modelled. *)
Definition simulation_loop_turn (now : R) : M unit :=
  pb <- gets playback_mode ;;
  if negb pb then
    '(vc, vr, d) <- simulation_step ;;
    store_data now vc vr d
  else ret tt.

(** [simulation_loop], for at most [List.length clock] turns; [clock] gives
    the elapsed time read in each turn.  The loop leaves when
    [simulation_running] is false, or with the exception a turn raises. *)
Fixpoint simulation_loop (clock : list R) : M unit :=
  match clock with
  | [] => ret tt
  | now :: later =>
      running <- gets simulation_running ;;
      if running then simulation_loop_turn now ;; simulation_loop later
      else ret tt
  end.

(** [start_simulation] and [stop_simulation], without the widgets. *)
Definition start_simulation : M unit :=
  running <- gets simulation_running ;;
  if negb running then modify (set_simulation_running true) else ret tt.

Definition stop_simulation : M unit :=
  modify (set_simulation_running false).

(** [reset_simulation], without the plot lines. *)
Definition reset_simulation : M unit :=
  stop_simulation ;;
  modify (set_state_m (zeros (shape (Bd env)))) ;;
  modify (set_state_vc C0) ;;
  modify (set_pha_src 0) ;;
  modify (set_buf_id 0) ;;
  modify (set_dw 0) ;;
  h <- gets history_data ;;
  put_main (map (fun kv => (fst kv, [])) (h_main h)) ;;
  h <- gets history_data ;;
  put_mech_modes (map (fun _ => []) (h_mech_modes h)) ;;
  h <- gets history_data ;;
  put_control_history (map (fun kv => (fst kv, [])) (h_control_params h)).

(** [try: body except Exception as e: handler e]. *)
Definition try_except {A} (body : M A) (handler : exn -> M A) : M A :=
  fun s =>
    match body s with
    | (s', inl e) => handler e s'
    | (s', inr a) => (s', inr a)
    end.

(** The header row of the CSV file. *)
Definition csv_header_row : list string :=
  ["time"; "vc_mag"; "vc_phase"; "vr_mag"; "detuning"]%string
  ++ map (fun i => ("mech_mode_" ++ str_of_nat (i + 1))%string) (seq 0 n_modes).

(** Row [i] of the CSV file. *)
Definition csv_row (h : history) (i : nat) : result (list R) :=
  let cell key := rbind (dict_get key (h_main h)) (fun l => py_index l (Z.of_nat i)) in
  rbind (cell "time"%string) (fun c0 =>
  rbind (cell "vc_mag"%string) (fun c1 =>
  rbind (cell "vc_phase"%string) (fun c2 =>
  rbind (cell "vr_mag"%string) (fun c3 =>
  rbind (cell "detuning"%string) (fun c4 =>
  rbind (map_result
           (fun j =>
              rbind (py_index (h_mech_modes h) (Z.of_nat j)) (fun mj =>
              if (Z.of_nat i <? len mj)%Z then py_index mj (Z.of_nat i) else ok 0))
           (seq 0 n_modes)) (fun modes =>
  ok ([c0; c1; c2; c3; c4] ++ modes))))))).

(** The rows written one after the other; a row that raises ends the writing
    and leaves the rows before it in the file. *)
Fixpoint csv_write_rows (h : history) (indices : list nat)
  : list (list R) * result unit :=
  match indices with
  | [] => ([], ok tt)
  | i :: t =>
      match csv_row h i with
      | inl e => ([], inl e)
      | inr row => let '(rows, r) := csv_write_rows h t in (row :: rows, r)
      end
  end.

(** [save_data], [filename] being the answer of the file dialog (empty when
    cancelled) and [timestamp] the text of [datetime.now().isoformat()].  It
    returns what was written, if a file was opened, and the message box. *)
Definition save_data (filename timestamp : string) (s : sim_state)
  : result (option file_content * dialog) :=
  let h := history_data s in
  rbind (dict_get "time" (h_main h)) (fun t =>
  ok match t with
  | [] => (None, ShowWarning "Warning" "No data to save!")
  | _ :: _ =>
      if String.eqb filename EmptyString then (None, NoDialog)
      else if endswith filename ".json" then
        (Some (JsonFile
           (JObj [("metadata",
                   JObj [("timestamp", JStr timestamp);
                         ("simulation_params",
                          JObj [("Ts", JNum (Ts cfg)); ("f0", JNum (f0 cfg));
                                ("QL", JNum (QL cfg));
                                ("mech_modes",
                                 JObj [("f", json_of_floats (mech_f cfg));
                                       ("Q", json_of_floats (mech_Q cfg));
                                       ("K", json_of_floats (mech_K cfg))])])]);
                  ("data", json_of_history h)]%string)),
         ShowInfo "Success" ("Data saved to " ++ filename))
      else
        match csv_write_rows h (seq 0 (List.length t)) with
        | (rows, inr _) =>
            (Some (CsvFile (mkCsv csv_header_row rows)),
             ShowInfo "Success" ("Data saved to " ++ filename))
        | (rows, inl e) =>
            (Some (CsvFile (mkCsv csv_header_row rows)),
             ShowFailure "Error" "Failed to save data" e)
        end
  end).

(** The empty [history_data] that the CSV branch of [load_data] starts from. *)
Definition empty_history : history :=
  {| h_main := map (fun k => (k, [])) main_keys;
     h_mech_modes := repeat [] n_modes;
     h_control_params :=
       [("amp", []); ("phase", []); ("fsrc", []); ("pulsed", [])]%string |}.

(** The body of the [for row in reader] loop. *)
Definition load_csv_row (row : list R) : M unit :=
  c0 <- lift (py_index row 0) ;;
  channel_append "time" c0 ;;
  c1 <- lift (py_index row 1) ;;
  channel_append "vc_mag" c1 ;;
  c2 <- lift (py_index row 2) ;;
  channel_append "vc_phase" c2 ;;
  c3 <- lift (py_index row 3) ;;
  channel_append "vr_mag" c3 ;;
  c4 <- lift (py_index row 4) ;;
  channel_append "detuning" c4 ;;
  for_each (seq 0 n_modes)
    (fun i =>
       if (Z.of_nat i + 5 <? len row)%Z then
         c <- lift (py_index row (Z.of_nat i + 5)) ;;
         mech_append i c
       else ret tt).

(** [load_data], [content] being what the chosen file holds.  A file that is
    not in the format its name announces makes the parser raise
    [ValueError]. *)
Definition load_data (filename : string) (content : file_content) : M dialog :=
  if String.eqb filename EmptyString then ret NoDialog
  else
    try_except
      ((if endswith filename ".json" then
          match content with
          | JsonFile (JObj members) =>
              data <- lift (dict_get "data" members) ;;
              h <- lift (history_of_json data) ;;
              modify (set_history_data h)
          | JsonFile _ => lift (raise TypeError)
          | CsvFile _ => lift (raise ValueError)
          end
        else
          modify (set_history_data empty_history) ;;
          match content with
          | CsvFile table => for_each (csv_rows table) load_csv_row
          | JsonFile _ => lift (raise ValueError)
          end) ;;
       ret (ShowInfo "Success" ("Data loaded from " ++ filename)))
      (fun e => ret (ShowFailure "Error" "Failed to load data" e)).

(** [for _ in range(n): vc, vr, dw = self.simulation_step()]; [last] is the
    binding of [vc, vr, dw] on entry, if any. *)
Fixpoint run_steps (n : nat) (last : option (C * C * R)) : M (option (C * C * R)) :=
  match n with
  | O => ret last
  | S n' => out <- simulation_step ;; run_steps n' (Some out)
  end.

(** The body of the [for i, value in enumerate(param_values)] loop. *)
Definition scan_setpoint (param : string) (value : R) (responses : list R)
  : M (list R) :=
  ps <- gets control_params ;;
  modify (set_control_params (dict_set param (PFloat value) ps)) ;;
  last <- run_steps 100 None ;;
  match last with
  | Some (vc, _, _) => ret (append responses (Cabs vc * (1 / 1000000)))
  | None => lift (raise (UnboundLocalError "vc"))
  end.

Fixpoint scan_loop (param : string) (values : list R) (responses : list R)
  : M (list R) :=
  match values with
  | [] => ret responses
  | value :: later =>
      responses' <- scan_setpoint param value responses ;;
      scan_loop param later responses'
  end.

(** [parameter_scan(param, min_val, max_val)]; it returns the arguments of
    [update_scan_plot]. *)
Definition parameter_scan (param : string) (min_val max_val : R)
  : M (list R * list R) :=
  let num_points := 20%nat in
  let param_values := linspace min_val max_val num_points in
  ps <- gets control_params ;;
  original_value <- lift (dict_get param ps) ;;
  responses <- scan_loop param param_values [] ;;
  ps <- gets control_params ;;
  modify (set_control_params (dict_set param original_value ps)) ;;
  ret (param_values, responses).

(** [start_parameter_scan], with the values read from the scan widgets; the
    scan thread is run to its end. *)
Definition start_parameter_scan (param : string) (min_val max_val : R)
  : M scan_outcome :=
  if Rge_dec min_val max_val then
    ret (ScanRejected "Error" "Minimum value must be less than maximum value!")
  else
    '(param_values, responses) <- parameter_scan param min_val max_val ;;
    ret (ScanPlot param_values responses param).

(** The object built by [__init__] before it starts the simulation. *)
Definition init_fields : sim_state :=
  {| control_params :=
       [("amp", PFloat 1); ("phase", PFloat 0); ("fsrc", PFloat (-460));
        ("pulsed", PBool false); ("ib", PFloat (8 / 1000));
        ("gain_dB", PFloat (20 * log10 12000000))]%string;
     simulation_running := false;
     recording := false;
     playback_mode := false;
     state_m := zeros (shape (Bd env));
     state_vc := C0;
     pha_src := 0;
     buf_id := 0;
     dw := 0;
     beam_pul :=
       slice_fill (t_fill cfg) (t_flat cfg) (RtoC (ib cfg))
                  (repeat C0 (buf_size cfg));
     base_pul := slice_fill 0 (t_flat cfg) (RtoC 1) (repeat C0 (buf_size cfg));
     history_data :=
       {| h_main := map (fun k => (k, [])) main_keys;
          h_mech_modes := repeat [] n_modes;
          h_control_params :=
            [("amp", []); ("phase", []); ("fsrc", []); ("pulsed", [])]%string |};
     rng_draws := 0 |}.

(** The object as [__init__] leaves it: [start_simulation] has been called. *)
Definition init_state : sim_state := fst (start_simulation init_fields).

End Simulator.

(* ------------------------------------------------------------------------- *)
(** ** Vocabulary of the statements *)

(** The keys of [control_params], in the order [init_simulation_params]
    inserts them, and the keys of [history_data['control_params']]. *)
Definition control_keys : list string :=
  ["amp"; "phase"; "fsrc"; "pulsed"; "ib"; "gain_dB"]%string.

Definition recorded_keys : list string :=
  ["amp"; "phase"; "fsrc"; "pulsed"]%string.

(** The states the driver can step from without an exception: the control
    dictionary has its keys, the envelope buffers are not empty and the
    pulse counter is inside the pulse period. *)
Definition wf_state (cfg : config) (s : sim_state) : Prop :=
  dict_keys (control_params s) = control_keys
  /\ base_pul s <> []
  /\ beam_pul s <> []
  /\ (0 <= buf_id s < pul_len cfg)%Z.

(** What one step leaves alone, and what it is sure to do. *)
Definition step_frame (s s' : sim_state) : Prop :=
  control_params s' = control_params s
  /\ simulation_running s' = simulation_running s
  /\ recording s' = recording s
  /\ playback_mode s' = playback_mode s
  /\ base_pul s' = base_pul s
  /\ history_data s' = history_data s
  /\ rng_draws s' = S (rng_draws s).

(** What a scan may have changed between two objects: the value of the
    swept parameter, the cavity state and buffers, and the number of noise
    samples drawn. *)
Definition scan_frame (cfg : config) (param : string) (n : nat)
    (s s' : sim_state) : Prop :=
  wf_state cfg s'
  /\ (forall w, dict_set param w (control_params s')
                = dict_set param w (control_params s))
  /\ simulation_running s' = simulation_running s
  /\ recording s' = recording s
  /\ history_data s' = history_data s
  /\ rng_draws s' = (n + rng_draws s)%nat.

(** [env] with the integrator's status replaced by [b] and nothing else
    changed. *)
Definition with_status (b : bool) (env : collaborators) : collaborators :=
  {| sim_scav_step :=
       fun half_bw dw_step0 detuning0 vf_step vb state_vc Ts beta
           state_m0 Am Bm Cm Dm mech_exe =>
         let '(_, vc, vr, dw, state_m) :=
           sim_scav_step env half_bw dw_step0 detuning0 vf_step vb state_vc
                         Ts beta state_m0 Am Bm Cm Dm mech_exe in
         (b, vc, vr, dw, state_m);
     Ad := Ad env; Bd := Bd env; Cd := Cd env; Dd := Dd env;
     randn := randn env |}.

(** The status of the call that [simulation_step] makes in state [s], drawn
    from the same inputs. *)
Definition status_of (r : bool * C * C * R * matrix) : bool :=
  let '(status, _, _, _, _) := r in status.

(** Two objects that agree on every field except, possibly, the value of
    [control_params['phase']]. *)
Definition differ_only_in_phase (s1 s2 : sim_state) : Prop :=
  dict_keys (control_params s1) = dict_keys (control_params s2)
  /\ (forall k : string,
        k <> "phase"%string ->
        dict_get k (control_params s1) = dict_get k (control_params s2))
  /\ simulation_running s1 = simulation_running s2
  /\ recording s1 = recording s2
  /\ playback_mode s1 = playback_mode s2
  /\ state_m s1 = state_m s2
  /\ state_vc s1 = state_vc s2
  /\ pha_src s1 = pha_src s2
  /\ buf_id s1 = buf_id s2
  /\ dw s1 = dw s2
  /\ beam_pul s1 = beam_pul s2
  /\ base_pul s1 = base_pul s2
  /\ history_data s1 = history_data s2
  /\ rng_draws s1 = rng_draws s2.

(** Concrete collaborators and states used to exercise the statements. *)

(** An integrator that reports failure and hands back its inputs. *)
Definition failing_scav_step
    (half_bw dw_step0 detuning0 : R) (vf_step vb state_vc : C) (Ts beta : R)
    (state_m0 Am Bm Cm Dm : matrix) (mech_exe : bool)
  : bool * C * C * R * matrix :=
  (false, state_vc, C0, dw_step0, state_m0).

(** An integrator that reports success: one explicit Euler step of the cavity
    equation, detuning and mechanical state passed through. *)
Definition euler_scav_step
    (half_bw dw_step0 detuning0 : R) (vf_step vb state_vc : C) (Ts beta : R)
    (state_m0 Am Bm Cm Dm : matrix) (mech_exe : bool)
  : bool * C * C * R * matrix :=
  (true,
   mkC (Re state_vc + Ts * (2 * half_bw * (Re vf_step + Re vb) - half_bw * Re state_vc))
       (Im state_vc + Ts * (2 * half_bw * (Im vf_step + Im vb) - half_bw * Im state_vc)),
   mkC (Re state_vc - Re vf_step) (Im state_vc - Im vf_step),
   dw_step0 + detuning0, state_m0).

(** Collaborators with the given integrator, a one-state mechanical model and
    no noise. *)
Definition quiet_env (scav : _) : collaborators :=
  {| sim_scav_step := scav;
     Ad := [[1]]; Bd := [[0]]; Cd := [[0]]; Dd := [[0]];
     randn := fun _ => 0 |}.

Definition euler_env : collaborators := quiet_env euler_scav_step.
Definition failing_env : collaborators := quiet_env failing_scav_step.

(** [s] after the [pulsed] check box was ticked, with the pulse counter at
    [b]. *)
Definition pulsed_at (b : Z) (s : sim_state) : sim_state :=
  set_buf_id b
    (set_control_params (dict_set "pulsed" (PBool true) (control_params s)) s).

(** [s] after the phase slider was moved to [v] degrees. *)
Definition with_phase (v : R) (s : sim_state) : sim_state :=
  set_control_params (dict_set "phase" (PFloat v) (control_params s)) s.

(** The object after one setpoint of a scan: the parameter is set to
    [value] and the 100 steps of the settling window have run. *)
Definition settle (env : collaborators) (cfg : config) (param : string)
    (value : R) (s : sim_state) : sim_state :=
  fst (run_steps env cfg 100 None
         (set_control_params (dict_set param (PFloat value) (control_params s)) s)).

(** The objects after the first, second, ... setpoint of a scan from [s]. *)
Fixpoint scan_states (env : collaborators) (cfg : config) (param : string)
    (values : list R) (s : sim_state) : list sim_state :=
  match values with
  | [] => []
  | value :: later =>
      settle env cfg param value s
        :: scan_states env cfg param later (settle env cfg param value s)
  end.

(** The response read at the end of a settling window: the magnitude of the
    cavity voltage, in MV. *)
Definition response_of (s : sim_state) : R := Cabs (state_vc s) * (1 / 1000000).

(** One call of [store_data] together with what the rest of the program may
    have changed since the call before: the recording switch, the mechanical
    state and the values of the control parameters. *)
Record store_call : Type := {
  call_recording : bool;
  call_state_m : matrix;
  call_params : dict pyval;
  call_time : R;
  call_vc : C;
  call_vr : C;
  call_dw : R
}.

Definition before_call (c : store_call) (s : sim_state) : sim_state :=
  set_recording (call_recording c)
    (set_state_m (call_state_m c) (set_control_params (call_params c) s)).

(** The object after the calls of [calls], one after the other; a call that
    raises leaves the object as it is at the [raise]. *)
Fixpoint store_all (cfg : config) (calls : list store_call) (s : sim_state)
  : sim_state :=
  match calls with
  | [] => s
  | c :: later =>
      store_all cfg later
        (fst (store_data cfg (call_time c) (call_vc c) (call_vr c) (call_dw c)
                (before_call c s)))
  end.

(** A history whose sample and per-mode channels all hold [n] elements and
    whose control-parameter channels all hold [c]. *)
Definition aligned (cfg : config) (n c : nat) (h : history) : Prop :=
  dict_keys (h_main h) = main_keys
  /\ Forall (fun kv => List.length (snd kv) = n) (h_main h)
  /\ List.length (h_mech_modes h) = n_modes cfg
  /\ Forall (fun l => List.length l = n) (h_mech_modes h)
  /\ dict_keys (h_control_params h) = recorded_keys
  /\ Forall (fun kv => List.length (snd kv) = c) (h_control_params h).

(** The value stored under each sample key. *)
Definition sample_value (key : string) (now : R) (vc vr : C) (dw : R) : R :=
  if String.eqb key "time" then now
  else if String.eqb key "vc_real" then Re vc
  else if String.eqb key "vc_imag" then Im vc
  else if String.eqb key "vc_mag" then Cabs vc
  else if String.eqb key "vc_phase" then Cangle vc * 180 / PI
  else if String.eqb key "vr_real" then Re vr
  else if String.eqb key "vr_imag" then Im vr
  else if String.eqb key "vr_mag" then Cabs vr
  else if String.eqb key "vr_phase" then Cangle vr * 180 / PI
  else dw / (2 * PI).

Definition with_sample (now : R) (vc vr : C) (dw : R) (d : dict (list R))
  : dict (list R) :=
  map (fun kv => (fst kv, snd kv ++ [sample_value (fst kv) now vc vr dw])) d.

(** Channel [start], [start + 1], ... each extended by its value. *)
Fixpoint with_modes (val : nat -> R) (start : nat) (m : list (list R))
  : list (list R) :=
  match m with
  | [] => []
  | l :: t => (l ++ [val start]) :: with_modes val (S start) t
  end.

Definition with_controls (cp : dict pyval) (c : dict (list pyval))
  : dict (list pyval) :=
  map (fun kv =>
         (fst kv,
          match dict_get (fst kv) cp with
          | inr v => snd kv ++ [v]
          | inl _ => snd kv
          end)) c.

(** Every channel without its oldest element. *)
Definition evicted (h : history) : history :=
  mkHistory (map (fun kv => (fst kv, tl (snd kv))) (h_main h))
            (map (@tl R) (h_mech_modes h))
            (map (fun kv => (fst kv, tl (snd kv))) (h_control_params h)).

(** The history that [store_data] leaves. *)
Definition stored (cfg : config) (now : R) (vc vr : C) (dw : R) (s : sim_state)
  : history :=
  let h := history_data s in
  let full :=
    match dict_get "time" (h_main h) with
    | inr t => (max_history cfg <=? len t)%Z
    | inl _ => false
    end in
  let h1 := if full then evicted h else h in
  mkHistory (with_sample now vc vr dw (h_main h1))
            (with_modes (mode_value (state_m s)) 0 (h_mech_modes h1))
            (if recording s
             then with_controls (control_params s) (h_control_params h1)
             else h_control_params h1).

(** A [store_data] call as the loop makes it at the start state, with the
    recording switch at [rec] and the clock at [now]. *)
Definition gui_call (rec : bool) (now : R) : store_call :=
  {| call_recording := rec;
     call_state_m := zeros (shape (Bd euler_env));
     call_params := control_params (init_state euler_env gui_config);
     call_time := now;
     call_vc := mkC 1 0;
     call_vr := C0;
     call_dw := 0 |}.

(** The capacity of the history of [gui_config], as a count. *)
Definition gui_capacity : nat := Z.to_nat (max_history gui_config).

(** The start state after the loop has filled the history to its capacity
    with recording off. *)
Definition full_history_state : sim_state :=
  store_all gui_config (repeat (gui_call false 0) gui_capacity)
            (init_state euler_env gui_config).

(** [gui_config] with a history of two samples. *)
Definition two_sample_config : config :=
  {| Ts := Ts gui_config;
     t_fill := t_fill gui_config;
     t_flat := t_flat gui_config;
     buf_size := buf_size gui_config;
     pul_len := pul_len gui_config;
     mech_f := mech_f gui_config;
     mech_Q := mech_Q gui_config;
     mech_K := mech_K gui_config;
     f0 := f0 gui_config;
     beta := beta gui_config;
     roQ := roQ gui_config;
     QL := QL gui_config;
     ib := ib gui_config;
     beam_cw := beam_cw gui_config;
     base_cw := base_cw gui_config;
     max_history := 2 |}.

(** The column of the CSV file that holds a sample channel, if any. *)
Definition csv_column (key : string) : option nat :=
  if String.eqb key "time" then Some 0%nat
  else if String.eqb key "vc_mag" then Some 1%nat
  else if String.eqb key "vc_phase" then Some 2%nat
  else if String.eqb key "vr_mag" then Some 3%nat
  else if String.eqb key "detuning" then Some 4%nat
  else None.

(** Row [i] of the table written for [h]. *)
Definition row_of (h : history) (i : nat) : list R :=
  map (fun key =>
         match dict_get key (h_main h) with
         | inr l => nth i l 0
         | inl _ => 0
         end)
      ["time"; "vc_mag"; "vc_phase"; "vr_mag"; "detuning"]%string
  ++ map (fun m => nth i m 0) (h_mech_modes h).

(** A history after one more row of a CSV file was read into it. *)
Definition load_row (row : list R) (h : history) : history :=
  mkHistory
    (map (fun kv =>
            (fst kv,
             match csv_column (fst kv) with
             | Some j => snd kv ++ [nth j row 0]
             | None => snd kv
             end)) (h_main h))
    (with_modes (fun j => nth (j + 5) row 0) 0 (h_mech_modes h))
    (h_control_params h).

(** What a CSV file keeps of a history, cut after the first [k] samples: the
    five tabulated sample channels and the per-mode channels; the other
    sample channels and the control-parameter channels come back empty. *)
Definition csv_image (k : nat) (h : history) : history :=
  mkHistory
    (map (fun kv =>
            (fst kv,
             match csv_column (fst kv) with
             | Some _ => firstn k (snd kv)
             | None => []
             end)) (h_main h))
    (map (firstn k) (h_mech_modes h))
    [("amp", []); ("phase", []); ("fsrc", []); ("pulsed", [])]%string.

(** The start state after the loop has stored one sample, and the table
    that [save_data] writes for it. *)
Definition one_sample_state : sim_state :=
  store_all gui_config [gui_call false 0] (init_state euler_env gui_config).

Definition one_sample_csv : file_content :=
  CsvFile (mkCsv (csv_header_row gui_config)
                 [row_of (history_data one_sample_state) 0]).

(** The tabulated sample channels and the ones the table leaves out. *)
Definition csv_keys : list string :=
  ["time"; "vc_mag"; "vc_phase"; "vr_mag"; "detuning"]%string.

Definition untabulated_keys : list string :=
  ["vc_real"; "vc_imag"; "vr_real"; "vr_imag"; "vr_phase"]%string.

(** What the spec asks of the modulator: the index is clamped into
    [0, len - 1] on both sides.  Stated from the spec, to be compared with
    [sim_iqmod]. *)
Definition clamp (i lo hi : Z) : Z := Z.max lo (Z.min i hi).

Definition spec_modulate (sample : C) (pulsed : bool) (baseband_buffer : list C)
    (gate : R) (buffer_index : Z) : result C :=
  if pulsed then
    match nth_error baseband_buffer
            (Z.to_nat (clamp buffer_index 0 (len baseband_buffer - 1))) with
    | Some g => ok (Cmult sample g)
    | None => raise IndexError
    end
  else ok (Cmult sample (RtoC gate)).

(** The oscillator phase after [n] calls of [sim_rfsrc], each fed the phase
    returned by the one before. *)
Fixpoint phase_after (n : nat) (fsrc Asrc pha_src Ts : R) : R :=
  match n with
  | O => pha_src
  | S n' => phase_after n' fsrc Asrc (snd (sim_rfsrc fsrc Asrc pha_src Ts)) Ts
  end.

(* ------------------------------------------------------------------------- *)
(** ** The widget callbacks of [CavitySimulationGUI] *)

Definition set_playback_mode (v : bool) (s : sim_state) : sim_state :=
  mkState (control_params s) (simulation_running s) (recording s) v (state_m s)
    (state_vc s) (pha_src s) (buf_id s) (dw s) (beam_pul s) (base_pul s)
    (history_data s) (rng_draws s).

(** [update_params], with the values of the five widget variables; the
    value labels are not modelled. *)
Definition update_params (amp_var phase_var fsrc_var ib_var : R)
    (pulsed_var : bool) : M unit :=
  ps <- gets control_params ;;
  modify (set_control_params (dict_set "amp" (PFloat amp_var) ps)) ;;
  ps <- gets control_params ;;
  modify (set_control_params (dict_set "phase" (PFloat phase_var) ps)) ;;
  ps <- gets control_params ;;
  modify (set_control_params (dict_set "fsrc" (PFloat fsrc_var) ps)) ;;
  ps <- gets control_params ;;
  modify (set_control_params (dict_set "ib" (PFloat ib_var) ps)) ;;
  ps <- gets control_params ;;
  modify (set_control_params (dict_set "pulsed" (PBool pulsed_var) ps)).

(** [toggle_recording]; it returns the text it puts on the status label. *)
Definition toggle_recording : M string :=
  r <- gets recording ;;
  modify (set_recording (negb r)) ;;
  r <- gets recording ;;
  if r then ret "Recording"%string
  else
    running <- gets simulation_running ;;
    if running then ret "Running"%string else ret "Stopped"%string.

(** [toggle_playback]; it returns the message box, if any, and the upper end
    it gives to the playback scale, if it sets one. *)
Definition toggle_playback : M (dialog * option Z) :=
  h <- gets history_data ;;
  t <- lift (dict_get "time" (h_main h)) ;;
  match t with
  | [] => ret (ShowWarning "Warning" "No data to playback!", None)
  | _ :: _ =>
      pb <- gets playback_mode ;;
      modify (set_playback_mode (negb pb)) ;;
      pb <- gets playback_mode ;;
      if pb then
        h <- gets history_data ;;
        t <- lift (dict_get "time" (h_main h)) ;;
        ret (NoDialog, Some (len t - 1)%Z)
      else ret (NoDialog, None)
  end.

(** What the user and the loop thread can do to the object, apart from
    loading a file: the buttons, the sliders, a scan, and some turns of the
    simulation loop. *)
Inductive action : Type :=
| PressStart
| PressStop
| PressReset
| PressRecord
| PressPlayback
| MoveSliders (amp_var phase_var fsrc_var ib_var : R) (pulsed_var : bool)
| PressScan (param : string) (min_val max_val : R)
| LoopTurns (clock : list R).

(** The object after an action; an action that raises leaves the object as
    it is at the [raise]. *)
Definition perform (env : collaborators) (cfg : config) (a : action)
    (s : sim_state) : sim_state :=
  match a with
  | PressStart => fst (start_simulation s)
  | PressStop => fst (stop_simulation s)
  | PressReset => fst (reset_simulation env s)
  | PressRecord => fst (toggle_recording s)
  | PressPlayback => fst (toggle_playback s)
  | MoveSliders a p f i b => fst (update_params a p f i b s)
  | PressScan param lo hi => fst (start_parameter_scan env cfg param lo hi s)
  | LoopTurns clock => fst (simulation_loop env cfg clock s)
  end.

Definition session (env : collaborators) (cfg : config) (actions : list action)
    (s : sim_state) : sim_state :=
  fold_left (fun s a => perform env cfg a s) actions s.

(* ------------------------------------------------------------------------- *)
(** ** The main loop of [sim_cavity_standalone.py] *)

(** The module-level variables that the loop writes, the state of numpy's
    generator, and the four result arrays. *)
Record script_state : Type := mkScript {
  g_state_m : matrix;
  g_state_vc : C;
  g_pha_src : R;
  g_buf_id : Z;
  g_dw : R;
  g_rng_draws : nat;
  sig_vc : list C;
  sig_vr : list C;
  sig_dw : list C;
  sig_mech : list (list C)
}.

(** [a[i] = x] on an array: [IndexError] outside it. *)
Definition array_set {A} (i : nat) (x : A) (a : list A) : result (list A) :=
  if (i <? List.length a)%nat then ok (list_update i x a) else raise IndexError.

(** The control parameters of the script. *)
Definition script_amp : R := 1.
Definition script_fsrc : R := -460.
Definition script_pulsed : bool := false.
Definition script_gain_dB : R := 20 * log10 12000000.

Section Script.

Variable env : collaborators.

(** The constants of the script and its number of steps. *)
Variable cfg : config.
Variable sim_len : nat.

(** [beam_pul] and [base_pul] as the script builds them. *)
Definition script_beam_pul : list C :=
  slice_fill (t_fill cfg) (t_flat cfg) (RtoC (ib cfg))
    (slice_fill 0 (buf_size cfg) C0 (repeat C0 (buf_size cfg))).

Definition script_base_pul : list C :=
  slice_fill 0 (t_flat cfg) (RtoC 1) (repeat C0 (buf_size cfg)).

Definition script_init : script_state :=
  {| g_state_m := zeros (shape (Bd env));
     g_state_vc := C0;
     g_pha_src := 0;
     g_buf_id := 0;
     g_dw := 0;
     g_rng_draws := 0;
     sig_vc := repeat C0 sim_len;
     sig_vr := repeat C0 sim_len;
     sig_dw := repeat C0 sim_len;
     sig_mech := repeat (repeat C0 (n_modes cfg)) sim_len |}.

(** [for j in range(len(mech_modes['f'])): try: sig_mech[i, j] = state_m[0, j]
    except: pass]: an index outside [state_m] or outside [sig_mech] leaves
    the array as it is. *)
Definition script_store_mech (i : nat) (state_m : matrix) (a : list (list C))
  : list (list C) :=
  fold_left
    (fun a j =>
       match state_m with
       | r :: _ =>
           match nth_error r j, nth_error a i with
           | Some v, Some row =>
               if (j <? List.length row)%nat
               then list_update i (list_update j (RtoC v) row) a
               else a
           | _, _ => a
           end
       | [] => a
       end)
    (seq 0 (n_modes cfg)) a.

(** The body of [for i in range(sim_len)], without the progress line. *)
Definition script_turn (i : nat) (g : script_state) : result script_state :=
  let '(S0, pha_src) := sim_rfsrc script_fsrc script_amp (g_pha_src g) (Ts cfg) in
  let buf_id := standalone_pulse_branch script_pulsed (pul_len cfg) (g_buf_id g) in
  rbind (sim_iqmod S0 script_pulsed script_base_pul (base_cw cfg) buf_id) (fun S1 =>
  let S2 := sim_amp S1 script_gain_dB in
  let dw_micr := 2 * PI * randn env (g_rng_draws g) * 10 in
  rbind (sim_cav env (wh cfg) (RL cfg) (g_dw g) (0 + dw_micr) S2 (g_state_vc g)
                 (Ts cfg) (beta cfg) (g_state_m g)
                 (Ad env) (Bd env) (Cd env) (Dd env)
                 script_pulsed script_beam_pul (beam_cw cfg) buf_id)
        (fun out =>
  let '(vc, vr, dw, state_vc, state_m) := out in
  rbind (array_set i vc (sig_vc g)) (fun a_vc =>
  rbind (array_set i vr (sig_vr g)) (fun a_vr =>
  rbind (array_set i (RtoC dw) (sig_dw g)) (fun a_dw =>
  ok (mkScript state_m state_vc pha_src buf_id dw (S (g_rng_draws g))
               a_vc a_vr a_dw
               (script_store_mech i state_m (sig_mech g)))))))).

Fixpoint script_loop (indices : list nat) (g : script_state) : result script_state :=
  match indices with
  | [] => ok g
  | i :: later => rbind (script_turn i g) (script_loop later)
  end.

(** The script from its first statement to the end of the loop. *)
Definition script_run : result script_state :=
  script_loop (seq 0 sim_len) script_init.

End Script.

(** [sim_len] of the script. *)
Definition standalone_sim_len : nat := 2048 * 4.

(** The object after [n] calls of [simulation_step]. *)
Definition state_after (env : collaborators) (cfg : config) (n : nat)
    (s : sim_state) : sim_state :=
  Nat.iter n (fun s => fst (simulation_step env cfg s)) s.

(** Two sets of constants that describe the same cavity and the same
    continuous-wave gates; the buffers and the pulse period may differ. *)
Definition same_cavity (cfg1 cfg2 : config) : Prop :=
  Ts cfg1 = Ts cfg2
  /\ f0 cfg1 = f0 cfg2
  /\ QL cfg1 = QL cfg2
  /\ roQ cfg1 = roQ cfg2
  /\ beta cfg1 = beta cfg2
  /\ base_cw cfg1 = base_cw cfg2
  /\ beam_cw cfg1 = beam_cw cfg2.

(** The script's variables hold what the object's fields hold. *)
Definition in_step (g : script_state) (s : sim_state) : Prop :=
  g_state_m g = state_m s
  /\ g_state_vc g = state_vc s
  /\ g_pha_src g = pha_src s
  /\ g_dw g = dw s
  /\ g_rng_draws g = rng_draws s.

(* ------------------------------------------------------------------------- *)
(** ** Further vocabulary *)

(** What a step leaves alone whether it returns or raises. *)
Definition untouched_by_step (s s' : sim_state) : Prop :=
  control_params s' = control_params s
  /\ simulation_running s' = simulation_running s
  /\ recording s' = recording s
  /\ playback_mode s' = playback_mode s
  /\ base_pul s' = base_pul s
  /\ history_data s' = history_data s.

(** The value of a control parameter ([0.0] stands in for a missing key,
    which a well-formed object does not have). *)
Definition param_value (k : string) (s : sim_state) : pyval :=
  match dict_get k (control_params s) with
  | inr v => v
  | inl _ => PFloat 0
  end.

(** The element that the guarded index selects in a non-empty buffer. *)
Definition envelope (buf : list C) (b : Z) : C :=
  if (b <? len buf)%Z then nth (Z.to_nat b) buf C0 else last buf C0.

(** What one step computes from the object [s], stage by stage: the beam
    profile, the pulse counter, the oscillator phase, the amplified drive,
    the beam voltage, and the call of the integrator. *)
Definition step_beam (cfg : config) (s : sim_state) : list C :=
  slice_fill (t_fill cfg) (t_flat cfg) (RtoC (to_float (param_value "ib" s))) (beam_pul s).

Definition step_counter (cfg : config) (s : sim_state) : Z :=
  standalone_pulse_branch (truthy (param_value "pulsed" s)) (pul_len cfg) (buf_id s).

Definition step_phase (cfg : config) (s : sim_state) : R :=
  pha_src s + 2 * PI * to_float (param_value "fsrc" s) * Ts cfg.

Definition step_drive (cfg : config) (s : sim_state) : C :=
  sim_amp
    (Cmult (fst (sim_rfsrc (to_float (param_value "fsrc" s)) (to_float (param_value "amp" s))
                           (pha_src s) (Ts cfg)))
           (if truthy (param_value "pulsed" s)
            then envelope (base_pul s) (step_counter cfg s)
            else RtoC (base_cw cfg)))
    (to_float (param_value "gain_dB" s)).

Definition step_beam_voltage (cfg : config) (s : sim_state) : C :=
  if truthy (param_value "pulsed" s)
  then Cmult (RtoC (- RL cfg)) (envelope (step_beam cfg s) (step_counter cfg s))
  else RtoC (- RL cfg * beam_cw cfg).

Definition integrator_call (env : collaborators) (cfg : config) (s : sim_state)
  : bool * C * C * R * matrix :=
  sim_scav_step env (wh cfg) (dw s) (0 + 2 * PI * randn env (rng_draws s) * 10)
                (step_drive cfg s) (step_beam_voltage cfg s) (state_vc s)
                (Ts cfg) (beta cfg) (state_m s)
                (Ad env) (Bd env) (Cd env) (Dd env) true.

Definition step_output (env : collaborators) (cfg : config) (s : sim_state)
  : C * C * R :=
  let '(_, vc, vr, d, _) := integrator_call env cfg s in (vc, vr, d).

Definition after_step (env : collaborators) (cfg : config) (s : sim_state)
  : sim_state :=
  let '(_, vc, _, d, sm) := integrator_call env cfg s in
  set_state_m sm
    (set_state_vc vc
       (set_dw d
          (set_rng_draws (S (rng_draws s))
             (set_buf_id (step_counter cfg s)
                (set_pha_src (step_phase cfg s)
                   (set_beam_pul (step_beam cfg s) s)))))).

(** The envelope buffers as [init_simulation_params] builds them and as the
    steps keep them: the baseband profile is [1] up to [t_flat] and [0]
    after it; the beam profile is some current inside [t_fill, t_flat) and
    [0] outside. *)
Definition profiled (cfg : config) (s : sim_state) : Prop :=
  base_pul s = slice_fill 0 (t_flat cfg) (RtoC 1) (repeat C0 (buf_size cfg))
  /\ exists x : C,
       beam_pul s = slice_fill (t_fill cfg) (t_flat cfg) x (repeat C0 (buf_size cfg)).

(** Two objects that agree on every field except, possibly, the value of
    [control_params['ib']] and the beam profile written from it. *)
Definition differ_only_in_beam (s1 s2 : sim_state) : Prop :=
  dict_keys (control_params s1) = dict_keys (control_params s2)
  /\ (forall k : string,
        k <> "ib"%string ->
        dict_get k (control_params s1) = dict_get k (control_params s2))
  /\ simulation_running s1 = simulation_running s2
  /\ recording s1 = recording s2
  /\ playback_mode s1 = playback_mode s2
  /\ state_m s1 = state_m s2
  /\ state_vc s1 = state_vc s2
  /\ pha_src s1 = pha_src s2
  /\ buf_id s1 = buf_id s2
  /\ dw s1 = dw s2
  /\ base_pul s1 = base_pul s2
  /\ history_data s1 = history_data s2
  /\ rng_draws s1 = rng_draws s2.

(** [s] after the beam-current slider was moved to [v] ampere. *)
Definition with_ib (v : R) (s : sim_state) : sim_state :=
  set_control_params (dict_set "ib" (PFloat v) (control_params s)) s.

(** The last [k] elements of a list, in order (the whole list when it is
    shorter). *)
Definition recent {A} (k : nat) (l : list A) : list A :=
  skipn (List.length l - k) l.

(** A history with every channel emptied, as [reset_simulation] leaves it. *)
Definition cleared (h : history) : history :=
  mkHistory (map (fun kv => (fst kv, [])) (h_main h))
            (map (fun _ => []) (h_mech_modes h))
            (map (fun kv => (fst kv, [])) (h_control_params h)).

(** What the script's arrays hold after its first [a] turns, [len_arrays]
    being their length: the entries below [a] are what the driver's steps on
    [s0] return, the rows of [sig_mech] from [a] on are still zero. *)
Definition filled (env : collaborators) (cfg_script cfg_gui : config)
    (s0 : sim_state) (len_arrays a : nat) (g : script_state) : Prop :=
  in_step g (state_after env cfg_gui a s0)
  /\ g_buf_id g = 0%Z
  /\ List.length (sig_vc g) = len_arrays
  /\ List.length (sig_vr g) = len_arrays
  /\ List.length (sig_dw g) = len_arrays
  /\ List.length (sig_mech g) = len_arrays
  /\ (forall i, (i < a)%nat ->
        step_output env cfg_gui (state_after env cfg_gui i s0)
        = (nth i (sig_vc g) C0, nth i (sig_vr g) C0, Re (nth i (sig_dw g) C0))
        /\ Im (nth i (sig_dw g) C0) = 0
        /\ nth i (sig_mech g) []
           = map (fun j => RtoC (mode_value
                                   (state_m (state_after env cfg_gui (S i) s0)) j))
                 (seq 0 (n_modes cfg_script)))
  /\ (forall i, (a <= i < len_arrays)%nat ->
        nth i (sig_mech g) [] = repeat C0 (n_modes cfg_script)).

(* ========================================================================= *)
(** * Properties *)

(** ** Sequences and dictionaries *)

Lemma C_eq (a b : C) : Re a = Re b -> Im a = Im b -> a = b.
Proof. destruct a, b; simpl; intros -> ->; reflexivity. Qed.

Lemma len_pos {A} (l : list A) : l <> [] -> (0 < len l)%Z.
Proof. destruct l; [congruence | unfold len; simpl; lia]. Qed.

Lemma py_index_in_range {A} (l : list A) (i : Z) (d : A) :
  (0 <= i < len l)%Z -> py_index l i = ok (nth (Z.to_nat i) l d).
Proof.
  intros Hi. unfold py_index.
  destruct (i <? 0)%Z eqn:Hneg; [apply Z.ltb_lt in Hneg; lia |].
  rewrite Hneg.
  destruct (nth_error l (Z.to_nat i)) eqn:Hnth.
  - f_equal. symmetry. apply nth_error_nth. exact Hnth.
  - apply nth_error_None in Hnth. unfold len in Hi. lia.
Qed.

Lemma py_index_minus_one {A} (l : list A) (d : A) :
  l <> [] -> py_index l (-1) = ok (last l d).
Proof.
  intros Hl. unfold py_index.
  pose proof (len_pos l Hl) as Hpos.
  replace (-1 <? 0)%Z with true by reflexivity.
  destruct (-1 + len l <? 0)%Z eqn:Hneg; [apply Z.ltb_lt in Hneg; lia |].
  destruct (nth_error l (Z.to_nat (-1 + len l))) eqn:Hnth.
  - f_equal.
    destruct (exists_last Hl) as [l' [x ->]].
    rewrite last_last.
    unfold len in Hnth. rewrite length_app in Hnth. cbn [List.length] in Hnth.
    replace (Z.to_nat (-1 + Z.of_nat (List.length l' + 1))) with (List.length l') in Hnth by lia.
    rewrite nth_error_app2 in Hnth by apply Nat.le_refl.
    rewrite Nat.sub_diag in Hnth. simpl in Hnth. congruence.
  - apply nth_error_None in Hnth. unfold len in *. lia.
Qed.

(** The guarded index never raises on a non-empty buffer and a non-negative
    counter. *)
Lemma py_index_buf_index {A} (buf : list A) (b : Z) (d : A) :
  buf <> [] -> (0 <= b)%Z ->
  py_index buf (buf_index buf b)
  = ok (if (b <? len buf)%Z then nth (Z.to_nat b) buf d else last buf d).
Proof.
  intros Hbuf Hb. unfold buf_index.
  destruct (b <? len buf)%Z eqn:Hlt.
  - apply Z.ltb_lt in Hlt. apply py_index_in_range. lia.
  - apply py_index_minus_one. exact Hbuf.
Qed.

Lemma last_cons_head {A} (l : list A) :
  forall x d : A, last (x :: l) d = last l x.
Proof.
  induction l as [| y ys IH]; intros x d; [reflexivity |].
  change (last (x :: y :: ys) d) with (last (y :: ys) d).
  rewrite (IH y d). symmetry. apply IH.
Qed.

Lemma slice_fill_nonempty {A} (l : list A) lo hi (v : A) :
  l <> [] -> slice_fill lo hi v l <> [].
Proof. destruct l; [congruence | discriminate]. Qed.

Lemma dict_get_in_keys {V} (k : string) (d : dict V) :
  In k (dict_keys d) -> exists v, dict_get k d = ok v.
Proof.
  induction d as [| [k' v'] t IH]; simpl; [tauto |].
  intros [Heq | Hin].
  - subst k'. rewrite String.eqb_refl. eauto.
  - destruct (String.eqb k k'); eauto.
Qed.

Lemma dict_keys_set {V} (k : string) (v : V) (d : dict V) :
  In k (dict_keys d) -> dict_keys (dict_set k v d) = dict_keys d.
Proof.
  induction d as [| [k' v'] t IH]; simpl; [tauto |].
  intros Hin. destruct (String.eqb k k') eqn:Hk; simpl; [reflexivity |].
  f_equal. apply IH. destruct Hin as [Heq | Hin]; [| exact Hin].
  subst k'. rewrite String.eqb_refl in Hk. discriminate.
Qed.

Lemma dict_get_set_same {V} (k : string) (v : V) (d : dict V) :
  dict_get k (dict_set k v d) = ok v.
Proof.
  induction d as [| [k' v'] t IH]; simpl.
  - now rewrite String.eqb_refl.
  - destruct (String.eqb k k') eqn:Hk; simpl; rewrite Hk; [reflexivity | exact IH].
Qed.

Lemma dict_get_set_other {V} (k k0 : string) (v : V) (d : dict V) :
  k <> k0 -> dict_get k (dict_set k0 v d) = dict_get k d.
Proof.
  intros Hne. induction d as [| [k' v'] t IH]; simpl.
  - destruct (String.eqb k k0) eqn:Hk; [apply String.eqb_eq in Hk; contradiction | reflexivity].
  - destruct (String.eqb k0 k') eqn:Hk0; simpl.
    + apply String.eqb_eq in Hk0. subst k'.
      destruct (String.eqb k k0) eqn:Hk; [| reflexivity].
      apply String.eqb_eq in Hk. contradiction.
    + destruct (String.eqb k k'); [reflexivity | exact IH].
Qed.

Lemma dict_set_set {V} (k : string) (v w : V) (d : dict V) :
  In k (dict_keys d) -> dict_set k w (dict_set k v d) = dict_set k w d.
Proof.
  induction d as [| [k' v'] t IH]; simpl; [tauto |].
  intros Hin. destruct (String.eqb k k') eqn:Hk; simpl; rewrite Hk; [reflexivity |].
  f_equal. apply IH. destruct Hin as [Heq | Hin]; [| exact Hin].
  subst k'. rewrite String.eqb_refl in Hk. discriminate.
Qed.

Lemma dict_set_get {V} (k : string) (v : V) (d : dict V) :
  dict_get k d = ok v -> dict_set k v d = d.
Proof.
  induction d as [| [k' v'] t IH]; simpl; [discriminate |].
  destruct (String.eqb k k') eqn:Hk.
  - intros [= ->]. reflexivity.
  - intros H. f_equal. auto.
Qed.

(** ** The RF chain *)

(** C9. The source oscillator adds [2 * pi * fsrc * Ts] to the phase it is
    given and returns that new phase together with the sample
    [Asrc * exp(i * new_phase)], i.e. [Asrc * (cos new_phase + i sin
    new_phase)]; fed its own output, it has accumulated [n] such increments
    after [n] calls, whatever the elapsed time. *)
Theorem sim_rfsrc_accumulates_phase (fsrc Asrc pha_src Ts : R) :
  let new_phase := pha_src + 2 * PI * fsrc * Ts in
  sim_rfsrc fsrc Asrc pha_src Ts
  = (mkC (Asrc * cos new_phase) (Asrc * sin new_phase), new_phase)
  /\ forall n : nat,
       phase_after n fsrc Asrc pha_src Ts = pha_src + INR n * (2 * PI * fsrc * Ts).
Proof.
  intros new_phase. split.
  - unfold sim_rfsrc. fold new_phase. f_equal.
    apply C_eq; simpl.
    + replace (0 * new_phase - 1 * 0) with 0 by ring. rewrite exp_0.
      replace (0 * 0 + 1 * new_phase) with new_phase by ring. ring.
    + replace (0 * new_phase - 1 * 0) with 0 by ring. rewrite exp_0.
      replace (0 * 0 + 1 * new_phase) with new_phase by ring. ring.
  - intros n. revert pha_src new_phase.
    induction n as [| n IH]; intros pha_src new_phase.
    + simpl. ring.
    + cbn [phase_after]. unfold sim_rfsrc at 1. cbn [snd]. rewrite IH.
      rewrite S_INR. ring.
Qed.

Lemma nth_error_last {A} (l : list A) (d : A) :
  l <> [] -> nth_error l (List.length l - 1) = Some (last l d).
Proof.
  intros Hl. destruct (exists_last Hl) as [l' [x ->]].
  rewrite last_last, length_app. cbn [List.length].
  replace (List.length l' + 1 - 1)%nat with (List.length l') by lia.
  rewrite nth_error_app2 by apply Nat.le_refl.
  now rewrite Nat.sub_diag.
Qed.

(** C7, as stated, fails below zero: with a two-element buffer the index
    [-1] selects the last element where the spec's clamp selects the first,
    and the index [-3] raises [IndexError]. *)
Lemma sim_iqmod_negative_index_not_clamped :
  sim_iqmod (RtoC 1) true [RtoC 1; RtoC 2] 1 (-1) = ok (Cmult (RtoC 1) (RtoC 2))
  /\ spec_modulate (RtoC 1) true [RtoC 1; RtoC 2] 1 (-1) = ok (Cmult (RtoC 1) (RtoC 1))
  /\ sim_iqmod (RtoC 1) true [RtoC 1; RtoC 2] 1 (-1)
     <> spec_modulate (RtoC 1) true [RtoC 1; RtoC 2] 1 (-1)
  /\ sim_iqmod (RtoC 1) true [RtoC 1; RtoC 2] 1 (-3) = raise IndexError.
Proof.
  assert (H1 : sim_iqmod (RtoC 1) true [RtoC 1; RtoC 2] 1 (-1)
               = ok (Cmult (RtoC 1) (RtoC 2))) by reflexivity.
  assert (H2 : spec_modulate (RtoC 1) true [RtoC 1; RtoC 2] 1 (-1)
               = ok (Cmult (RtoC 1) (RtoC 1))) by reflexivity.
  repeat split; try assumption; try reflexivity.
  rewrite H1, H2. intros Heq.
  apply (f_equal (fun r => match r with inr c => Re c | inl _ => 0 end)) in Heq.
  simpl in Heq. lra.
Qed.

(** C7, amended. For a non-empty buffer and a counter that is not negative,
    the pulsed modulator multiplies the sample by the buffer element at the
    counter clamped into [0, len - 1]; a counter at or above the length
    selects the last element and nothing is raised.  In continuous-wave mode
    the sample is multiplied by the scalar [base_cw], whatever the buffer and
    the counter. *)
Theorem sim_iqmod_clamps_from_above (sig_in : C) (base_pul : list C)
    (base_cw : R) (buf_id : Z) :
  base_pul <> [] -> (0 <= buf_id)%Z ->
  sim_iqmod sig_in true base_pul base_cw buf_id
  = spec_modulate sig_in true base_pul base_cw buf_id
  /\ sim_iqmod sig_in true base_pul base_cw buf_id
     = ok (Cmult sig_in
             (nth (Z.to_nat (Z.min buf_id (len base_pul - 1))) base_pul C0))
  /\ ((len base_pul <= buf_id)%Z ->
      sim_iqmod sig_in true base_pul base_cw buf_id
      = ok (Cmult sig_in (last base_pul C0)))
  /\ (forall (buf : list C) (i : Z),
        sim_iqmod sig_in false buf base_cw i = ok (Cmult sig_in (RtoC base_cw))
        /\ spec_modulate sig_in false buf base_cw i
           = ok (Cmult sig_in (RtoC base_cw))).
Proof.
  intros Hbuf Hid.
  pose proof (len_pos base_pul Hbuf) as Hpos.
  assert (Hcode : sim_iqmod sig_in true base_pul base_cw buf_id
                  = ok (Cmult sig_in
                          (if (buf_id <? len base_pul)%Z
                           then nth (Z.to_nat buf_id) base_pul C0
                           else last base_pul C0))).
  { unfold sim_iqmod. rewrite (py_index_buf_index base_pul buf_id C0 Hbuf Hid).
    reflexivity. }
  assert (Hlast : nth (List.length base_pul - 1) base_pul C0 = last base_pul C0).
  { apply nth_error_nth. apply nth_error_last. exact Hbuf. }
  repeat split.
  - rewrite Hcode. unfold spec_modulate, clamp.
    destruct (buf_id <? len base_pul)%Z eqn:Hlt.
    + apply Z.ltb_lt in Hlt.
      replace (Z.max 0 (Z.min buf_id (len base_pul - 1))) with buf_id by lia.
      rewrite (nth_error_nth' base_pul C0) by (unfold len in Hlt; lia).
      reflexivity.
    + apply Z.ltb_ge in Hlt.
      replace (Z.to_nat (Z.max 0 (Z.min buf_id (len base_pul - 1))))
        with (List.length base_pul - 1)%nat by (unfold len in *; lia).
      rewrite (nth_error_last base_pul C0 Hbuf). reflexivity.
  - rewrite Hcode.
    destruct (buf_id <? len base_pul)%Z eqn:Hlt.
    + apply Z.ltb_lt in Hlt.
      replace (Z.min buf_id (len base_pul - 1)) with buf_id by lia. reflexivity.
    + apply Z.ltb_ge in Hlt.
      replace (Z.to_nat (Z.min buf_id (len base_pul - 1)))
        with (List.length base_pul - 1)%nat by (unfold len in *; lia).
      rewrite Hlast. reflexivity.
  - intros Hge. rewrite Hcode.
    destruct (buf_id <? len base_pul)%Z eqn:Hlt; [| reflexivity].
    apply Z.ltb_lt in Hlt. lia.
Qed.

Lemma sim_iqmod_clamps_from_above_witness :
  sim_iqmod (RtoC 1) true [RtoC 1; RtoC 2] 1 5
  = spec_modulate (RtoC 1) true [RtoC 1; RtoC 2] 1 5
  /\ sim_iqmod (RtoC 1) true [RtoC 1; RtoC 2] 1 5
     = ok (Cmult (RtoC 1)
             (nth (Z.to_nat (Z.min 5 (len [RtoC 1; RtoC 2] - 1))) [RtoC 1; RtoC 2] C0))
  /\ ((len [RtoC 1; RtoC 2] <= 5)%Z ->
      sim_iqmod (RtoC 1) true [RtoC 1; RtoC 2] 1 5
      = ok (Cmult (RtoC 1) (last [RtoC 1; RtoC 2] C0)))
  /\ (forall (buf : list C) (i : Z),
        sim_iqmod (RtoC 1) false buf 1 i = ok (Cmult (RtoC 1) (RtoC 1))
        /\ spec_modulate (RtoC 1) false buf 1 i = ok (Cmult (RtoC 1) (RtoC 1))).
Proof.
  apply (sim_iqmod_clamps_from_above (RtoC 1) [RtoC 1; RtoC 2] 1 5).
  - discriminate.
  - lia.
Defined.

(** ** The per-step driver *)

Ltac fields :=
  cbn [control_params simulation_running recording playback_mode state_m
       state_vc pha_src buf_id dw beam_pul base_pul history_data rng_draws
       set_control_params set_simulation_running set_recording set_state_m
       set_state_vc set_pha_src set_buf_id set_dw set_beam_pul
       set_history_data set_rng_draws fst snd].

Ltac step_cases cp :=
  repeat (fields; cbv beta iota zeta;
          match goal with
          | |- context [match dict_get ?k cp with _ => _ end] =>
              destruct (dict_get k cp)
          | |- context [if truthy ?a then _ else _] => destruct (truthy a)
          | |- context [if (?x <=? ?y)%Z then _ else _] => destruct (x <=? y)%Z
          | |- context [match sim_iqmod ?a ?b ?c ?d ?e with _ => _ end] =>
              destruct (sim_iqmod a b c d e)
          | |- context [match sim_cav ?v ?a1 ?a2 ?a3 ?a4 ?a5 ?a6 ?a7 ?a8 ?a9
                                     ?a10 ?a11 ?a12 ?a13 ?a14 ?a15 ?a16 ?a17
                        with _ => _ end] =>
              destruct (sim_cav v a1 a2 a3 a4 a5 a6 a7 a8 a9
                                a10 a11 a12 a13 a14 a15 a16 a17)
                as [? | [[[[? ?] ?] ?] ?]]
          end).

Section Driver.

Variable env : collaborators.
Variable cfg : config.

Lemma wf_state_keys (s : sim_state) (k : string) :
  wf_state cfg s -> In k control_keys -> exists v, dict_get k (control_params s) = ok v.
Proof.
  intros (Hkeys & _) Hin. apply dict_get_in_keys. rewrite Hkeys. exact Hin.
Qed.

Lemma init_fields_wf :
  (0 < buf_size cfg)%nat -> (0 < pul_len cfg)%Z -> wf_state cfg (init_fields env cfg).
Proof.
  intros Hbuf Hpul. unfold wf_state, init_fields; cbn.
  repeat split; try lia.
  - apply slice_fill_nonempty. destruct (buf_size cfg); [lia | discriminate].
  - apply slice_fill_nonempty. destruct (buf_size cfg); [lia | discriminate].
Qed.

Lemma init_state_wf :
  (0 < buf_size cfg)%nat -> (0 < pul_len cfg)%Z -> wf_state cfg (init_state env cfg).
Proof.
  intros Hbuf Hpul. destruct (init_fields_wf Hbuf Hpul) as (H1 & H2 & H3 & H4).
  unfold wf_state, init_state. cbn. repeat split; try assumption; try lia.
Qed.

Lemma pulse_counter_wraps (b : Z) :
  (0 <= b < pul_len cfg)%Z ->
  (if (pul_len cfg <=? b + 1)%Z then 0 else b + 1)%Z = ((b + 1) mod pul_len cfg)%Z.
Proof.
  intros Hb. destruct (pul_len cfg <=? b + 1)%Z eqn:Hle.
  - apply Z.leb_le in Hle. assert (b + 1 = pul_len cfg)%Z as -> by lia.
    symmetry. apply Z_mod_same_full.
  - apply Z.leb_gt in Hle. symmetry. apply Z.mod_small. lia.
Qed.

Lemma sim_iqmod_ok (S0 : C) (p : bool) (base : list C) (cw : R) (b : Z) :
  base <> [] -> (0 <= b)%Z -> exists S1, sim_iqmod S0 p base cw b = ok S1.
Proof.
  intros Hbase Hb. unfold sim_iqmod. destruct p; [| eauto].
  rewrite (py_index_buf_index base b C0 Hbase Hb). cbn. eauto.
Qed.

Lemma sim_cav_ok (half_bw rl dw0 det0 : R) (vf vc0 : C) (ts bt : R)
    (sm0 Am Bm Cm Dm : matrix) (p : bool) (beam : list C) (cw : R) (b : Z) :
  beam <> [] -> (0 <= b)%Z ->
  exists vc vr d sm,
    sim_cav env half_bw rl dw0 det0 vf vc0 ts bt sm0 Am Bm Cm Dm p beam cw b
    = ok (vc, vr, d, vc, sm).
Proof.
  intros Hbeam Hb. unfold sim_cav.
  assert (Hvb : exists vb,
             (if p
              then rbind (py_index beam (buf_index beam b))
                         (fun x => ok (Cmult (RtoC (- rl)) x))
              else ok (RtoC (- rl * cw))) = ok vb).
  { destruct p; [| eauto].
    rewrite (py_index_buf_index beam b C0 Hbeam Hb). cbn. eauto. }
  destruct Hvb as [vb ->]. cbn [rbind ok].
  destruct (sim_scav_step env half_bw dw0 det0 vf vb vc0 ts bt sm0 Am Bm Cm Dm true)
    as [[[[status vc] vr] d] sm].
  eauto.
Qed.

(** From a well-formed state a step returns, whatever the counter and the
    integrator's status; the cavity voltage and the detuning it returns are
    the ones it has stored. *)
Lemma simulation_step_spec (s : sim_state) :
  wf_state cfg s ->
  exists vc vr d s' pulsed fsrc,
    simulation_step env cfg s = (s', ok (vc, vr, d))
    /\ dict_get "pulsed" (control_params s) = ok pulsed
    /\ dict_get "fsrc" (control_params s) = ok fsrc
    /\ wf_state cfg s'
    /\ step_frame s s'
    /\ buf_id s' = (if truthy pulsed
                    then ((buf_id s + 1) mod pul_len cfg)%Z else buf_id s)
    /\ state_vc s' = vc
    /\ dw s' = d
    /\ pha_src s' = pha_src s + 2 * PI * to_float fsrc * Ts cfg.
Proof.
  intros Hwf.
  destruct (wf_state_keys s "ib" Hwf) as [v_ib E_ib]; [cbn; tauto |].
  destruct (wf_state_keys s "fsrc" Hwf) as [v_fsrc E_fsrc]; [cbn; tauto |].
  destruct (wf_state_keys s "amp" Hwf) as [v_amp E_amp]; [cbn; tauto |].
  destruct (wf_state_keys s "pulsed" Hwf) as [v_pul E_pul]; [cbn; tauto |].
  destruct (wf_state_keys s "gain_dB" Hwf) as [v_gain E_gain]; [cbn; tauto |].
  destruct Hwf as (Hkeys & Hbase & Hbeam & Hid).
  pose proof (pulse_counter_wraps (buf_id s) Hid) as Hwrap.
  assert (Hfill : slice_fill (t_fill cfg) (t_flat cfg) (RtoC (to_float v_ib)) (beam_pul s) <> [])
    by (apply slice_fill_nonempty; exact Hbeam).
  set (beam' := slice_fill (t_fill cfg) (t_flat cfg) (RtoC (to_float v_ib)) (beam_pul s)) in *.
  set (b' := (if truthy v_pul
              then (if (pul_len cfg <=? buf_id s + 1)%Z then 0 else buf_id s + 1)
              else buf_id s)%Z).
  assert (Hb' : (0 <= b' < pul_len cfg)%Z).
  { subst b'. destruct (truthy v_pul); [| lia].
    destruct (pul_len cfg <=? buf_id s + 1)%Z eqn:Hle; [lia |].
    apply Z.leb_gt in Hle. lia. }
  set (S0 := fst (sim_rfsrc (to_float v_fsrc) (to_float v_amp) (pha_src s) (Ts cfg))).
  destruct (sim_iqmod_ok S0 (truthy v_pul) (base_pul s) (base_cw cfg) b' Hbase (proj1 Hb'))
    as [S1 E1].
  destruct (sim_cav_ok (wh cfg) (RL cfg) (dw s)
              (0 + 2 * PI * randn env (rng_draws s) * 10)
              (sim_amp S1 (to_float v_gain)) (state_vc s) (Ts cfg) (beta cfg)
              (state_m s) (Ad env) (Bd env) (Cd env) (Dd env)
              (truthy v_pul) beam' (beam_cw cfg) b' Hfill (proj1 Hb'))
    as (vc & vr & d & sm & Ecav).
  exists vc, vr, d.
  exists (set_state_m sm (set_state_vc vc (set_dw d
            (set_rng_draws (S (rng_draws s))
               (set_buf_id b'
                  (set_pha_src (pha_src s + 2 * PI * to_float v_fsrc * Ts cfg)
                     (set_beam_pul beam' s))))))).
  exists v_pul, v_fsrc.
  split; [| split; [exact E_pul | split; [exact E_fsrc |]]].
  - unfold simulation_step, advance_buf_id, draw_randn, bind, gets, lift, modify, ret, ok in *.
    cbv beta iota. rewrite E_ib. cbv beta iota. rewrite E_fsrc, E_amp.
    cbv beta iota zeta delta [sim_rfsrc]. rewrite E_pul. cbv beta iota.
    fold beam'. unfold S0, sim_rfsrc in E1. cbn [fst] in E1.
    subst b'. destruct (truthy v_pul).
    + destruct (pul_len cfg <=? buf_id s + 1)%Z eqn:Hle.
      * cbn [buf_id set_buf_id set_pha_src set_beam_pul base_pul control_params
             pha_src]. rewrite Hle. cbv beta iota.
        cbn [buf_id set_buf_id set_pha_src set_beam_pul base_pul control_params
             pha_src rng_draws dw state_vc state_m beam_pul set_rng_draws].
        rewrite E1. rewrite E_gain. rewrite Ecav. reflexivity.
      * cbn [buf_id set_buf_id set_pha_src set_beam_pul base_pul control_params
             pha_src]. rewrite Hle. cbv beta iota.
        cbn [buf_id set_buf_id set_pha_src set_beam_pul base_pul control_params
             pha_src rng_draws dw state_vc state_m beam_pul set_rng_draws].
        rewrite E1. rewrite E_gain. rewrite Ecav. reflexivity.
    + cbv beta iota.
      cbn [buf_id set_buf_id set_pha_src set_beam_pul base_pul control_params
           pha_src rng_draws dw state_vc state_m beam_pul set_rng_draws].
      rewrite E1. rewrite E_gain. rewrite Ecav.
      destruct s; reflexivity.
  - unfold wf_state, step_frame. cbn.
    repeat split; try assumption; try lia.
    subst b'. destruct (truthy v_pul); [exact Hwrap | reflexivity].
Qed.

(** The step reads [control_params] through the keys ['ib'], ['fsrc'],
    ['amp'], ['pulsed'] and ['gain_dB'] only, and never writes it. *)
Lemma simulation_step_reads_five_keys (s : sim_state) (cp' : dict pyval) :
  (forall k : string,
     k <> "phase"%string -> dict_get k cp' = dict_get k (control_params s)) ->
  simulation_step env cfg (set_control_params cp' s)
  = (set_control_params cp' (fst (simulation_step env cfg s)),
     snd (simulation_step env cfg s)).
Proof.
  intros H.
  unfold simulation_step, advance_buf_id, draw_randn, bind, gets, lift, modify, ret, ok.
  cbv beta iota delta [sim_rfsrc].
  cbn [control_params set_control_params].
  rewrite !H by discriminate.
  destruct s as [cp run rec pb sm svc ph b d beam base h rng].
  step_cases cp; reflexivity.
Qed.

Lemma simulation_step_keeps_control_params (s : sim_state) :
  control_params (fst (simulation_step env cfg s)) = control_params s
  /\ simulation_running (fst (simulation_step env cfg s)) = simulation_running s.
Proof.
  unfold simulation_step, advance_buf_id, draw_randn, bind, gets, lift, modify, ret, ok.
  cbv beta iota delta [sim_rfsrc].
  destruct s as [cp run rec pb sm svc ph b d beam base h rng].
  step_cases cp; split; reflexivity.
Qed.

Lemma sim_cav_with_status (b : bool) :
  sim_cav (with_status b env) = sim_cav env.
Proof.
  repeat (apply functional_extensionality; intro).
  unfold sim_cav, with_status. cbn [sim_scav_step].
  match goal with
  | |- rbind ?g _ = rbind ?g _ => destruct g as [e | vb]; [reflexivity |]
  end.
  cbn [rbind].
  match goal with
  | |- context [sim_scav_step env ?a1 ?a2 ?a3 ?a4 ?a5 ?a6 ?a7 ?a8 ?a9 ?a10
                              ?a11 ?a12 ?a13 ?a14] =>
      destruct (sim_scav_step env a1 a2 a3 a4 a5 a6 a7 a8 a9 a10 a11 a12 a13 a14)
        as [[[[status vc] vr] d] sm]
  end.
  reflexivity.
Qed.

Lemma simulation_step_with_status (b : bool) :
  simulation_step (with_status b env) cfg = simulation_step env cfg.
Proof.
  unfold simulation_step. rewrite (sim_cav_with_status b). reflexivity.
Qed.

Lemma simulation_loop_with_status (b : bool) (clock : list R) :
  simulation_loop (with_status b env) cfg clock = simulation_loop env cfg clock.
Proof.
  induction clock as [| now later IH]; [reflexivity |].
  cbn [simulation_loop]. rewrite IH.
  unfold simulation_loop_turn. rewrite (simulation_step_with_status b).
  reflexivity.
Qed.

(** C6. In pulsed mode a step advances the pulse counter by one modulo the
    pulse period, so that it stays in [0, pul_len) and is back at [0] when it
    reaches the period; the step returns without an exception also when the
    counter is past the end of the envelope buffers; in continuous-wave mode
    the counter is not touched.  The counter is the one that the pulsed
    branch of the standalone script's loop computes.  The resulting state is
    well formed again, so the same holds for every later step. *)
Theorem pulse_counter_wraps_modulo_period (s : sim_state) :
  wf_state cfg s ->
  exists out s' pulsed,
    simulation_step env cfg s = (s', ok out)
    /\ dict_get "pulsed" (control_params s) = ok pulsed
    /\ (truthy pulsed = true -> buf_id s' = ((buf_id s + 1) mod pul_len cfg)%Z)
    /\ (truthy pulsed = true -> (buf_id s + 1 = pul_len cfg)%Z -> buf_id s' = 0%Z)
    /\ (truthy pulsed = false -> buf_id s' = buf_id s)
    /\ (0 <= buf_id s' < pul_len cfg)%Z
    /\ buf_id s' = standalone_pulse_branch (truthy pulsed) (pul_len cfg) (buf_id s)
    /\ wf_state cfg s'.
Proof.
  intros Hwf.
  destruct (simulation_step_spec s Hwf)
    as (vc & vr & d & s' & pulsed & fsrc & Hstep & Hpul & _ & Hwf' & _ & Hid & _).
  exists (vc, vr, d), s', pulsed.
  split; [exact Hstep | split; [exact Hpul |]].
  split; [| split; [| split; [| split; [| split]]]].
  - intros Ht. rewrite Ht in Hid. exact Hid.
  - intros Ht Hend. rewrite Ht in Hid. rewrite Hid, Hend.
    apply Z_mod_same_full.
  - intros Ht. rewrite Ht in Hid. exact Hid.
  - apply Hwf'.
  - rewrite Hid. unfold standalone_pulse_branch.
    destruct (truthy pulsed); [| reflexivity].
    symmetry. apply pulse_counter_wraps. apply Hwf.
  - exact Hwf'.
Qed.

Lemma differ_only_in_phase_set_control_params (s : sim_state) (cp' : dict pyval) :
  dict_keys cp' = dict_keys (control_params s) ->
  (forall k : string,
     k <> "phase"%string -> dict_get k cp' = dict_get k (control_params s)) ->
  differ_only_in_phase (set_control_params cp' s) s.
Proof.
  intros Hkeys Hget. unfold differ_only_in_phase. cbn.
  repeat split; auto.
Qed.

Lemma differ_only_in_phase_inv (s1 s2 : sim_state) :
  differ_only_in_phase s1 s2 -> s1 = set_control_params (control_params s1) s2.
Proof.
  destruct s1, s2. unfold differ_only_in_phase. cbn.
  intros (_ & _ & -> & -> & -> & -> & -> & -> & -> & -> & -> & -> & -> & ->).
  reflexivity.
Qed.

Lemma phase_step (s1 s2 : sim_state) :
  differ_only_in_phase s1 s2 ->
  snd (simulation_step env cfg s1) = snd (simulation_step env cfg s2)
  /\ differ_only_in_phase (fst (simulation_step env cfg s1))
                          (fst (simulation_step env cfg s2)).
Proof.
  intros Hd. pose proof (differ_only_in_phase_inv s1 s2 Hd) as Hs1.
  destruct Hd as (Hkeys & Hget & _).
  remember (control_params s1) as cp1 eqn:Hcp1. clear Hcp1. subst s1.
  rewrite (simulation_step_reads_five_keys s2 cp1 Hget).
  cbn [fst snd]. split; [reflexivity |].
  destruct (simulation_step_keeps_control_params s2) as [Hcp _].
  apply differ_only_in_phase_set_control_params; rewrite Hcp; assumption.
Qed.

(** C10. Two runs of the step from objects that agree on everything but the
    value of [control_params['phase']], with the same noise, return the same
    cavity voltage, reflected voltage and detuning (or raise the same
    exception) and leave objects that again agree on everything but that
    value; hence so does every later step. *)
Theorem phase_parameter_has_no_influence (s1 s2 : sim_state) :
  differ_only_in_phase s1 s2 ->
  snd (simulation_step env cfg s1) = snd (simulation_step env cfg s2)
  /\ differ_only_in_phase (fst (simulation_step env cfg s1))
                          (fst (simulation_step env cfg s2))
  /\ forall (n : nat) (last : option (C * C * R)),
       snd (run_steps env cfg n last s1) = snd (run_steps env cfg n last s2)
       /\ differ_only_in_phase (fst (run_steps env cfg n last s1))
                               (fst (run_steps env cfg n last s2)).
Proof.
  intros Hd. destruct (phase_step s1 s2 Hd) as [Hout Hst].
  split; [exact Hout | split; [exact Hst |]].
  clear Hout Hst. intros n. revert s1 s2 Hd.
  induction n as [| n IH]; intros s1 s2 Hd last.
  - cbn. split; [reflexivity | exact Hd].
  - cbn [run_steps]. unfold bind.
    destruct (phase_step s1 s2 Hd) as [Hout Hst].
    destruct (simulation_step env cfg s1) as [s1' r1].
    destruct (simulation_step env cfg s2) as [s2' r2].
    cbn [fst snd] in Hout, Hst. subst r2.
    destruct r1 as [e | out].
    + cbn. split; [reflexivity | exact Hst].
    + apply IH. exact Hst.
Qed.

End Driver.

(** *** At the program's own start state *)

Lemma gui_init_state_wf (env : collaborators) :
  wf_state gui_config (init_state env gui_config).
Proof. apply init_state_wf; cbn; lia. Qed.

Lemma pulsed_at_wf (env : collaborators) (cfg : config) (b : Z) :
  (0 < buf_size cfg)%nat -> (0 <= b < pul_len cfg)%Z ->
  wf_state cfg (pulsed_at b (init_state env cfg)).
Proof.
  intros Hbuf Hb.
  destruct (init_state_wf env cfg Hbuf ltac:(lia)) as (Hkeys & Hbase & Hbeam & _).
  unfold wf_state, pulsed_at.
  cbn [control_params set_control_params set_buf_id buf_id base_pul beam_pul].
  split; [| split; [exact Hbase | split; [exact Hbeam | exact Hb]]].
  rewrite dict_keys_set; [exact Hkeys |].
  rewrite Hkeys. cbn. tauto.
Qed.

Lemma gui_pulsed_state_wf (env : collaborators) :
  wf_state gui_config (pulsed_at 20479 (init_state env gui_config)).
Proof. apply pulsed_at_wf; cbn; lia. Qed.

Lemma with_phase_differs_only_in_phase (v : R) (s : sim_state) :
  In "phase"%string (dict_keys (control_params s)) ->
  differ_only_in_phase (with_phase v s) s.
Proof.
  intros Hin. apply differ_only_in_phase_set_control_params.
  - apply dict_keys_set. exact Hin.
  - intros k Hk. apply dict_get_set_other. exact Hk.
Qed.

(** C1, as stated, fails: with an integrator that reports failure at every
    call, the step from the start state returns normally, the running flag
    stays set, and the loop goes on to a second step and records both. *)
Lemma failing_integrator_is_not_surfaced :
  (forall half_bw dw_step0 detuning0 vf_step vb state_vc Ts beta
          state_m0 Am Bm Cm Dm mech_exe,
      status_of (sim_scav_step failing_env half_bw dw_step0 detuning0 vf_step
                   vb state_vc Ts beta state_m0 Am Bm Cm Dm mech_exe) = false)
  /\ snd (simulation_step failing_env gui_config
            (init_state failing_env gui_config)) = ok (C0, C0, 0)
  /\ simulation_running
       (fst (simulation_step failing_env gui_config
               (init_state failing_env gui_config))) = true
  /\ snd (simulation_loop failing_env gui_config [0; 1 / 1000]
            (init_state failing_env gui_config)) = ok tt
  /\ simulation_running
       (fst (simulation_loop failing_env gui_config [0; 1 / 1000]
               (init_state failing_env gui_config))) = true
  /\ rng_draws
       (fst (simulation_loop failing_env gui_config [0; 1 / 1000]
               (init_state failing_env gui_config))) = 2%nat
  /\ rbind (dict_get "time"
              (h_main (history_data
                 (fst (simulation_loop failing_env gui_config [0; 1 / 1000]
                         (init_state failing_env gui_config))))))
           (fun t => ok (List.length t)) = ok 2%nat.
Proof.
  split; [intros; reflexivity |].
  repeat (split; [reflexivity |]). reflexivity.
Qed.

(** With the period of the standalone script the counter is back at [0]
    after step 4096, and the step does not raise. *)
Example standalone_pulse_counter_wraps :
  standalone_pulse_branch true (pul_len standalone_config) 4095 = 0%Z
  /\ buf_id (fst (simulation_step euler_env standalone_config
                    (pulsed_at 4095 (init_state euler_env standalone_config))))
     = 0%Z
  /\ (exists out,
        snd (simulation_step euler_env standalone_config
               (pulsed_at 4095 (init_state euler_env standalone_config)))
        = ok out).
Proof.
  split; [reflexivity | split; [reflexivity |]].
  destruct (simulation_step_spec euler_env standalone_config
              (pulsed_at 4095 (init_state euler_env standalone_config)))
    as (vc & vr & d & s' & _ & _ & Hstep & _).
  { apply pulsed_at_wf; cbn; lia. }
  exists (vc, vr, d). rewrite Hstep. reflexivity.
Qed.

Lemma pulse_counter_wraps_modulo_period_witness :
  exists out s' pulsed,
    simulation_step euler_env gui_config
      (pulsed_at 20479 (init_state euler_env gui_config)) = (s', ok out)
    /\ dict_get "pulsed"
         (control_params (pulsed_at 20479 (init_state euler_env gui_config)))
       = ok pulsed
    /\ (truthy pulsed = true ->
        buf_id s'
        = ((buf_id (pulsed_at 20479 (init_state euler_env gui_config)) + 1)
             mod pul_len gui_config)%Z)
    /\ (truthy pulsed = true ->
        (buf_id (pulsed_at 20479 (init_state euler_env gui_config)) + 1
         = pul_len gui_config)%Z ->
        buf_id s' = 0%Z)
    /\ (truthy pulsed = false ->
        buf_id s' = buf_id (pulsed_at 20479 (init_state euler_env gui_config)))
    /\ (0 <= buf_id s' < pul_len gui_config)%Z
    /\ buf_id s'
       = standalone_pulse_branch (truthy pulsed) (pul_len gui_config)
           (buf_id (pulsed_at 20479 (init_state euler_env gui_config)))
    /\ wf_state gui_config s'.
Proof.
  exact (pulse_counter_wraps_modulo_period euler_env gui_config
           (pulsed_at 20479 (init_state euler_env gui_config))
           (gui_pulsed_state_wf euler_env)).
Defined.

Lemma phase_parameter_has_no_influence_witness :
  snd (simulation_step euler_env gui_config
         (with_phase 90 (init_state euler_env gui_config)))
  = snd (simulation_step euler_env gui_config (init_state euler_env gui_config))
  /\ differ_only_in_phase
       (fst (simulation_step euler_env gui_config
               (with_phase 90 (init_state euler_env gui_config))))
       (fst (simulation_step euler_env gui_config (init_state euler_env gui_config)))
  /\ forall (n : nat) (last : option (C * C * R)),
       snd (run_steps euler_env gui_config n last
              (with_phase 90 (init_state euler_env gui_config)))
       = snd (run_steps euler_env gui_config n last (init_state euler_env gui_config))
       /\ differ_only_in_phase
            (fst (run_steps euler_env gui_config n last
                    (with_phase 90 (init_state euler_env gui_config))))
            (fst (run_steps euler_env gui_config n last
                    (init_state euler_env gui_config))).
Proof.
  apply (phase_parameter_has_no_influence euler_env gui_config
           (with_phase 90 (init_state euler_env gui_config))
           (init_state euler_env gui_config)).
  apply with_phase_differs_only_in_phase. cbn. tauto.
Defined.

(** ** Reset *)

Lemma Forall_map_const {A B} (P : B -> Prop) (f : A -> B) (l : list A) :
  (forall a, P (f a)) -> Forall P (map f l).
Proof. intros H. induction l; cbn; constructor; auto. Qed.

Lemma zeros_all_zero (sh : nat * nat) : Forall (Forall (eq 0)) (zeros sh).
Proof.
  unfold zeros. apply Forall_forall. intros row Hrow.
  apply repeat_spec in Hrow. subst row.
  apply Forall_forall. intros x Hx. apply repeat_spec in Hx. auto.
Qed.

(** C8. [reset_simulation] returns without an exception; it clears the
    running flag, sets the cavity voltage, the detuning, the oscillator phase
    and the pulse counter to zero and the mechanical state to the zero matrix
    of the shape of [Bd], empties every sample channel, every per-mode
    channel and every control-parameter channel of the history (keeping the
    channels themselves), and leaves [control_params] as it was. *)
Theorem reset_simulation_clears_state_keeps_params
    (env : collaborators) (s : sim_state) :
  snd (reset_simulation env s) = ok tt
  /\ simulation_running (fst (reset_simulation env s)) = false
  /\ state_vc (fst (reset_simulation env s)) = C0
  /\ state_m (fst (reset_simulation env s)) = zeros (shape (Bd env))
  /\ Forall (Forall (eq 0)) (state_m (fst (reset_simulation env s)))
  /\ dw (fst (reset_simulation env s)) = 0
  /\ pha_src (fst (reset_simulation env s)) = 0
  /\ buf_id (fst (reset_simulation env s)) = 0%Z
  /\ Forall (fun kv => snd kv = [])
            (h_main (history_data (fst (reset_simulation env s))))
  /\ dict_keys (h_main (history_data (fst (reset_simulation env s))))
     = dict_keys (h_main (history_data s))
  /\ Forall (fun l => l = [])
            (h_mech_modes (history_data (fst (reset_simulation env s))))
  /\ List.length (h_mech_modes (history_data (fst (reset_simulation env s))))
     = List.length (h_mech_modes (history_data s))
  /\ Forall (fun kv => snd kv = [])
            (h_control_params (history_data (fst (reset_simulation env s))))
  /\ dict_keys (h_control_params (history_data (fst (reset_simulation env s))))
     = dict_keys (h_control_params (history_data s))
  /\ control_params (fst (reset_simulation env s)) = control_params s
  /\ recording (fst (reset_simulation env s)) = recording s.
Proof.
  unfold reset_simulation, stop_simulation, put_main, put_mech_modes,
    put_control_history, bind, gets, modify, ret, ok.
  cbv beta iota. fields. cbn [h_main h_mech_modes h_control_params].
  split; [reflexivity |]. split; [reflexivity |]. split; [reflexivity |].
  split; [reflexivity |]. split; [apply zeros_all_zero |].
  split; [reflexivity |]. split; [reflexivity |]. split; [reflexivity |].
  split; [apply Forall_map_const; reflexivity |].
  split; [unfold dict_keys; rewrite map_map; reflexivity |].
  split; [apply Forall_map_const; reflexivity |].
  split; [apply length_map |].
  split; [apply Forall_map_const; reflexivity |].
  split; [unfold dict_keys; rewrite map_map; reflexivity |].
  split; reflexivity.
Qed.

(** ** [linspace] *)

Lemma linspace_length (start stop : R) (num : nat) :
  List.length (linspace start stop num) = num.
Proof.
  unfold linspace. destruct (1 <? num)%nat eqn:Hnum.
  - apply Nat.ltb_lt in Hnum.
    rewrite length_app, length_firstn, length_map, length_seq. cbn. lia.
  - now rewrite length_map, length_seq.
Qed.

Lemma linspace_nth (start stop : R) (num i : nat) :
  (1 < num)%nat -> (i < num)%nat ->
  nth i (linspace start stop num) 0
  = start + INR i * ((stop - start) / INR (num - 1)).
Proof.
  intros Hnum Hi. unfold linspace.
  assert (Hltb : (1 <? num)%nat = true) by (apply Nat.ltb_lt; exact Hnum).
  rewrite Hltb.
  set (f := fun k : nat => INR k * ((stop - start) / INR (num - 1)) + start).
  assert (Hlen : List.length (firstn (num - 1) (map f (seq 0 num))) = (num - 1)%nat).
  { rewrite length_firstn, length_map, length_seq. lia. }
  destruct (Nat.lt_ge_cases i (num - 1)) as [Hlt | Hge].
  - rewrite app_nth1 by lia.
    rewrite nth_firstn.
    assert (Hb : (i <? num - 1)%nat = true) by (apply Nat.ltb_lt; exact Hlt).
    rewrite Hb.
    rewrite (nth_indep _ 0 (f 0%nat)) by (rewrite length_map, length_seq; lia).
    rewrite map_nth, seq_nth by lia. unfold f. cbn [Nat.add]. ring.
  - assert (i = num - 1)%nat as -> by lia.
    rewrite app_nth2 by lia. rewrite Hlen, Nat.sub_diag. cbn [nth].
    assert (Hne : INR (num - 1) <> 0) by (apply not_0_INR; lia).
    field. exact Hne.
Qed.

(** ** Parameter scan *)

Section Scan.

Variable env : collaborators.
Variable cfg : config.

Lemma run_steps_spec (n : nat) :
  forall (s : sim_state) (last : option (C * C * R)),
    wf_state cfg s ->
    exists s' last',
      run_steps env cfg n last s = (s', ok last')
      /\ wf_state cfg s'
      /\ control_params s' = control_params s
      /\ simulation_running s' = simulation_running s
      /\ recording s' = recording s
      /\ history_data s' = history_data s
      /\ rng_draws s' = (n + rng_draws s)%nat
      /\ (n = 0%nat -> s' = s /\ last' = last)
      /\ ((0 < n)%nat ->
          exists vc vr d, last' = Some (vc, vr, d) /\ state_vc s' = vc).
Proof.
  induction n as [| n IH]; intros s last Hwf.
  - exists s, last. cbn.
    split; [reflexivity |]. split; [exact Hwf |].
    do 5 (split; [reflexivity |]).
    split; [auto | intros H; inversion H].
  - destruct (simulation_step_spec env cfg s Hwf)
      as (vc & vr & d & s1 & pulsed & fsrc & Hstep & _ & _ & Hwf1 & Hframe & _ & Hvc & _).
    destruct Hframe as (Hcp & Hrun & Hrec & _ & _ & Hh & Hrng).
    destruct (IH s1 (Some (vc, vr, d)) Hwf1)
      as (s' & last' & Hsteps & Hwf' & Hcp' & Hrun' & Hrec' & Hh' & Hrng' & Hzero & Hpos).
    exists s', last'.
    split.
    { cbn [run_steps]. unfold bind. rewrite Hstep. unfold ok at 1. exact Hsteps. }
    split; [exact Hwf' |].
    split; [congruence |]. split; [congruence |]. split; [congruence |].
    split; [congruence |]. split; [lia |].
    split; [intros H; discriminate H |].
    intros _. destruct n as [| n'].
    + destruct (Hzero eq_refl) as [-> ->]. eauto.
    + apply Hpos. lia.
Qed.

Lemma wf_state_set_param (param : string) (v : pyval) (s : sim_state) :
  wf_state cfg s -> In param control_keys ->
  wf_state cfg (set_control_params (dict_set param v (control_params s)) s).
Proof.
  intros (Hkeys & Hbase & Hbeam & Hid) Hin. unfold wf_state. fields.
  split; [| auto].
  rewrite dict_keys_set; [exact Hkeys | rewrite Hkeys; exact Hin].
Qed.

Lemma scan_setpoint_spec (param : string) (value : R) (responses : list R)
    (s : sim_state) :
  wf_state cfg s -> In param control_keys ->
  scan_setpoint env cfg param value responses s
  = (settle env cfg param value s,
     ok (responses ++ [response_of (settle env cfg param value s)]))
  /\ scan_frame cfg param 100 s (settle env cfg param value s)
  /\ dict_get param (control_params (settle env cfg param value s))
     = ok (PFloat value).
Proof.
  intros Hwf Hin.
  pose proof (wf_state_set_param param (PFloat value) s Hwf Hin) as Hwf1.
  destruct (run_steps_spec 100 _ None Hwf1)
    as (s' & last' & Hsteps & Hwf' & Hcp & Hrun & Hrec & Hh & Hrng & _ & Hpos).
  destruct Hpos as (vc & vr & d & -> & Hvc); [lia |].
  assert (Hsettle : settle env cfg param value s = s').
  { unfold settle. rewrite Hsteps. reflexivity. }
  rewrite Hsettle.
  split; [| split].
  - unfold scan_setpoint, bind, gets, modify, ret. cbv beta iota.
    unfold ok at 1 2. cbv beta iota. rewrite Hsteps. unfold ok at 1. cbv beta iota.
    unfold response_of, append. rewrite Hvc. reflexivity.
  - unfold scan_frame. split; [exact Hwf' |]. split.
    + intros w. rewrite Hcp. fields. apply dict_set_set.
      destruct Hwf as (Hkeys & _). rewrite Hkeys. exact Hin.
    + revert Hrun Hrec Hh Hrng. fields. auto.
  - rewrite Hcp. fields. apply dict_get_set_same.
Qed.

Lemma scan_frame_trans (param : string) (n m : nat) (s1 s2 s3 : sim_state) :
  scan_frame cfg param n s1 s2 -> scan_frame cfg param m s2 s3 ->
  scan_frame cfg param (m + n) s1 s3.
Proof.
  intros (_ & H1 & H2 & H3 & H4 & H5) (Hwf & G1 & G2 & G3 & G4 & G5).
  unfold scan_frame. split; [exact Hwf |].
  split; [intros w; rewrite G1; apply H1 |].
  repeat split; try congruence. lia.
Qed.

Lemma scan_loop_spec (param : string) (values : list R) :
  forall (responses : list R) (s : sim_state),
    wf_state cfg s -> In param control_keys ->
    scan_loop env cfg param values responses s
    = (last (scan_states env cfg param values s) s,
       ok (responses ++ map response_of (scan_states env cfg param values s)))
    /\ scan_frame cfg param (100 * List.length values) s
                  (last (scan_states env cfg param values s) s).
Proof.
  induction values as [| value later IH]; intros responses s Hwf Hin.
  - cbn. rewrite app_nil_r. split; [reflexivity |].
    unfold scan_frame. repeat split; auto; apply Hwf.
  - destruct (scan_setpoint_spec param value responses s Hwf Hin)
      as (Hset & Hframe & _).
    pose proof Hframe as (Hwf1 & _).
    destruct (IH (responses ++ [response_of (settle env cfg param value s)])
                 (settle env cfg param value s) Hwf1 Hin) as (Hloop & Hframe').
    assert (Hlast : last (scan_states env cfg param (value :: later) s) s
                    = last (scan_states env cfg param later
                              (settle env cfg param value s))
                           (settle env cfg param value s)).
    { cbn [scan_states]. apply last_cons_head. }
    rewrite Hlast. split.
    + cbn [scan_loop scan_states map]. unfold bind. rewrite Hset.
      unfold ok at 1. rewrite Hloop. rewrite <- app_assoc. reflexivity.
    + replace (100 * List.length (value :: later))%nat
        with (100 * List.length later + 100)%nat by (cbn [List.length]; lia).
      eapply scan_frame_trans; eauto.
Qed.

Lemma scan_states_nth (param : string) (values : list R) :
  forall (s : sim_state) (i : nat) (st : sim_state),
    wf_state cfg s -> In param control_keys ->
    nth_error (scan_states env cfg param values s) i = Some st ->
    exists value,
      nth_error values i = Some value
      /\ dict_get param (control_params st) = ok (PFloat value)
      /\ rng_draws st = (100 * (i + 1) + rng_draws s)%nat
      /\ response_of st = Cabs (state_vc st) * (1 / 1000000).
Proof.
  induction values as [| value later IH]; intros s i st Hwf Hin Hnth.
  - destruct i; discriminate Hnth.
  - destruct (scan_setpoint_spec param value [] s Hwf Hin)
      as (_ & (Hwf1 & _ & _ & _ & _ & Hrng) & Hget).
    destruct i as [| i]; cbn [scan_states nth_error] in Hnth.
    + injection Hnth as <-. exists value. cbn [nth_error].
      repeat split; [exact Hget | lia].
    + destruct (IH _ i st Hwf1 Hin Hnth) as (v & Hv & Hg & Hr & Hresp).
      exists v. cbn [nth_error]. repeat split; [exact Hv | exact Hg | lia].
Qed.

Lemma scan_states_length (param : string) (values : list R) (s : sim_state) :
  List.length (scan_states env cfg param values s) = List.length values.
Proof.
  revert s. induction values as [| v t IH]; intros s; cbn; [reflexivity |].
  now rewrite IH.
Qed.

(** C4. For a control parameter and a range with [min_val < max_val], from a
    well-formed object, a scan returns without an exception 20 setpoints and
    20 responses.  The setpoints are evenly spaced, the first is [min_val]
    and the last is [max_val].  The response of a setpoint is the magnitude
    of the cavity voltage (in MV) at the end of its settling window, when
    exactly 100 more steps have run with the parameter at that setpoint.
    Afterwards [control_params] is what it was before the scan. *)
Theorem parameter_scan_sweeps_twenty_setpoints
    (param : string) (min_val max_val : R) (s : sim_state) :
  wf_state cfg s -> In param control_keys -> min_val < max_val ->
  exists responses s',
    parameter_scan env cfg param min_val max_val s
    = (s', ok (linspace min_val max_val 20, responses))
    /\ start_parameter_scan env cfg param min_val max_val s
       = (s', ok (ScanPlot (linspace min_val max_val 20) responses param))
    /\ List.length (linspace min_val max_val 20) = 20%nat
    /\ List.length responses = 20%nat
    /\ nth 0 (linspace min_val max_val 20) 0 = min_val
    /\ nth 19 (linspace min_val max_val 20) 0 = max_val
    /\ (forall i : nat,
          (i < 19)%nat ->
          nth (S i) (linspace min_val max_val 20) 0
          - nth i (linspace min_val max_val 20) 0
          = (max_val - min_val) / 19)
    /\ responses
       = map response_of
             (scan_states env cfg param (linspace min_val max_val 20) s)
    /\ (forall (i : nat) (st : sim_state),
          nth_error (scan_states env cfg param (linspace min_val max_val 20) s) i
          = Some st ->
          dict_get param (control_params st)
          = ok (PFloat (nth i (linspace min_val max_val 20) 0))
          /\ rng_draws st = (100 * (i + 1) + rng_draws s)%nat
          /\ response_of st = Cabs (state_vc st) * (1 / 1000000))
    /\ rng_draws s' = (20 * 100 + rng_draws s)%nat
    /\ history_data s' = history_data s
    /\ control_params s' = control_params s.
Proof.
  intros Hwf Hin Hrange.
  set (pv := linspace min_val max_val 20).
  destruct (wf_state_keys cfg s param Hwf Hin) as [original Horig].
  destruct (scan_loop_spec param pv [] s Hwf Hin) as (Hloop & Hframe).
  set (sf := last (scan_states env cfg param pv s) s) in *.
  destruct Hframe as (Hwf' & Hcp & Hrun & Hrec & Hh & Hrng).
  assert (Hlen : List.length pv = 20%nat) by apply linspace_length.
  assert (Hrestore : dict_set param original (control_params sf) = control_params s).
  { rewrite Hcp. apply dict_set_get. exact Horig. }
  assert (Hscan : parameter_scan env cfg param min_val max_val s
                  = (set_control_params (control_params s) sf,
                     ok (pv, map response_of (scan_states env cfg param pv s)))).
  { unfold parameter_scan, bind, gets, lift, modify, ret. cbv beta iota zeta.
    unfold ok at 1. cbv beta iota. rewrite Horig. unfold ok at 1. cbv beta iota.
    fold pv. rewrite Hloop. unfold ok at 1 2. cbv beta iota.
    rewrite Hrestore. reflexivity. }
  exists (map response_of (scan_states env cfg param pv s)).
  exists (set_control_params (control_params s) sf).
  split; [exact Hscan |].
  split.
  { unfold start_parameter_scan.
    destruct (Rge_dec min_val max_val) as [Hge | _]; [lra |].
    unfold bind. rewrite Hscan. reflexivity. }
  split; [exact Hlen |].
  split; [rewrite length_map, scan_states_length; exact Hlen |].
  split; [unfold pv; rewrite linspace_nth by lia; cbn [INR]; lra |].
  split.
  { unfold pv. rewrite linspace_nth by lia.
    replace (INR (20 - 1)) with 19 by (cbn; lra).
    replace (INR 19) with 19 by (cbn; lra). field. }
  split.
  { intros i Hi. unfold pv. rewrite !linspace_nth by lia.
    replace (INR (20 - 1)) with 19 by (cbn; lra).
    rewrite S_INR. field. }
  split; [reflexivity |].
  split.
  { intros i st Hnth.
    destruct (scan_states_nth param pv s i st Hwf Hin Hnth)
      as (v & Hv & Hg & Hr & Hresp).
    rewrite (nth_error_nth pv i 0 Hv). auto. }
  fields. rewrite Hlen in Hrng. auto.
Qed.

(** C5. A scan whose range has [min_val >= max_val] is refused with the
    error box before anything else happens: the object is returned as it
    was, so no step has run (no noise sample was drawn), the history, the
    control parameters and the cavity state are untouched. *)
Theorem start_parameter_scan_rejects_empty_range
    (param : string) (min_val max_val : R) (s : sim_state) :
  min_val >= max_val ->
  start_parameter_scan env cfg param min_val max_val s
  = (s, ok (ScanRejected "Error" "Minimum value must be less than maximum value!"))
  /\ rng_draws (fst (start_parameter_scan env cfg param min_val max_val s))
     = rng_draws s
  /\ history_data (fst (start_parameter_scan env cfg param min_val max_val s))
     = history_data s
  /\ control_params (fst (start_parameter_scan env cfg param min_val max_val s))
     = control_params s.
Proof.
  intros Hrange.
  assert (Heq : start_parameter_scan env cfg param min_val max_val s
                = (s, ok (ScanRejected "Error"
                            "Minimum value must be less than maximum value!"))).
  { unfold start_parameter_scan.
    destruct (Rge_dec min_val max_val) as [_ | Hn]; [reflexivity | contradiction]. }
  rewrite Heq. cbn. auto.
Qed.

End Scan.

(** A name that is not a key of [control_params] makes the scan raise
    [KeyError] at its first lookup, before anything is changed. *)
Example parameter_scan_unknown_name :
  parameter_scan euler_env gui_config "gain" (5 / 10) (15 / 10)
                 (init_state euler_env gui_config)
  = (init_state euler_env gui_config, raise (KeyError "gain")).
Proof. reflexivity. Qed.

Lemma start_parameter_scan_rejects_empty_range_witness :
  start_parameter_scan euler_env gui_config "amp" (15 / 10) (5 / 10)
                       (init_state euler_env gui_config)
  = (init_state euler_env gui_config,
     ok (ScanRejected "Error" "Minimum value must be less than maximum value!"))
  /\ rng_draws (fst (start_parameter_scan euler_env gui_config "amp" (15 / 10)
                       (5 / 10) (init_state euler_env gui_config)))
     = rng_draws (init_state euler_env gui_config)
  /\ history_data (fst (start_parameter_scan euler_env gui_config "amp" (15 / 10)
                          (5 / 10) (init_state euler_env gui_config)))
     = history_data (init_state euler_env gui_config)
  /\ control_params (fst (start_parameter_scan euler_env gui_config "amp"
                            (15 / 10) (5 / 10) (init_state euler_env gui_config)))
     = control_params (init_state euler_env gui_config).
Proof.
  apply (start_parameter_scan_rejects_empty_range euler_env gui_config "amp"
           (15 / 10) (5 / 10) (init_state euler_env gui_config)).
  lra.
Defined.

Lemma parameter_scan_sweeps_twenty_setpoints_witness :
  exists responses s',
    parameter_scan euler_env gui_config "amp" (5 / 10) (15 / 10)
                   (init_state euler_env gui_config)
    = (s', ok (linspace (5 / 10) (15 / 10) 20, responses))
    /\ start_parameter_scan euler_env gui_config "amp" (5 / 10) (15 / 10)
                            (init_state euler_env gui_config)
       = (s', ok (ScanPlot (linspace (5 / 10) (15 / 10) 20) responses "amp"))
    /\ List.length (linspace (5 / 10) (15 / 10) 20) = 20%nat
    /\ List.length responses = 20%nat
    /\ nth 0 (linspace (5 / 10) (15 / 10) 20) 0 = 5 / 10
    /\ nth 19 (linspace (5 / 10) (15 / 10) 20) 0 = 15 / 10
    /\ (forall i : nat,
          (i < 19)%nat ->
          nth (S i) (linspace (5 / 10) (15 / 10) 20) 0
          - nth i (linspace (5 / 10) (15 / 10) 20) 0
          = (15 / 10 - 5 / 10) / 19)
    /\ responses
       = map response_of
             (scan_states euler_env gui_config "amp"
                (linspace (5 / 10) (15 / 10) 20) (init_state euler_env gui_config))
    /\ (forall (i : nat) (st : sim_state),
          nth_error (scan_states euler_env gui_config "amp"
                       (linspace (5 / 10) (15 / 10) 20)
                       (init_state euler_env gui_config)) i
          = Some st ->
          dict_get "amp" (control_params st)
          = ok (PFloat (nth i (linspace (5 / 10) (15 / 10) 20) 0))
          /\ rng_draws st
             = (100 * (i + 1) + rng_draws (init_state euler_env gui_config))%nat
          /\ response_of st = Cabs (state_vc st) * (1 / 1000000))
    /\ rng_draws s' = (20 * 100 + rng_draws (init_state euler_env gui_config))%nat
    /\ history_data s' = history_data (init_state euler_env gui_config)
    /\ control_params s' = control_params (init_state euler_env gui_config).
Proof.
  apply (parameter_scan_sweeps_twenty_setpoints euler_env gui_config "amp"
           (5 / 10) (15 / 10) (init_state euler_env gui_config)).
  - apply gui_init_state_wf.
  - cbn. tauto.
  - lra.
Defined.

(** ** The bounded history store *)

Lemma py_index_app_middle {A} (pre suf : list A) (x : A) :
  py_index (pre ++ x :: suf) (Z.of_nat (List.length pre)) = ok x.
Proof.
  unfold py_index.
  destruct (Z.of_nat (List.length pre) <? 0)%Z eqn:Hneg;
    [apply Z.ltb_lt in Hneg; lia |].
  rewrite Hneg, Nat2Z.id, nth_error_app2 by apply Nat.le_refl.
  now rewrite Nat.sub_diag.
Qed.

Lemma list_update_app_middle {A} (pre suf : list A) (x y : A) :
  list_update (List.length pre) y (pre ++ x :: suf) = pre ++ y :: suf.
Proof. induction pre as [| p pre IH]; cbn; [reflexivity | now rewrite IH]. Qed.

Lemma with_modes_length (val : nat -> R) (m : list (list R)) :
  forall start, List.length (with_modes val start m) = List.length m.
Proof. induction m as [| l t IH]; intros start; cbn; [reflexivity | now rewrite IH]. Qed.

Lemma with_modes_lengths (val : nat -> R) (n : nat) (m : list (list R)) :
  forall start,
    Forall (fun l => List.length l = n) m ->
    Forall (fun l => List.length l = S n) (with_modes val start m).
Proof.
  induction m as [| l t IH]; intros start H; cbn; [constructor |].
  inversion H as [| ? ? Hl Ht]; subst. constructor; [| auto].
  rewrite length_app. cbn. lia.
Qed.

Ltac mstep := cbv beta iota delta [ok raise bind gets lift modify ret].

Ltac explode_keys d H :=
  cbn [dict_keys map fst] in H;
  repeat (destruct d as [| [? ?] d]; try discriminate H;
          cbn [map fst] in H);
  injection H as H; repeat (let E := fresh in injection H as E H); subst.

Section Store.

Variable cfg : config.

(** The per-mode loop of [store_data] and of the CSV reader: each channel
    receives its value. *)
Lemma for_each_mech_append (sm0 : matrix) (val : nat -> R) (body : nat -> M unit)
    (suf : list (list R)) :
  forall (a : nat) (pre : list (list R)) (s : sim_state),
    (forall i s', (a <= i < a + List.length suf)%nat -> state_m s' = sm0 ->
                  body i s' = mech_append i (val i) s') ->
    List.length pre = a ->
    h_mech_modes (history_data s) = pre ++ suf ->
    state_m s = sm0 ->
    for_each (seq a (List.length suf)) body s
    = (set_history_data
         (mkHistory (h_main (history_data s))
                    (pre ++ with_modes val a suf)
                    (h_control_params (history_data s))) s,
       ok tt).
Proof.
  induction suf as [| l t IH]; intros a pre s Hbody Hpre Hmech Hsm.
  - cbn. rewrite <- Hmech. destruct s as [? ? ? ? ? ? ? ? ? ? ? h ?].
    destruct h. reflexivity.
  - cbn [List.length seq for_each with_modes]. unfold bind.
    rewrite (Hbody a s) by (cbn [List.length]; auto with arith; lia).
    unfold mech_append, put_mech_modes. mstep.
    rewrite Hmech. subst a. rewrite py_index_app_middle. mstep.
    rewrite list_update_app_middle.
    match goal with
    | |- for_each _ _ ?s1 = _ =>
        rewrite (IH (S (List.length pre)) (pre ++ [append l (val (List.length pre))]) s1)
    end.
    + fields. cbn [h_main h_mech_modes h_control_params].
      rewrite <- app_assoc. reflexivity.
    + intros i s' Hi Hs'. apply Hbody; [cbn [List.length]; lia | exact Hs'].
    + rewrite length_app. cbn. lia.
    + fields. cbn [h_mech_modes]. rewrite <- app_assoc. reflexivity.
    + fields. exact Hsm.
Qed.

Lemma store_mech_modes_spec (s : sim_state) :
  List.length (h_mech_modes (history_data s)) = n_modes cfg ->
  store_mech_modes cfg s
  = (set_history_data
       (mkHistory (h_main (history_data s))
                  (with_modes (mode_value (state_m s)) 0 (h_mech_modes (history_data s)))
                  (h_control_params (history_data s))) s,
     ok tt).
Proof.
  intros Hlen. unfold store_mech_modes. rewrite <- Hlen.
  apply (for_each_mech_append (state_m s) (mode_value (state_m s)) _
           (h_mech_modes (history_data s)) 0 [] s); try reflexivity.
  intros i s' _ Hs'. mstep. rewrite Hs'. reflexivity.
Qed.

Lemma store_samples_spec (now : R) (vc vr : C) (d : R) (s : sim_state) :
  dict_keys (h_main (history_data s)) = main_keys ->
  store_samples now vc vr d s
  = (set_history_data
       (mkHistory (with_sample now vc vr d (h_main (history_data s)))
                  (h_mech_modes (history_data s))
                  (h_control_params (history_data s))) s,
     ok tt).
Proof.
  intros Hkeys.
  destruct s as [? ? ? ? ? ? ? ? ? ? ? h ?]. destruct h as [main mech ctrl].
  cbn [history_data h_main h_mech_modes h_control_params] in *.
  explode_keys main Hkeys.
  reflexivity.
Qed.

Lemma limit_history_size_spec (n : nat) (s : sim_state) :
  dict_keys (h_main (history_data s)) = main_keys ->
  Forall (fun kv => List.length (snd kv) = n) (h_main (history_data s)) ->
  (1 <= max_history cfg)%Z ->
  limit_history_size cfg s
  = (set_history_data
       (if (max_history cfg <=? Z.of_nat n)%Z
        then evicted (history_data s) else history_data s) s,
     ok tt)
  /\ dict_get "time" (h_main (history_data s))
     = ok (match h_main (history_data s) with
           | kv :: _ => snd kv
           | [] => []
           end)
  /\ List.length (match h_main (history_data s) with
                  | kv :: _ => snd kv
                  | [] => []
                  end) = n.
Proof.
  intros Hkeys Hlen Hcap.
  destruct s as [? ? ? ? ? ? ? ? ? ? ? h ?]. destruct h as [main mech ctrl].
  cbn [history_data h_main h_mech_modes h_control_params] in *.
  explode_keys main Hkeys.
  repeat match goal with
         | H : Forall _ (_ :: _) |- _ =>
             let Hh := fresh "Hlen" in
             pose proof (Forall_inv H) as Hh; apply Forall_inv_tail in H;
             cbn [snd] in Hh
         end.
  split; [| split; [reflexivity | assumption]].
  unfold limit_history_size. mstep. cbn [history_data h_main dict_get String.eqb Ascii.eqb Bool.eqb].
  mstep. unfold len.
  match goal with H : List.length ?l = n |- context [Z.of_nat (List.length ?l)] => rewrite H end.
  destruct (max_history cfg <=? Z.of_nat n)%Z eqn:Hfull; [| reflexivity].
  apply Z.leb_le in Hfull.
  repeat match goal with
         | H : List.length ?l = n |- _ =>
             destruct l; [cbn [List.length] in H; lia | clear H]
         end.
  reflexivity.
Qed.

Lemma store_control_params_spec (s : sim_state) :
  dict_keys (h_control_params (history_data s)) = recorded_keys ->
  dict_keys (control_params s) = control_keys ->
  store_control_params s
  = (set_history_data
       (mkHistory (h_main (history_data s)) (h_mech_modes (history_data s))
                  (if recording s
                   then with_controls (control_params s)
                                      (h_control_params (history_data s))
                   else h_control_params (history_data s))) s,
     if recording s then raise (KeyError "ib") else ok tt).
Proof.
  intros Hctrl Hcp.
  destruct s as [cp ? rec ? ? ? ? ? ? ? ? h ?]. destruct h as [main mech ctrl].
  cbn [history_data h_main h_mech_modes h_control_params control_params recording] in *.
  explode_keys ctrl Hctrl. explode_keys cp Hcp.
  destruct rec; reflexivity.
Qed.

Lemma evicted_keys (h : history) :
  dict_keys (h_main (evicted h)) = dict_keys (h_main h)
  /\ List.length (h_mech_modes (evicted h)) = List.length (h_mech_modes h)
  /\ dict_keys (h_control_params (evicted h)) = dict_keys (h_control_params h).
Proof.
  unfold evicted, dict_keys. cbn. rewrite !map_map, length_map. auto.
Qed.

(** What one call of [store_data] does, whether or not it raises. *)
Lemma store_data_spec (n c : nat) (now : R) (vc vr : C) (d : R) (s : sim_state) :
  aligned cfg n c (history_data s) ->
  (1 <= max_history cfg)%Z ->
  dict_keys (control_params s) = control_keys ->
  store_data cfg now vc vr d s
  = (set_history_data (stored cfg now vc vr d s) s,
     if recording s then raise (KeyError "ib") else ok tt)
  /\ stored cfg now vc vr d s
     = (let h1 := if (max_history cfg <=? Z.of_nat n)%Z
                  then evicted (history_data s) else history_data s in
        mkHistory (with_sample now vc vr d (h_main h1))
                  (with_modes (mode_value (state_m s)) 0 (h_mech_modes h1))
                  (if recording s
                   then with_controls (control_params s) (h_control_params h1)
                   else h_control_params h1)).
Proof.
  intros (Hkeys & Hlen & Hmodes & _ & Hckeys & _) Hcap Hcp.
  destruct (limit_history_size_spec n s Hkeys Hlen Hcap) as (Hlimit & Htime & Htlen).
  assert (Hstored : stored cfg now vc vr d s
     = (let h1 := if (max_history cfg <=? Z.of_nat n)%Z
                  then evicted (history_data s) else history_data s in
        mkHistory (with_sample now vc vr d (h_main h1))
                  (with_modes (mode_value (state_m s)) 0 (h_mech_modes h1))
                  (if recording s
                   then with_controls (control_params s) (h_control_params h1)
                   else h_control_params h1))).
  { unfold stored. rewrite Htime. unfold ok, len. rewrite Htlen. reflexivity. }
  split; [| exact Hstored].
  rewrite Hstored. clear Hstored Htime Htlen.
  set (h1 := if (max_history cfg <=? Z.of_nat n)%Z
             then evicted (history_data s) else history_data s) in *.
  assert (H1 : dict_keys (h_main h1) = main_keys
               /\ List.length (h_mech_modes h1) = n_modes cfg
               /\ dict_keys (h_control_params h1) = recorded_keys).
  { subst h1. destruct (max_history cfg <=? Z.of_nat n)%Z; [| auto].
    destruct (evicted_keys (history_data s)) as (E1 & E2 & E3).
    rewrite E1, E2, E3. auto. }
  destruct H1 as (Hk1 & Hm1 & Hc1).
  unfold store_data, bind. rewrite Hlimit. unfold ok at 1.
  rewrite store_samples_spec by (fields; exact Hk1). unfold ok at 1.
  rewrite store_mech_modes_spec
    by (fields; cbn [h_mech_modes]; exact Hm1).
  unfold ok at 1.
  rewrite store_control_params_spec
    by (fields; cbn [h_control_params]; assumption).
  fields. cbn [h_main h_mech_modes h_control_params].
  destruct s; reflexivity.
Qed.

Lemma with_controls_lengths (cp : dict pyval) (c : nat) (ctrl : dict (list pyval)) :
  dict_keys cp = control_keys ->
  dict_keys ctrl = recorded_keys ->
  Forall (fun kv => List.length (snd kv) = c) ctrl ->
  Forall (fun kv => List.length (snd kv) = S c) (with_controls cp ctrl).
Proof.
  intros Hcp Hkeys Hlen. unfold with_controls. apply Forall_map.
  apply Forall_forall. intros kv Hin. cbn [snd fst].
  assert (Hk : In (fst kv) recorded_keys)
    by (rewrite <- Hkeys; apply in_map; exact Hin).
  destruct (dict_get_in_keys (fst kv) cp) as [v ->].
  { rewrite Hcp. cbn in Hk |- *. tauto. }
  unfold ok. rewrite Forall_forall in Hlen.
  rewrite length_app, (Hlen kv Hin). cbn. lia.
Qed.

(** One call keeps the channels aligned; [n] grows until the capacity is
    reached and stays there. *)
Lemma store_data_aligned (n c : nat) (now : R) (vc vr : C) (d : R) (s : sim_state) :
  aligned cfg n c (history_data s) ->
  (1 <= max_history cfg)%Z ->
  (Z.of_nat n <= max_history cfg)%Z ->
  dict_keys (control_params s) = control_keys ->
  let full := (max_history cfg <=? Z.of_nat n)%Z in
  aligned cfg (if full then n else S n)
          ((if full then pred c else c) + (if recording s then 1 else 0))
          (history_data (fst (store_data cfg now vc vr d s)))
  /\ recording (fst (store_data cfg now vc vr d s)) = recording s.
Proof.
  intros Hal Hcap Hn Hcp full.
  destruct (store_data_spec n c now vc vr d s Hal Hcap Hcp) as (Hrun & Hstored).
  rewrite Hrun. cbn [fst]. fields. split; [| reflexivity].
  rewrite Hstored. clear Hrun Hstored. fold full.
  destruct Hal as (Hkeys & Hlen & Hmodes & Hmlen & Hckeys & Hclen).
  assert (Hfull : full = true -> (1 <= n)%nat).
  { unfold full. intros H. apply Z.leb_le in H. lia. }
  set (m := if full then pred n else n).
  set (mc := if full then pred c else c).
  set (h1 := if full then evicted (history_data s) else history_data s).
  assert (H1 : aligned cfg m mc h1).
  { subst h1 m mc. destruct full; [| repeat split; assumption].
    destruct (evicted_keys (history_data s)) as (E1 & E2 & E3).
    unfold aligned. rewrite E1, E2, E3.
    repeat split; try assumption; unfold evicted; cbn [h_main h_mech_modes h_control_params];
      apply Forall_map; cbn [snd].
    - eapply Forall_impl; [| exact Hlen]. cbn. intros kv <-. destruct (snd kv); reflexivity.
    - eapply Forall_impl; [| exact Hmlen]. cbn. intros l <-. destruct l; reflexivity.
    - eapply Forall_impl; [| exact Hclen]. cbn. intros kv <-. destruct (snd kv); reflexivity. }
  destruct H1 as (Hk1 & Hl1 & Hm1 & Hml1 & Hck1 & Hcl1).
  replace (if full then n else S n) with (S m)
    by (subst m; destruct full; [specialize (Hfull eq_refl); lia | reflexivity]).
  cbv zeta. unfold aligned. cbn [h_main h_mech_modes h_control_params].
  split; [| split; [| split; [| split; [| split]]]].
  - unfold with_sample, dict_keys. rewrite map_map. exact Hk1.
  - unfold with_sample. apply Forall_map. cbn [snd].
    eapply Forall_impl; [| exact Hl1]. cbn. intros kv <-.
    rewrite length_app. cbn. lia.
  - rewrite with_modes_length. exact Hm1.
  - apply with_modes_lengths. exact Hml1.
  - destruct (recording s); [| exact Hck1].
    unfold with_controls, dict_keys. rewrite map_map. exact Hck1.
  - destruct (recording s).
    + replace (mc + 1)%nat with (S mc) by lia.
      apply with_controls_lengths; assumption.
    + replace (mc + 0)%nat with mc by lia. exact Hcl1.
Qed.

Lemma Forall2_map_right {A B} (P : A -> B -> Prop) (f : A -> B) (l : list A) :
  (forall a, In a l -> P a (f a)) -> Forall2 P l (map f l).
Proof.
  intros H. induction l as [| a l IH]; cbn; constructor.
  - apply H. now left.
  - apply IH. intros b Hb. apply H. now right.
Qed.

(** C2, amended. From a store whose sample and per-mode channels hold [n]
    elements and whose control-parameter channels hold [c <= n] (both [0]
    after [__init__] and after a reset), after any sequence of [store_data]
    calls, with the recording switch in any position at each of them:
    the sample channels and the per-mode channels have one common length,
    which does not exceed [max_history]; the control-parameter channels have
    one common length, which does not exceed that of the sample channels and
    is equal to it when it was so at the start and every call was made with
    recording enabled.  A call made at capacity replaces every sample channel
    and every per-mode channel by its tail followed by the new value, and
    every control-parameter channel by its tail (the empty list has an empty
    tail), followed by the new value when recording is enabled. *)
Theorem store_data_keeps_channels_aligned
    (calls : list store_call) (s : sim_state) (n c : nat) :
  (1 <= max_history cfg)%Z ->
  aligned cfg n c (history_data s) ->
  (c <= n)%nat ->
  (Z.of_nat n <= max_history cfg)%Z ->
  Forall (fun call => dict_keys (call_params call) = control_keys) calls ->
  (exists n' c',
      aligned cfg n' c' (history_data (store_all cfg calls s))
      /\ (Z.of_nat n' <= max_history cfg)%Z
      /\ (c' <= n')%nat
      /\ (c = n -> Forall (fun call => call_recording call = true) calls -> c' = n'))
  /\ (forall call : store_call,
        dict_keys (call_params call) = control_keys ->
        Z.of_nat n = max_history cfg ->
        Forall2 (fun old new =>
                   fst new = fst old /\ exists x, snd new = tl (snd old) ++ [x])
                (h_main (history_data s))
                (h_main (history_data (store_all cfg [call] s)))
        /\ Forall2 (fun old new => exists x, new = tl old ++ [x])
                   (h_mech_modes (history_data s))
                   (h_mech_modes (history_data (store_all cfg [call] s)))
        /\ Forall2 (fun old new =>
                      fst new = fst old
                      /\ if call_recording call
                         then exists x, snd new = tl (snd old) ++ [x]
                         else snd new = tl (snd old))
                   (h_control_params (history_data s))
                   (h_control_params (history_data (store_all cfg [call] s)))).
Proof.
  intros Hcap Hal Hcn Hn Hcalls. split.
  - revert s n c Hal Hcn Hn Hcalls.
    induction calls as [| call later IH]; intros s n c Hal Hcn Hn Hcalls.
    + exists n, c. cbn. auto.
    + inversion Hcalls as [| ? ? Hcall Hlater]; subst.
      cbn [store_all].
      set (s0 := before_call call s).
      assert (Hal0 : aligned cfg n c (history_data s0)) by exact Hal.
      assert (Hcp0 : dict_keys (control_params s0) = control_keys) by exact Hcall.
      destruct (store_data_aligned n c (call_time call) (call_vc call)
                  (call_vr call) (call_dw call) s0 Hal0 Hcap Hn Hcp0)
        as (Hal1 & _).
      cbv zeta in Hal1.
      assert (Hrec0 : recording s0 = call_recording call) by reflexivity.
      rewrite Hrec0 in Hal1.
      destruct (max_history cfg <=? Z.of_nat n)%Z eqn:Hfull.
      * apply Z.leb_le in Hfull.
        destruct (IH _ _ _ Hal1) as (n' & c' & Hal' & Hn' & Hc' & Heq);
          [destruct (call_recording call); lia | lia | exact Hlater |].
        exists n', c'.
        split; [exact Hal' | split; [exact Hn' | split; [exact Hc' |]]].
        intros Hcn' Hall. inversion Hall as [| ? ? Hr Hrs]; subst.
        apply Heq; [rewrite Hr; lia | exact Hrs].
      * apply Z.leb_gt in Hfull.
        destruct (IH _ _ _ Hal1) as (n' & c' & Hal' & Hn' & Hc' & Heq);
          [destruct (call_recording call); lia | lia | exact Hlater |].
        exists n', c'.
        split; [exact Hal' | split; [exact Hn' | split; [exact Hc' |]]].
        intros Hcn' Hall. inversion Hall as [| ? ? Hr Hrs]; subst.
        apply Heq; [rewrite Hr; lia | exact Hrs].
  - intros call Hcall Hfull. cbn [store_all].
    set (s0 := before_call call s).
    assert (Hal0 : aligned cfg n c (history_data s0)) by exact Hal.
    destruct (store_data_spec n c (call_time call) (call_vc call)
                (call_vr call) (call_dw call) s0 Hal0 Hcap Hcall)
      as (Hrun & Hstored).
    rewrite Hrun. cbn [fst]. fields. rewrite Hstored.
    assert (Hb : (max_history cfg <=? Z.of_nat n)%Z = true)
      by (apply Z.leb_le; lia).
    rewrite Hb. cbv zeta. cbn [h_main h_mech_modes h_control_params].
    change (history_data s0) with (history_data s).
    change (recording s0) with (call_recording call).
    unfold evicted. cbn [h_main h_mech_modes h_control_params].
    split; [| split].
    + unfold with_sample. rewrite map_map. apply Forall2_map_right.
      intros kv _. cbn [fst snd]. eauto.
    + assert (H : forall m start,
                 Forall2 (fun old new : list R => exists x, new = tl old ++ [x])
                         m (with_modes (mode_value (state_m s0)) start (map (@tl R) m))).
      { induction m as [| l t IHm]; intros start; cbn; constructor; eauto. }
      apply H.
    + destruct (call_recording call).
      * unfold with_controls. rewrite map_map. apply Forall2_map_right.
        intros kv Hin. cbn [fst snd]. split; [reflexivity |].
        destruct Hal as (_ & _ & _ & _ & Hckeys & _).
        assert (Hk : In (fst kv) recorded_keys)
          by (rewrite <- Hckeys; apply in_map; exact Hin).
        destruct (dict_get_in_keys (fst kv) (control_params s0)) as [v ->].
        { change (control_params s0) with (call_params call).
          rewrite Hcall. cbn in Hk |- *. tauto. }
        unfold ok. eauto.
      * apply Forall2_map_right. intros kv _. cbn [fst snd]. auto.
Qed.

End Store.

(** *** At the program's own start state *)

Lemma gui_init_history_aligned (env : collaborators) :
  aligned gui_config 0 0 (history_data (init_state env gui_config)).
Proof.
  unfold aligned. cbn.
  repeat split; repeat constructor.
Qed.

(** C2, as stated, fails: recording is off when the loop stores its first
    sample and on when it stores the second; at that point recording is
    enabled, the sample channels hold two elements and the control-parameter
    channels hold one. *)
Lemma control_channels_fall_behind_samples :
  recording (store_all gui_config [gui_call false 0; gui_call true (1 / 1000)]
               (init_state euler_env gui_config)) = true
  /\ rbind (dict_get "time"
              (h_main (history_data
                 (store_all gui_config [gui_call false 0; gui_call true (1 / 1000)]
                    (init_state euler_env gui_config)))))
           (fun l => ok (List.length l)) = ok 2%nat
  /\ rbind (dict_get "amp"
              (h_control_params (history_data
                 (store_all gui_config [gui_call false 0; gui_call true (1 / 1000)]
                    (init_state euler_env gui_config)))))
           (fun l => ok (List.length l)) = ok 1%nat.
Proof. repeat split; reflexivity. Qed.

(** With a capacity of two, the third sample pushes the first one out of the
    time channel. *)
Example eviction_at_capacity_two :
  dict_get "time"
    (h_main (history_data
       (store_all two_sample_config
          [gui_call false 1; gui_call false 2; gui_call false 3]
          (init_state euler_env two_sample_config))))
  = ok [2; 3].
Proof. reflexivity. Qed.

(** With recording enabled the call appends to the four control channels and
    then raises [KeyError] at ['ib'], for which the history has no channel. *)
Example store_data_raises_when_recording :
  snd (store_data gui_config 0 (mkC 1 0) C0 0
         (before_call (gui_call true 0) (init_state euler_env gui_config)))
  = raise (KeyError "ib").
Proof. reflexivity. Qed.

Lemma store_all_cons (cfg : config) (call : store_call) (later : list store_call)
    (s : sim_state) :
  store_all cfg (call :: later) s = store_all cfg later (store_all cfg [call] s).
Proof. reflexivity. Qed.

Lemma store_all_below_capacity (cfg : config) (n c : nat) (call : store_call)
    (s : sim_state) :
  aligned cfg n c (history_data s) ->
  (1 <= max_history cfg)%Z ->
  (Z.of_nat n < max_history cfg)%Z ->
  dict_keys (call_params call) = control_keys ->
  call_recording call = false ->
  aligned cfg (S n) c (history_data (store_all cfg [call] s)).
Proof.
  intros Hal Hcap Hn Hkeys Hrec. cbn [store_all].
  destruct (store_data_aligned cfg n c (call_time call) (call_vc call)
              (call_vr call) (call_dw call) (before_call call s) Hal Hcap
              ltac:(lia) Hkeys) as (H & _).
  cbv zeta in H.
  assert (Hb : (max_history cfg <=? Z.of_nat n)%Z = false) by (apply Z.leb_gt; lia).
  rewrite Hb in H.
  change (recording (before_call call s)) with (call_recording call) in H.
  rewrite Hrec in H. replace (c + 0)%nat with c in H by lia. exact H.
Qed.

Lemma store_all_fill (cfg : config) (call : store_call) (k : nat) :
  forall (n c : nat) (s : sim_state),
    aligned cfg n c (history_data s) ->
    (1 <= max_history cfg)%Z ->
    (Z.of_nat (n + k) <= max_history cfg)%Z ->
    dict_keys (call_params call) = control_keys ->
    call_recording call = false ->
    aligned cfg (n + k) c (history_data (store_all cfg (repeat call k) s)).
Proof.
  induction k as [| k IH]; intros n c s Hal Hcap Hn Hkeys Hrec.
  - cbn [repeat store_all]. rewrite Nat.add_0_r. exact Hal.
  - cbn [repeat]. rewrite store_all_cons.
    replace (n + S k)%nat with (S n + k)%nat by lia.
    apply IH; try assumption; [| lia].
    apply store_all_below_capacity; try assumption. lia.
Qed.

Lemma gui_capacity_is_max_history : Z.of_nat gui_capacity = max_history gui_config.
Proof. unfold gui_capacity. apply Z2Nat.id. cbn. lia. Qed.

Lemma full_history_state_aligned :
  aligned gui_config gui_capacity 0 (history_data full_history_state).
Proof.
  unfold full_history_state.
  apply (store_all_fill gui_config (gui_call false 0) gui_capacity 0 0).
  - apply gui_init_history_aligned.
  - cbn. lia.
  - cbn [Nat.add]. rewrite gui_capacity_is_max_history. lia.
  - reflexivity.
  - reflexivity.
Qed.

Lemma store_data_keeps_channels_aligned_witness :
  (exists n' c',
      aligned gui_config n' c'
        (history_data
           (store_all gui_config [gui_call false 1; gui_call true 2]
              full_history_state))
      /\ (Z.of_nat n' <= max_history gui_config)%Z
      /\ (c' <= n')%nat
      /\ (0%nat = gui_capacity ->
          Forall (fun call => call_recording call = true)
                 [gui_call false 1; gui_call true 2] ->
          c' = n'))
  /\ (forall call : store_call,
        dict_keys (call_params call) = control_keys ->
        Z.of_nat gui_capacity = max_history gui_config ->
        Forall2 (fun old new =>
                   fst new = fst old /\ exists x, snd new = tl (snd old) ++ [x])
                (h_main (history_data full_history_state))
                (h_main (history_data
                   (store_all gui_config [call] full_history_state)))
        /\ Forall2 (fun old new => exists x, new = tl old ++ [x])
                   (h_mech_modes (history_data full_history_state))
                   (h_mech_modes (history_data
                      (store_all gui_config [call] full_history_state)))
        /\ Forall2 (fun old new =>
                      fst new = fst old
                      /\ if call_recording call
                         then exists x, snd new = tl (snd old) ++ [x]
                         else snd new = tl (snd old))
                   (h_control_params (history_data full_history_state))
                   (h_control_params (history_data
                      (store_all gui_config [call] full_history_state)))).
Proof.
  apply (store_data_keeps_channels_aligned gui_config
           [gui_call false 1; gui_call true 2] full_history_state gui_capacity 0).
  - cbn. lia.
  - apply full_history_state_aligned.
  - lia.
  - rewrite gui_capacity_is_max_history. lia.
  - repeat constructor.
Defined.


(** ** Session files *)

Lemma map_result_floats (l : list R) : map_result float_of_json (map JNum l) = ok l.
Proof. induction l as [| x t IH]; cbn; [reflexivity | now rewrite IH]. Qed.

Lemma floats_of_json_of_floats (l : list R) : floats_of_json (json_of_floats l) = ok l.
Proof. apply map_result_floats. Qed.

Lemma map_result_float_lists (m : list (list R)) :
  map_result floats_of_json (map json_of_floats m) = ok m.
Proof.
  induction m as [| l t IH]; [reflexivity |].
  cbn [map map_result]. rewrite floats_of_json_of_floats, IH. reflexivity.
Qed.

Lemma map_result_pyvals (l : list pyval) :
  map_result pyval_of_json (map json_of_pyval l) = ok l.
Proof.
  induction l as [| x t IH]; cbn; [reflexivity |].
  rewrite IH. destruct x; reflexivity.
Qed.

Lemma map_result_sample_channels (d : dict (list R)) :
  map_result (fun kv => rbind (floats_of_json (snd kv)) (fun l => ok (fst kv, l)))
             (map (fun kv => (fst kv, json_of_floats (snd kv))) d)
  = ok d.
Proof.
  induction d as [| [k l] t IH]; [reflexivity |].
  cbn [map map_result fst snd]. rewrite floats_of_json_of_floats, IH. reflexivity.
Qed.

Lemma map_result_control_channels (d : dict (list pyval)) :
  map_result (fun kv => rbind (pyvals_of_json (snd kv)) (fun l => ok (fst kv, l)))
             (map (fun kv => (fst kv, JArr (map json_of_pyval (snd kv)))) d)
  = ok d.
Proof.
  induction d as [| [k l] t IH]; [reflexivity |].
  cbn [map map_result fst snd pyvals_of_json]. rewrite map_result_pyvals, IH.
  reflexivity.
Qed.

(** What [json.load] gives back for a dumped history is that history. *)
Lemma history_of_json_of_history (h : history) :
  dict_keys (h_main h) = main_keys ->
  history_of_json (json_of_history h) = ok h.
Proof.
  intros Hkeys. destruct h as [main mech ctrl].
  cbn [h_main h_mech_modes h_control_params] in *.
  assert (Hmain := map_result_sample_channels main).
  explode_keys main Hkeys.
  unfold json_of_history, history_of_json.
  cbn [h_main h_mech_modes h_control_params map app fst snd filter is_sample_key
       String.eqb Ascii.eqb Bool.eqb negb andb dict_get].
  cbn [map fst snd] in Hmain. rewrite Hmain.
  cbn [rbind ok]. rewrite map_result_float_lists. cbn [rbind ok].
  rewrite map_result_control_channels. reflexivity.
Qed.

Lemma firstn_snoc_nth {A} (l : list A) (k : nat) (d : A) :
  (k < List.length l)%nat -> firstn k l ++ [nth k l d] = firstn (S k) l.
Proof.
  revert k. induction l as [| x t IH]; intros k Hk; cbn in Hk; [lia |].
  destruct k as [| k]; [reflexivity |].
  cbn [firstn nth app]. f_equal. apply IH. lia.
Qed.

Lemma map_result_index_list {A B} (g : A -> result B) (suf : list A) :
  forall pre : list A,
    map_result (fun j => rbind (py_index (pre ++ suf) (Z.of_nat j)) g)
               (seq (List.length pre) (List.length suf))
    = map_result g suf.
Proof.
  induction suf as [| x t IH]; intros pre; [reflexivity |].
  cbn [List.length seq map_result].
  rewrite py_index_app_middle. cbn [rbind ok].
  replace (pre ++ x :: t) with ((pre ++ [x]) ++ t) by (rewrite <- app_assoc; reflexivity).
  replace (S (List.length pre)) with (List.length (pre ++ [x]))
    by (rewrite length_app; cbn; lia).
  rewrite IH. reflexivity.
Qed.

Section Files.

Variable cfg : config.

Lemma csv_row_spec (n c i : nat) (h : history) :
  aligned cfg n c h -> (i < n)%nat -> csv_row cfg h i = ok (row_of h i).
Proof.
  intros (Hkeys & Hlen & Hmodes & Hmlen & _) Hi.
  destruct h as [main mech ctrl].
  cbn [h_main h_mech_modes h_control_params] in *.
  assert (Hmech :
    map_result
      (fun j => rbind (py_index mech (Z.of_nat j))
                      (fun mj => if (Z.of_nat i <? len mj)%Z
                                 then py_index mj (Z.of_nat i) else ok 0))
      (seq 0 (n_modes cfg))
    = ok (map (fun m => nth i m 0) mech)).
  { rewrite <- Hmodes.
    rewrite (map_result_index_list _ mech []).
    clear Hmodes. induction mech as [| m t IH]; [reflexivity |].
    pose proof (Forall_inv Hmlen) as Hm. cbv beta in Hm.
    apply Forall_inv_tail in Hmlen.
    cbn [map_result map].
    assert (Hb : (Z.of_nat i <? len m)%Z = true)
      by (apply Z.ltb_lt; unfold len; lia).
    rewrite Hb, (py_index_in_range m (Z.of_nat i) 0) by (unfold len; lia).
    cbn [rbind ok]. rewrite Nat2Z.id, (IH Hmlen). reflexivity. }
  explode_keys main Hkeys.
  repeat match goal with
         | H : Forall _ (_ :: _) |- _ =>
             let Hh := fresh "Hlen" in
             pose proof (Forall_inv H) as Hh; apply Forall_inv_tail in H;
             cbn [snd] in Hh
         end.
  unfold csv_row, row_of.
  cbn [h_main h_mech_modes dict_get String.eqb Ascii.eqb Bool.eqb rbind ok map].
  repeat match goal with
         | H : List.length ?l = n |- context [py_index ?l (Z.of_nat i)] =>
             rewrite (py_index_in_range l (Z.of_nat i) 0) by (unfold len; lia)
         end.
  cbn [rbind ok]. rewrite Hmech. cbn [rbind ok]. rewrite !Nat2Z.id. reflexivity.
Qed.

Lemma csv_write_rows_spec (n c : nat) (h : history) (indices : list nat) :
  aligned cfg n c h ->
  Forall (fun i => (i < n)%nat) indices ->
  csv_write_rows cfg h indices = (map (row_of h) indices, ok tt).
Proof.
  intros Hal Hall. induction indices as [| i t IH]; [reflexivity |].
  pose proof (Forall_inv Hall) as Hi. apply Forall_inv_tail in Hall.
  cbn [csv_write_rows map]. rewrite (csv_row_spec n c i h Hal Hi).
  unfold ok at 1. rewrite (IH Hall). reflexivity.
Qed.

Lemma row_of_length (n c i : nat) (h : history) :
  aligned cfg n c h -> List.length (row_of h i) = (5 + n_modes cfg)%nat.
Proof.
  intros (_ & _ & Hmodes & _). unfold row_of.
  rewrite length_app, !length_map, Hmodes. reflexivity.
Qed.

Lemma load_row_keys (row : list R) (h : history) :
  dict_keys (h_main (load_row row h)) = dict_keys (h_main h)
  /\ List.length (h_mech_modes (load_row row h)) = List.length (h_mech_modes h).
Proof.
  unfold load_row, dict_keys. cbn [h_main h_mech_modes].
  rewrite map_map, with_modes_length. auto.
Qed.

Lemma load_csv_row_spec (row : list R) (s : sim_state) :
  dict_keys (h_main (history_data s)) = main_keys ->
  List.length (h_mech_modes (history_data s)) = n_modes cfg ->
  List.length row = (5 + n_modes cfg)%nat ->
  load_csv_row cfg row s = (set_history_data (load_row row (history_data s)) s, ok tt).
Proof.
  intros Hkeys Hmodes Hrow.
  destruct s as [cp run rec pb sm svc ph b d beam base h rng].
  destruct h as [main mech ctrl].
  cbn [history_data h_main h_mech_modes h_control_params] in *.
  explode_keys main Hkeys.
  destruct row as [| c0 [| c1 [| c2 [| c3 [| c4 modes]]]]];
    try (cbn [List.length] in Hrow; lia).
  assert (Hmlen : List.length modes = List.length mech)
    by (cbn [List.length] in Hrow; lia).
  set (row := c0 :: c1 :: c2 :: c3 :: c4 :: modes) in *.
  match goal with
  | |- load_csv_row cfg row (mkState _ _ _ _ _ _ _ _ _ _ _
                               (mkHistory [(_, ?l0); (_, ?l1); (_, ?l2); (_, ?l3);
                                           (_, ?l4); (_, ?l5); (_, ?l6); (_, ?l7);
                                           (_, ?l8); (_, ?l9)] _ _) _) = _ =>
      set (s5 := mkState cp run rec pb sm svc ph b d beam base
                   (mkHistory
                      [("time"%string, l0 ++ [c0]); ("vc_real"%string, l1);
                       ("vc_imag"%string, l2); ("vc_mag"%string, l3 ++ [c1]);
                       ("vc_phase"%string, l4 ++ [c2]); ("vr_real"%string, l5);
                       ("vr_imag"%string, l6); ("vr_mag"%string, l7 ++ [c3]);
                       ("vr_phase"%string, l8); ("detuning"%string, l9 ++ [c4])]
                      mech ctrl) rng)
  end.
  transitivity
    (for_each (seq 0 (List.length mech))
       (fun i =>
          if (Z.of_nat i + 5 <? len row)%Z
          then bind (lift (py_index row (Z.of_nat i + 5))) (fun c => mech_append i c)
          else ret tt) s5).
  { rewrite Hmodes. reflexivity. }
  rewrite (for_each_mech_append sm (fun j => nth (j + 5) row 0) _ mech 0 [] s5).
  - reflexivity.
  - intros i s' Hi _.
    assert (Hb : (Z.of_nat i + 5 <? len row)%Z = true).
    { apply Z.ltb_lt. unfold len, row. cbn [List.length]. lia. }
    rewrite Hb. unfold bind, lift.
    rewrite (py_index_in_range row (Z.of_nat i + 5) 0)
      by (unfold len, row; cbn [List.length]; lia).
    unfold ok at 1.
    replace (Z.to_nat (Z.of_nat i + 5)) with (i + 5)%nat by lia. reflexivity.
  - reflexivity.
  - reflexivity.
  - reflexivity.
Qed.

Lemma load_rows_spec (rows : list (list R)) :
  forall s : sim_state,
    dict_keys (h_main (history_data s)) = main_keys ->
    List.length (h_mech_modes (history_data s)) = n_modes cfg ->
    Forall (fun row => List.length row = (5 + n_modes cfg)%nat) rows ->
    for_each rows (load_csv_row cfg) s
    = (set_history_data (fold_left (fun h row => load_row row h) rows (history_data s)) s,
       ok tt).
Proof.
  induction rows as [| row later IH]; intros s Hkeys Hmodes Hrows.
  - cbn. destruct s; reflexivity.
  - pose proof (Forall_inv Hrows) as Hrow. cbv beta in Hrow.
    apply Forall_inv_tail in Hrows.
    cbn [for_each fold_left]. unfold bind.
    rewrite (load_csv_row_spec row s Hkeys Hmodes Hrow). unfold ok at 1.
    destruct (load_row_keys row (history_data s)) as (Ek & Em).
    rewrite IH; fields; try assumption; try congruence.
    reflexivity.
Qed.

Lemma with_modes_ext (val val' : nat -> R) (m : list (list R)) :
  forall start,
    (forall j, (start <= j)%nat -> val j = val' j) ->
    with_modes val start m = with_modes val' start m.
Proof.
  induction m as [| l t IH]; intros start H; [reflexivity |].
  cbn [with_modes]. rewrite (H start) by lia. f_equal. apply IH.
  intros j Hj. apply H. lia.
Qed.

Lemma with_modes_column (k : nat) (suf : list (list R)) :
  forall pre : list (list R),
    Forall (fun m => (k < List.length m)%nat) suf ->
    with_modes (fun j => nth j (map (fun m => nth k m 0) (pre ++ suf)) 0)
               (List.length pre) (map (firstn k) suf)
    = map (firstn (S k)) suf.
Proof.
  induction suf as [| m t IH]; intros pre Hall; [reflexivity |].
  pose proof (Forall_inv Hall) as Hm. cbv beta in Hm. apply Forall_inv_tail in Hall.
  cbn [map with_modes]. f_equal.
  - rewrite map_app, app_nth2 by (rewrite length_map; lia).
    rewrite length_map, Nat.sub_diag. cbn [map nth].
    apply firstn_snoc_nth. exact Hm.
  - replace (pre ++ m :: t) with ((pre ++ [m]) ++ t)
      by (rewrite <- app_assoc; reflexivity).
    replace (S (List.length pre)) with (List.length (pre ++ [m]))
      by (rewrite length_app; cbn; lia).
    apply IH. exact Hall.
Qed.

(** Reading row [k] of the table of [h] extends the image of the first [k]
    samples to the image of the first [k + 1]. *)
Lemma load_row_csv_image (n c k : nat) (h : history) :
  aligned cfg n c h -> (k < n)%nat ->
  load_row (row_of h k) (csv_image k h) = csv_image (S k) h.
Proof.
  intros (Hkeys & Hlen & Hmodes & Hmlen & _) Hk.
  destruct h as [main mech ctrl].
  cbn [h_main h_mech_modes h_control_params] in *.
  assert (Hmech :
    with_modes (fun j => nth (j + 5) (row_of (mkHistory main mech ctrl) k) 0) 0
               (map (firstn k) mech)
    = map (firstn (S k)) mech).
  { rewrite <- (with_modes_column k mech []).
    - apply with_modes_ext. intros j _. unfold row_of.
      rewrite app_nth2 by (cbn [map List.length]; lia).
      cbn [map List.length h_mech_modes app].
      replace (j + 5 - 5)%nat with j by lia. reflexivity.
    - eapply Forall_impl; [| exact Hmlen]. cbn. intros m ->. exact Hk. }
  explode_keys main Hkeys.
  repeat match goal with
         | H : Forall _ (_ :: _) |- _ =>
             let Hh := fresh "Hlen" in
             pose proof (Forall_inv H) as Hh; apply Forall_inv_tail in H;
             cbn [snd] in Hh
         end.
  unfold load_row, csv_image.
  cbn [h_main h_mech_modes h_control_params]. rewrite Hmech.
  unfold row_of.
  cbn [map fst snd csv_column String.eqb Ascii.eqb Bool.eqb h_main h_mech_modes
       dict_get ok app nth].
  rewrite !firstn_snoc_nth by lia. reflexivity.
Qed.

Lemma load_rows_csv_image (n c : nat) (h : history) :
  aligned cfg n c h ->
  forall k : nat,
    (k <= n)%nat ->
    fold_left (fun h' row => load_row row h') (map (row_of h) (seq 0 k)) (csv_image 0 h)
    = csv_image k h.
Proof.
  intros Hal. induction k as [| k IH]; intros Hk; [reflexivity |].
  rewrite seq_S, map_app, fold_left_app, IH by lia. cbn [map fold_left Nat.add].
  apply (load_row_csv_image n c k h Hal). lia.
Qed.

Lemma empty_history_is_csv_image (n c : nat) (h : history) :
  aligned cfg n c h -> empty_history cfg = csv_image 0 h.
Proof.
  intros (Hkeys & _ & Hmodes & _).
  destruct h as [main mech ctrl].
  cbn [h_main h_mech_modes h_control_params] in *.
  unfold empty_history, csv_image. cbn [h_main h_mech_modes h_control_params].
  f_equal.
  - explode_keys main Hkeys. reflexivity.
  - rewrite <- Hmodes. clear. induction mech as [| m t IH]; [reflexivity |].
    cbn. now rewrite IH.
Qed.

Lemma csv_image_channels (n c : nat) (h : history) :
  aligned cfg n c h ->
  (forall key, In key csv_keys ->
     dict_get key (h_main (csv_image n h)) = dict_get key (h_main h))
  /\ h_mech_modes (csv_image n h) = h_mech_modes h
  /\ (forall key, In key untabulated_keys ->
        dict_get key (h_main (csv_image n h)) = ok [])
  /\ Forall (fun kv => snd kv = []) (h_control_params (csv_image n h)).
Proof.
  intros (Hkeys & Hlen & Hmodes & Hmlen & _).
  destruct h as [main mech ctrl].
  cbn [h_main h_mech_modes h_control_params] in *.
  split; [| split; [| split]].
  - explode_keys main Hkeys.
    repeat match goal with
           | H : Forall _ (_ :: _) |- _ =>
               let Hh := fresh "Hlen" in
               pose proof (Forall_inv H) as Hh; apply Forall_inv_tail in H;
               cbn [snd] in Hh
           end.
    intros key Hin. cbn in Hin.
    repeat (destruct Hin as [<- | Hin];
            [cbn; f_equal; apply firstn_all2; lia |]).
    contradiction.
  - unfold csv_image. cbn [h_mech_modes].
    clear Hmodes. induction mech as [| m t IH]; [reflexivity |].
    pose proof (Forall_inv Hmlen) as Hm. cbv beta in Hm.
    apply Forall_inv_tail in Hmlen.
    cbn [map]. rewrite (IH Hmlen), firstn_all2 by lia. reflexivity.
  - explode_keys main Hkeys.
    intros key Hin. cbn in Hin.
    repeat (destruct Hin as [<- | Hin]; [reflexivity |]).
    contradiction.
  - unfold csv_image. cbn [h_control_params]. repeat constructor.
Qed.

Lemma history_data_set_history_data {A} (h : history) (s : sim_state) (r : A) :
  history_data (fst (set_history_data h s, r)) = h.
Proof. reflexivity. Qed.

Lemma aligned_time_channel (n c : nat) (h : history) :
  aligned cfg n c h -> (0 < n)%nat ->
  exists x t, dict_get "time" (h_main h) = ok (x :: t) /\ List.length (x :: t) = n.
Proof.
  intros (Hkeys & Hlen & _) Hn. destruct h as [main mech ctrl].
  cbn [h_main] in *. explode_keys main Hkeys.
  pose proof (Forall_inv Hlen) as Ht. cbn [snd] in Ht.
  destruct l as [| x t]; [cbn in Ht; lia |].
  exists x, t. split; [reflexivity | exact Ht].
Qed.

(** The structured encoding: what was dumped is what is loaded. *)
Lemma save_json_then_load (filename timestamp : string) (s s0 : sim_state)
    (n c : nat) :
  aligned cfg n c (history_data s) ->
  (0 < n)%nat ->
  filename <> EmptyString ->
  endswith filename ".json" = true ->
  exists doc,
    save_data cfg filename timestamp s
    = ok (Some (JsonFile doc), ShowInfo "Success" ("Data saved to " ++ filename))
    /\ load_data cfg filename (JsonFile doc) s0
       = (set_history_data (history_data s) s0,
          ok (ShowInfo "Success" ("Data loaded from " ++ filename))).
Proof.
  intros Hal Hn Hname Hjson.
  assert (Hnameb : String.eqb filename EmptyString = false) by (apply String.eqb_neq; exact Hname).
  destruct (aligned_time_channel n c _ Hal Hn) as (x & t & Htime & _).
  destruct Hal as (Hkeys & _).
  eexists. split.
  - unfold save_data. rewrite Htime. cbn [rbind ok]. rewrite Hnameb, Hjson.
    reflexivity.
  - unfold load_data, try_except, bind, lift, modify, ret.
    rewrite Hnameb, Hjson. cbn [dict_get String.eqb Ascii.eqb Bool.eqb ok].
    rewrite (history_of_json_of_history _ Hkeys). reflexivity.
Qed.

(** The tabular encoding: one row per sample, read back into the tabulated
    channels. *)
Lemma save_csv_then_load (filename timestamp : string) (s s0 : sim_state)
    (n c : nat) :
  aligned cfg n c (history_data s) ->
  (0 < n)%nat ->
  filename <> EmptyString ->
  endswith filename ".json" = false ->
  save_data cfg filename timestamp s
  = ok (Some (CsvFile (mkCsv (csv_header_row cfg)
                             (map (row_of (history_data s)) (seq 0 n)))),
        ShowInfo "Success" ("Data saved to " ++ filename))
  /\ load_data cfg filename
       (CsvFile (mkCsv (csv_header_row cfg)
                       (map (row_of (history_data s)) (seq 0 n)))) s0
     = (set_history_data (csv_image n (history_data s)) s0,
        ok (ShowInfo "Success" ("Data loaded from " ++ filename))).
Proof.
  intros Hal Hn Hname Hjson.
  assert (Hnameb : String.eqb filename EmptyString = false) by (apply String.eqb_neq; exact Hname).
  destruct (aligned_time_channel n c _ Hal Hn) as (x & t & Htime & Htlen).
  split.
  - assert (Hrows : csv_write_rows cfg (history_data s) (seq 0 (List.length (x :: t)))
                    = (map (row_of (history_data s)) (seq 0 n), ok tt)).
    { rewrite Htlen. apply (csv_write_rows_spec n c); [exact Hal |].
      apply Forall_forall. intros i Hi. apply in_seq in Hi. lia. }
    unfold save_data. rewrite Htime. cbn [rbind ok]. rewrite Hnameb, Hjson.
    rewrite Hrows. reflexivity.
  - unfold load_data, try_except, bind, modify, ret.
    rewrite Hnameb, Hjson. cbn [ok csv_rows].
    rewrite load_rows_spec.
    + cbn [ok]. fields.
      rewrite (empty_history_is_csv_image n c (history_data s) Hal).
      rewrite (load_rows_csv_image n c (history_data s) Hal n) by lia.
      reflexivity.
    + fields. reflexivity.
    + fields. cbn [empty_history h_mech_modes]. apply repeat_length.
    + apply Forall_forall. intros row Hrow. apply in_map_iff in Hrow.
      destruct Hrow as (i & <- & _). apply (row_of_length n c). exact Hal.
Qed.

(** C3, amended. A non-empty aligned history saved under a non-empty file
    name is written and loads back without an error.  Under a name ending in
    [.json] the loaded history is the saved one, channel for channel.  Under
    any other name the file is a table with one row per sample, and the
    loaded history holds the saved values of the channels [time], [vc_mag],
    [vc_phase], [vr_mag], [detuning] and of every per-mode channel; the
    channels [vc_real], [vc_imag], [vr_real], [vr_imag], [vr_phase] and the
    control-parameter channels are not in the table and come back empty.
    The values are compared exactly: the text of a number is taken to be
    read back as that number. *)
Theorem save_then_load_round_trip
    (filename timestamp : string) (s s0 : sim_state) (n c : nat) :
  aligned cfg n c (history_data s) ->
  (0 < n)%nat ->
  filename <> EmptyString ->
  exists content,
    save_data cfg filename timestamp s
    = ok (Some content, ShowInfo "Success" ("Data saved to " ++ filename))
    /\ snd (load_data cfg filename content s0)
       = ok (ShowInfo "Success" ("Data loaded from " ++ filename))
    /\ (endswith filename ".json" = true ->
        (exists doc, content = JsonFile doc)
        /\ history_data (fst (load_data cfg filename content s0)) = history_data s)
    /\ (endswith filename ".json" = false ->
        (exists table, content = CsvFile table /\ List.length (csv_rows table) = n)
        /\ history_data (fst (load_data cfg filename content s0))
           = csv_image n (history_data s)
        /\ (forall key, In key csv_keys ->
              dict_get key (h_main (csv_image n (history_data s)))
              = dict_get key (h_main (history_data s)))
        /\ h_mech_modes (csv_image n (history_data s)) = h_mech_modes (history_data s)
        /\ (forall key, In key untabulated_keys ->
              dict_get key (h_main (csv_image n (history_data s))) = ok [])
        /\ Forall (fun kv => snd kv = [])
                  (h_control_params (csv_image n (history_data s)))).
Proof.
  intros Hal Hn Hname.
  destruct (endswith filename ".json") eqn:Hjson.
  - destruct (save_json_then_load filename timestamp s s0 n c Hal Hn Hname Hjson)
      as (doc & Hsave & Hload).
    exists (JsonFile doc).
    split; [exact Hsave |]. split; [rewrite Hload; reflexivity |].
    split; [| intros Hfalse; discriminate Hfalse].
    intros _. split; [eauto |]. rewrite Hload. fields. reflexivity.
  - destruct (save_csv_then_load filename timestamp s s0 n c Hal Hn Hname Hjson)
      as (Hsave & Hload).
    eexists. split; [exact Hsave |]. split; [rewrite Hload; reflexivity |].
    split; [intros Htrue; discriminate Htrue |].
    intros _. split.
    { eexists. split; [reflexivity |]. cbn [csv_rows].
      rewrite length_map, length_seq. reflexivity. }
    split; [rewrite Hload; fields; reflexivity |].
    apply (csv_image_channels n c). exact Hal.
Qed.

End Files.

(** *** At a stored sample *)

Lemma one_sample_state_aligned :
  aligned gui_config 1 0 (history_data one_sample_state).
Proof.
  unfold one_sample_state.
  apply store_all_below_capacity;
    [| cbn; lia | cbn; lia | reflexivity | reflexivity].
  apply gui_init_history_aligned.
Qed.

(** C3, as stated, fails for the tabular encoding: the stored sample has the
    real part [1] in the channel [vc_real]; the table written for it has no
    such column, and after loading it back the channel is empty. *)
Lemma csv_round_trip_loses_channels :
  save_data gui_config "run.csv" "2025-09-01T12:00:00" one_sample_state
  = ok (Some one_sample_csv, ShowInfo "Success" "Data saved to run.csv")
  /\ snd (load_data gui_config "run.csv" one_sample_csv
            (init_state euler_env gui_config))
     = ok (ShowInfo "Success" "Data loaded from run.csv")
  /\ dict_get "vc_real" (h_main (history_data one_sample_state)) = ok [1]
  /\ dict_get "vc_real"
       (h_main (history_data
          (fst (load_data gui_config "run.csv" one_sample_csv
                  (init_state euler_env gui_config)))))
     = ok [].
Proof. repeat split; reflexivity. Qed.

(** An empty history is not saved: the warning box is shown and no file is
    written. *)
Example empty_history_is_not_saved :
  save_data gui_config "run.csv" "2025-09-01T12:00:00"
            (init_state euler_env gui_config)
  = ok (None, ShowWarning "Warning" "No data to save!").
Proof. reflexivity. Qed.

(** The structured encoding gives the whole history back. *)
Example json_round_trip_keeps_every_channel :
  exists doc,
    save_data gui_config "run.json" "2025-09-01T12:00:00" one_sample_state
    = ok (Some (JsonFile doc), ShowInfo "Success" "Data saved to run.json")
    /\ history_data (fst (load_data gui_config "run.json" (JsonFile doc)
                            (init_state euler_env gui_config)))
       = history_data one_sample_state.
Proof.
  destruct (save_json_then_load gui_config "run.json" "2025-09-01T12:00:00"
              one_sample_state (init_state euler_env gui_config) 1 0
              one_sample_state_aligned ltac:(lia) ltac:(discriminate) eq_refl)
    as (doc & Hsave & Hload).
  exists doc. split; [exact Hsave |]. rewrite Hload.
  apply history_data_set_history_data.
Qed.

Lemma save_then_load_round_trip_witness :
  exists content,
    save_data gui_config "run.csv" "2025-09-01T12:00:00" one_sample_state
    = ok (Some content, ShowInfo "Success" ("Data saved to " ++ "run.csv"))
    /\ snd (load_data gui_config "run.csv" content (init_state euler_env gui_config))
       = ok (ShowInfo "Success" ("Data loaded from " ++ "run.csv"))
    /\ (endswith "run.csv" ".json" = true ->
        (exists doc, content = JsonFile doc)
        /\ history_data (fst (load_data gui_config "run.csv" content
                                (init_state euler_env gui_config)))
           = history_data one_sample_state)
    /\ (endswith "run.csv" ".json" = false ->
        (exists table, content = CsvFile table /\ List.length (csv_rows table) = 1%nat)
        /\ history_data (fst (load_data gui_config "run.csv" content
                                (init_state euler_env gui_config)))
           = csv_image 1 (history_data one_sample_state)
        /\ (forall key, In key csv_keys ->
              dict_get key (h_main (csv_image 1 (history_data one_sample_state)))
              = dict_get key (h_main (history_data one_sample_state)))
        /\ h_mech_modes (csv_image 1 (history_data one_sample_state))
           = h_mech_modes (history_data one_sample_state)
        /\ (forall key, In key untabulated_keys ->
              dict_get key (h_main (csv_image 1 (history_data one_sample_state)))
              = ok [])
        /\ Forall (fun kv => snd kv = [])
                  (h_control_params (csv_image 1 (history_data one_sample_state)))).
Proof.
  apply (save_then_load_round_trip gui_config "run.csv" "2025-09-01T12:00:00"
           one_sample_state (init_state euler_env gui_config) 1 0).
  - apply one_sample_state_aligned.
  - lia.
  - discriminate.
Defined.
(** ** The RF chain: amplitude, gain and gate *)

Lemma Cmult_RtoC_r (a : C) (x : R) : Cmult a (RtoC x) = mkC (Re a * x) (Im a * x).
Proof. apply C_eq; simpl; ring. Qed.

Lemma Cabs_scale (a : C) (x : R) :
  0 <= x -> Cabs (mkC (Re a * x) (Im a * x)) = Cabs a * x.
Proof.
  intros Hx. unfold Cabs. cbn [Re Im].
  replace (Re a * x * (Re a * x) + Im a * x * (Im a * x))
    with ((Re a * Re a + Im a * Im a) * (x * x)) by ring.
  rewrite sqrt_mult_alt.
  - rewrite sqrt_square by exact Hx. reflexivity.
  - nra.
Qed.

(** X1. The sample of the source oscillator has the magnitude of the
    amplitude it is given, whatever the frequency offset, the phase and the
    time step. *)
Theorem sim_rfsrc_constant_amplitude (fsrc Asrc pha_src Ts : R) :
  Cabs (fst (sim_rfsrc fsrc Asrc pha_src Ts)) = Rabs Asrc.
Proof.
  unfold sim_rfsrc, Cabs. cbn [fst Re Im Cmult Cexp RtoC Ci].
  set (p := pha_src + 2 * PI * fsrc * Ts).
  replace (0 * p - 1 * 0) with 0 by ring. rewrite exp_0.
  replace (0 * 0 + 1 * p) with p by ring.
  replace ((Asrc * (1 * cos p) - 0 * (1 * sin p)) * (Asrc * (1 * cos p) - 0 * (1 * sin p))
           + (Asrc * (1 * sin p) + 0 * (1 * cos p)) * (Asrc * (1 * sin p) + 0 * (1 * cos p)))
    with (Rsqr Asrc * (Rsqr (sin p) + Rsqr (cos p))) by (unfold Rsqr; ring).
  rewrite sin2_cos2, Rmult_1_r. apply sqrt_Rsqr_abs.
Qed.

Lemma Rpower_10_log10 (x : R) : 0 < x -> Rpower 10 (20 * log10 x / 20) = x.
Proof.
  intros Hx. unfold Rpower, log10.
  assert (Hln : ln 10 <> 0).
  { assert (0 < ln 10) by (rewrite <- ln_1; apply ln_increasing; lra). lra. }
  replace (20 * (ln x / ln 10) / 20 * ln 10) with (ln x) by (field; exact Hln).
  apply exp_ln. exact Hx.
Qed.

(** X2. A gain given in decibels as [20 * log10 x] multiplies the signal by
    [x]; with the gain that both programs use, [20 * log10 12e6], the
    amplifier multiplies the real and the imaginary part by twelve
    million. *)
Theorem sim_amp_decibel_gain (sig_in : C) (x : R) :
  0 < x ->
  sim_amp sig_in (20 * log10 x) = mkC (Re sig_in * x) (Im sig_in * x)
  /\ Cabs (sim_amp sig_in (20 * log10 x)) = Cabs sig_in * x.
Proof.
  intros Hx.
  assert (H : sim_amp sig_in (20 * log10 x) = mkC (Re sig_in * x) (Im sig_in * x)).
  { unfold sim_amp. rewrite Rpower_10_log10 by exact Hx. apply Cmult_RtoC_r. }
  split; [exact H |]. rewrite H. apply Cabs_scale. lra.
Qed.

Lemma sim_amp_decibel_gain_witness :
  sim_amp (mkC 1 0) (20 * log10 12000000) = mkC (Re (mkC 1 0) * 12000000) (Im (mkC 1 0) * 12000000)
  /\ Cabs (sim_amp (mkC 1 0) (20 * log10 12000000)) = Cabs (mkC 1 0) * 12000000.
Proof. apply (sim_amp_decibel_gain (mkC 1 0) 12000000). lra. Defined.

(** X3. Amplifier stages compose by adding their gains in decibels, a gain
    of [0] dB leaves the signal as it is, and the magnitude of the output is
    the magnitude of the input times [10 ** (gain_dB / 20)]. *)
Theorem sim_amp_gains_add (sig_in : C) (g1 g2 : R) :
  sim_amp (sim_amp sig_in g1) g2 = sim_amp sig_in (g1 + g2)
  /\ sim_amp sig_in 0 = sig_in
  /\ Cabs (sim_amp sig_in g1) = Cabs sig_in * Rpower 10 (g1 / 20).
Proof.
  unfold sim_amp. rewrite !Cmult_RtoC_r. cbn [Re Im].
  split; [| split].
  - replace ((g1 + g2) / 20) with (g1 / 20 + g2 / 20) by field.
    rewrite Rpower_plus. apply C_eq; simpl; ring.
  - replace (0 / 20) with 0 by field. rewrite Rpower_O by lra.
    destruct sig_in; apply C_eq; simpl; ring.
  - apply Cabs_scale. unfold Rpower. left. apply exp_pos.
Qed.

(** ** What a step never writes *)

Lemma untouched_by_step_refl (s : sim_state) : untouched_by_step s s.
Proof. unfold untouched_by_step. auto 10. Qed.

Lemma untouched_by_step_trans (s1 s2 s3 : sim_state) :
  untouched_by_step s1 s2 -> untouched_by_step s2 s3 -> untouched_by_step s1 s3.
Proof.
  unfold untouched_by_step.
  intros (A1 & A2 & A3 & A4 & A5 & A6) (B1 & B2 & B3 & B4 & B5 & B6).
  repeat split; congruence.
Qed.

Lemma simulation_step_untouched (env : collaborators) (cfg : config) (s : sim_state) :
  untouched_by_step s (fst (simulation_step env cfg s)).
Proof.
  unfold simulation_step, advance_buf_id, draw_randn, bind, gets, lift, modify, ret, ok.
  cbv beta iota delta [sim_rfsrc].
  destruct s as [cp run rec pb sm svc ph b d beam base h rng].
  unfold untouched_by_step.
  step_cases cp; repeat split; reflexivity.
Qed.

Lemma run_steps_untouched (env : collaborators) (cfg : config) (n : nat) :
  forall (last : option (C * C * R)) (s : sim_state),
    untouched_by_step s (fst (run_steps env cfg n last s)).
Proof.
  induction n as [| n IH]; intros last s; [apply untouched_by_step_refl |].
  cbn [run_steps]. unfold bind.
  pose proof (simulation_step_untouched env cfg s) as H1.
  destruct (simulation_step env cfg s) as [s1 [e | out]]; cbn [fst] in *.
  - exact H1.
  - eapply untouched_by_step_trans; [exact H1 | apply IH].
Qed.

(** ** The envelope buffers *)

Lemma slice_fill_from_length {A} (lo hi : nat) (v : A) (l : list A) :
  forall pos, List.length (slice_fill_from pos lo hi v l) = List.length l.
Proof. induction l as [| x t IH]; intros pos; cbn; [reflexivity | now rewrite IH]. Qed.

Lemma slice_fill_from_nth {A} (lo hi : nat) (v d : A) (l : list A) :
  forall pos i,
    (i < List.length l)%nat ->
    nth i (slice_fill_from pos lo hi v l) d
    = if (lo <=? pos + i)%nat && (pos + i <? hi)%nat then v else nth i l d.
Proof.
  induction l as [| x t IH]; intros pos i Hi; cbn [List.length] in Hi; [lia |].
  destruct i as [| i]; cbn [slice_fill_from nth].
  - rewrite Nat.add_0_r. reflexivity.
  - rewrite IH by lia. replace (S pos + i)%nat with (pos + S i)%nat by lia. reflexivity.
Qed.

Lemma slice_fill_length {A} (lo hi : nat) (v : A) (l : list A) :
  List.length (slice_fill lo hi v l) = List.length l.
Proof. apply slice_fill_from_length. Qed.

Lemma slice_fill_nth {A} (lo hi i : nat) (v d : A) (l : list A) :
  (i < List.length l)%nat ->
  nth i (slice_fill lo hi v l) d
  = if (lo <=? i)%nat && (i <? hi)%nat then v else nth i l d.
Proof. intros Hi. unfold slice_fill. now rewrite slice_fill_from_nth. Qed.

Lemma nth_repeat_const {A} (x d : A) (n i : nat) :
  (i < n)%nat -> nth i (repeat x n) d = x.
Proof.
  revert i. induction n as [| n IH]; intros i Hi; [lia |].
  destruct i; cbn; [reflexivity | apply IH; lia].
Qed.

(** The element that the guarded index selects in a window profile: the
    fill value inside the window, the background outside and past the end. *)
Lemma window_profile_index {A} (lo hi n : nat) (v z : A) (b : Z) :
  (hi < n)%nat -> (0 <= b)%Z ->
  py_index (slice_fill lo hi v (repeat z n))
           (buf_index (slice_fill lo hi v (repeat z n)) b)
  = ok (if (Z.of_nat lo <=? b)%Z && (b <? Z.of_nat hi)%Z then v else z).
Proof.
  intros Hn Hb.
  set (buf := slice_fill lo hi v (repeat z n)).
  assert (Hlen : List.length buf = n)
    by (unfold buf; rewrite slice_fill_length; apply repeat_length).
  assert (Hne : buf <> []) by (intros E; rewrite E in Hlen; cbn in Hlen; lia).
  rewrite (py_index_buf_index buf b z Hne Hb). f_equal.
  unfold len. rewrite Hlen.
  destruct (b <? Z.of_nat n)%Z eqn:Hlt.
  - apply Z.ltb_lt in Hlt. unfold buf.
    rewrite slice_fill_nth by (rewrite repeat_length; lia).
    rewrite nth_repeat_const by lia.
    replace (lo <=? Z.to_nat b)%nat with (Z.of_nat lo <=? b)%Z
      by (apply eq_true_iff_eq; rewrite Z.leb_le, Nat.leb_le; lia).
    replace (Z.to_nat b <? hi)%nat with (b <? Z.of_nat hi)%Z
      by (apply eq_true_iff_eq; rewrite Z.ltb_lt, Nat.ltb_lt; lia).
    reflexivity.
  - apply Z.ltb_ge in Hlt.
    assert (Hlast : nth (List.length buf - 1) buf z = last buf z)
      by (apply nth_error_nth, nth_error_last; exact Hne).
    rewrite <- Hlast, Hlen. unfold buf.
    rewrite slice_fill_nth by (rewrite repeat_length; lia).
    rewrite nth_repeat_const by lia.
    replace (n - 1 <? hi)%nat with false by (symmetry; apply Nat.ltb_ge; lia).
    replace (b <? Z.of_nat hi)%Z with false by (symmetry; apply Z.ltb_ge; lia).
    rewrite !andb_false_r. reflexivity.
Qed.

(** X4. In pulsed mode the modulator of the simulator object is a gate on
    the pulse counter: with the baseband profile that
    [init_simulation_params] builds, the sample passes unchanged while the
    counter is below [t_flat] and is blanked from [t_flat] on, also when the
    counter is past the end of the buffer; no step ever changes that
    profile. *)
Theorem rf_gate_follows_pulse_window
    (env : collaborators) (cfg : config) (sig_in : C) (b : Z) :
  (t_flat cfg < buf_size cfg)%nat -> (0 <= b)%Z ->
  sim_iqmod sig_in true (base_pul (init_state env cfg)) (base_cw cfg) b
  = ok (if (b <? Z.of_nat (t_flat cfg))%Z then sig_in else C0)
  /\ forall n : nat,
       base_pul (fst (run_steps env cfg n None (init_state env cfg)))
       = base_pul (init_state env cfg).
Proof.
  intros Hn Hb. split.
  - unfold sim_iqmod.
    change (base_pul (init_state env cfg))
      with (slice_fill 0 (t_flat cfg) (RtoC 1) (repeat C0 (buf_size cfg))).
    rewrite window_profile_index by assumption.
    replace (Z.of_nat 0 <=? b)%Z with true by (symmetry; apply Z.leb_le; lia).
    cbn [andb rbind ok]. f_equal.
    destruct (b <? Z.of_nat (t_flat cfg))%Z; destruct sig_in; apply C_eq; simpl; ring.
  - intros n. apply (run_steps_untouched env cfg n None (init_state env cfg)).
Qed.

Lemma rf_gate_follows_pulse_window_witness :
  sim_iqmod (mkC 3 4) true (base_pul (init_state euler_env gui_config))
            (base_cw gui_config) 20000
  = ok (if (20000 <? Z.of_nat (t_flat gui_config))%Z then mkC 3 4 else C0)
  /\ forall n : nat,
       base_pul (fst (run_steps euler_env gui_config n None
                        (init_state euler_env gui_config)))
       = base_pul (init_state euler_env gui_config).
Proof.
  apply (rf_gate_follows_pulse_window euler_env gui_config (mkC 3 4) 20000).
  - cbn. lia.
  - lia.
Defined.

(** ** The step, stage by stage *)

Lemma param_get (k : string) (s : sim_state) (v : pyval) :
  dict_get k (control_params s) = ok v -> param_value k s = v.
Proof. unfold param_value. intros ->. reflexivity. Qed.

Lemma envelope_index (buf : list C) (b : Z) :
  buf <> [] -> (0 <= b)%Z -> py_index buf (buf_index buf b) = ok (envelope buf b).
Proof. intros Hbuf Hb. apply (py_index_buf_index buf b C0 Hbuf Hb). Qed.

Lemma step_counter_range (cfg : config) (s : sim_state) :
  wf_state cfg s -> (0 <= step_counter cfg s < pul_len cfg)%Z.
Proof.
  intros (_ & _ & _ & Hid). unfold step_counter, standalone_pulse_branch.
  destruct (truthy (param_value "pulsed" s)); [| exact Hid].
  destruct (pul_len cfg <=? buf_id s + 1)%Z eqn:Hle; [lia |].
  apply Z.leb_gt in Hle. lia.
Qed.

(** From a well-formed object the step is the composition of its stages. *)
Lemma simulation_step_explicit (env : collaborators) (cfg : config) (s : sim_state) :
  wf_state cfg s ->
  simulation_step env cfg s = (after_step env cfg s, ok (step_output env cfg s)).
Proof.
  intros Hwf.
  destruct (wf_state_keys cfg s "ib" Hwf) as [v_ib E_ib]; [cbn; tauto |].
  destruct (wf_state_keys cfg s "fsrc" Hwf) as [v_fsrc E_fsrc]; [cbn; tauto |].
  destruct (wf_state_keys cfg s "amp" Hwf) as [v_amp E_amp]; [cbn; tauto |].
  destruct (wf_state_keys cfg s "pulsed" Hwf) as [v_pul E_pul]; [cbn; tauto |].
  destruct (wf_state_keys cfg s "gain_dB" Hwf) as [v_gain E_gain]; [cbn; tauto |].
  pose proof (step_counter_range cfg s Hwf) as Hb.
  destruct Hwf as (Hkeys & Hbase & Hbeam & Hid).
  assert (Hfill : step_beam cfg s <> [])
    by (apply slice_fill_nonempty; exact Hbeam).
  pose proof (envelope_index (base_pul s) (step_counter cfg s) Hbase (proj1 Hb)) as Ebase.
  pose proof (envelope_index (step_beam cfg s) (step_counter cfg s) Hfill (proj1 Hb)) as Ebeam.
  unfold after_step, step_output, integrator_call, step_drive, step_beam_voltage,
    step_phase in *.
  unfold step_beam, step_counter in *.
  rewrite (param_get "ib" s v_ib E_ib) in *.
  rewrite (param_get "fsrc" s v_fsrc E_fsrc).
  rewrite (param_get "amp" s v_amp E_amp).
  rewrite (param_get "pulsed" s v_pul E_pul) in *.
  rewrite (param_get "gain_dB" s v_gain E_gain).
  unfold simulation_step, advance_buf_id, draw_randn, sim_iqmod, sim_cav,
    bind, gets, lift, modify, ret, ok in *.
  cbv beta iota. rewrite E_ib. cbv beta iota. rewrite E_fsrc, E_amp.
  cbv beta iota zeta delta [sim_rfsrc]. rewrite E_pul. cbv beta iota.
  unfold standalone_pulse_branch in *.
  destruct (truthy v_pul).
  - destruct (pul_len cfg <=? buf_id s + 1)%Z eqn:Hle;
      fields; rewrite Hle; cbv beta iota; fields;
      rewrite Ebase; cbn [rbind]; rewrite E_gain; cbv beta iota;
      rewrite Ebeam; cbn [rbind fst];
      match goal with
      | |- context [sim_scav_step env ?a1 ?a2 ?a3 ?a4 ?a5 ?a6 ?a7 ?a8 ?a9 ?a10
                                  ?a11 ?a12 ?a13 ?a14] =>
          destruct (sim_scav_step env a1 a2 a3 a4 a5 a6 a7 a8 a9 a10 a11 a12 a13 a14)
            as [[[[status vc] vr] d] sm]
      end; reflexivity.
  - cbv beta iota. fields. rewrite E_gain. cbv beta iota. cbn [rbind fst].
    match goal with
    | |- context [sim_scav_step env ?a1 ?a2 ?a3 ?a4 ?a5 ?a6 ?a7 ?a8 ?a9 ?a10
                                ?a11 ?a12 ?a13 ?a14] =>
        destruct (sim_scav_step env a1 a2 a3 a4 a5 a6 a7 a8 a9 a10 a11 a12 a13 a14)
          as [[[[status vc] vr] d] sm]
    end.
    destruct s; reflexivity.
Qed.

Lemma slice_fill_from_overwrite {A} (lo hi : nat) (v w : A) (l : list A) :
  forall pos,
    slice_fill_from pos lo hi v (slice_fill_from pos lo hi w l)
    = slice_fill_from pos lo hi v l.
Proof.
  induction l as [| x t IH]; intros pos; [reflexivity |].
  cbn [slice_fill_from]. rewrite IH.
  destruct ((lo <=? pos)%nat && (pos <? hi)%nat); reflexivity.
Qed.

Lemma slice_fill_overwrite {A} (lo hi : nat) (v w : A) (l : list A) :
  slice_fill lo hi v (slice_fill lo hi w l) = slice_fill lo hi v l.
Proof. apply slice_fill_from_overwrite. Qed.

Lemma init_state_profiled (env : collaborators) (cfg : config) :
  profiled cfg (init_state env cfg).
Proof. split; [reflexivity | exists (RtoC (ib cfg)); reflexivity]. Qed.

Lemma after_step_fields (env : collaborators) (cfg : config) (s : sim_state) :
  beam_pul (after_step env cfg s) = step_beam cfg s
  /\ base_pul (after_step env cfg s) = base_pul s
  /\ buf_id (after_step env cfg s) = step_counter cfg s
  /\ pha_src (after_step env cfg s) = step_phase cfg s
  /\ rng_draws (after_step env cfg s) = S (rng_draws s)
  /\ control_params (after_step env cfg s) = control_params s.
Proof.
  unfold after_step.
  destruct (integrator_call env cfg s) as [[[[status vc] vr] d] sm].
  repeat split; reflexivity.
Qed.

Lemma after_step_cavity (env : collaborators) (cfg : config) (s : sim_state)
    (status : bool) (vc vr : C) (d : R) (sm : matrix) :
  integrator_call env cfg s = (status, vc, vr, d, sm) ->
  step_output env cfg s = (vc, vr, d)
  /\ state_vc (after_step env cfg s) = vc
  /\ dw (after_step env cfg s) = d
  /\ state_m (after_step env cfg s) = sm.
Proof.
  intros H. unfold step_output, after_step. rewrite H. repeat split; reflexivity.
Qed.

(** X5. In continuous-wave mode a step from a well-formed object calls the
    integrator once, with the half bandwidth [wh], the detuning of the step
    before, the microphonics [2 * pi * 10 * x] of the next noise sample
    [x], the drive [amp * exp(i * phase) * base_cw * 10 ** (gain_dB / 20)]
    at the advanced oscillator phase, and the beam voltage [- RL * beam_cw];
    it returns the cavity voltage, reflected voltage and detuning of that
    call and stores the voltage, the detuning and the mechanical state; the
    pulse counter is not moved. *)
Theorem continuous_wave_step_drives_integrator
    (env : collaborators) (cfg : config) (s : sim_state) :
  wf_state cfg s ->
  truthy (param_value "pulsed" s) = false ->
  let amp := to_float (param_value "amp" s) in
  let gain := Rpower 10 (to_float (param_value "gain_dB" s) / 20) in
  let phase := pha_src s + 2 * PI * to_float (param_value "fsrc" s) * Ts cfg in
  let x := randn env (rng_draws s) in
  exists status vc vr d sm s',
    sim_scav_step env (wh cfg) (dw s) (2 * PI * x * 10)
      (mkC (amp * cos phase * base_cw cfg * gain)
           (amp * sin phase * base_cw cfg * gain))
      (RtoC (- RL cfg * beam_cw cfg)) (state_vc s) (Ts cfg) (beta cfg)
      (state_m s) (Ad env) (Bd env) (Cd env) (Dd env) true
    = (status, vc, vr, d, sm)
    /\ simulation_step env cfg s = (s', ok (vc, vr, d))
    /\ state_vc s' = vc /\ dw s' = d /\ state_m s' = sm
    /\ pha_src s' = phase
    /\ buf_id s' = buf_id s
    /\ rng_draws s' = S (rng_draws s).
Proof.
  intros Hwf Hcw amp gain phase x.
  pose proof (simulation_step_explicit env cfg s Hwf) as Hstep.
  destruct (after_step_fields env cfg s) as (_ & _ & Hb & Hp & Hr & _).
  assert (Hcall : integrator_call env cfg s
                  = sim_scav_step env (wh cfg) (dw s) (2 * PI * x * 10)
                      (mkC (amp * cos phase * base_cw cfg * gain)
                           (amp * sin phase * base_cw cfg * gain))
                      (RtoC (- RL cfg * beam_cw cfg)) (state_vc s) (Ts cfg) (beta cfg)
                      (state_m s) (Ad env) (Bd env) (Cd env) (Dd env) true).
  { unfold integrator_call, step_drive, step_beam_voltage. rewrite Hcw.
    replace (0 + 2 * PI * randn env (rng_draws s) * 10) with (2 * PI * x * 10)
      by (unfold x; ring).
    f_equal.
    unfold sim_amp, sim_rfsrc. cbn [fst]. fold amp phase gain.
    apply C_eq; simpl;
      replace (0 * phase - 1 * 0) with 0 by ring; rewrite exp_0;
      replace (0 * 0 + 1 * phase) with phase by ring; ring. }
  rewrite <- Hcall.
  destruct (integrator_call env cfg s) as [[[[status vc] vr] d] sm] eqn:Hint.
  destruct (after_step_cavity env cfg s status vc vr d sm Hint) as (Hout & Hvc & Hd & Hsm).
  exists status, vc, vr, d, sm, (after_step env cfg s).
  split; [reflexivity |].
  split; [rewrite Hstep, Hout; reflexivity |].
  repeat split; try assumption.
  rewrite Hb. unfold step_counter, standalone_pulse_branch. rewrite Hcw. reflexivity.
Qed.

Lemma envelope_window (lo hi n : nat) (v z : C) (b : Z) :
  (hi < n)%nat -> (0 <= b)%Z ->
  envelope (slice_fill lo hi v (repeat z n)) b
  = if (Z.of_nat lo <=? b)%Z && (b <? Z.of_nat hi)%Z then v else z.
Proof.
  intros Hn Hb.
  pose proof (window_profile_index lo hi n v z b Hn Hb) as H.
  rewrite envelope_index in H; [injection H as H; exact H | | exact Hb].
  intros E. apply (f_equal (@List.length C)) in E.
  rewrite slice_fill_length, repeat_length in E. cbn in E. lia.
Qed.

(** X6. In pulsed mode, with the envelope profiles as the program builds and
    keeps them, a step from a well-formed object advances the counter to
    [b = (buf_id + 1) mod pul_len] and calls the integrator with a drive that
    is [amp * exp(i * phase) * 10 ** (gain_dB / 20)] while [b < t_flat] and
    zero from [t_flat] to the end of the pulse period, and with the beam
    voltage [- RL * ib] while [t_fill <= b < t_flat] and zero otherwise, [ib]
    being the current value of the beam-current parameter.  The profiles are
    kept: afterwards the beam profile holds that [ib] inside the window. *)
Theorem pulsed_step_gates_drive_and_beam
    (env : collaborators) (cfg : config) (s : sim_state) :
  wf_state cfg s ->
  profiled cfg s ->
  (t_flat cfg < buf_size cfg)%nat ->
  truthy (param_value "pulsed" s) = true ->
  let b := ((buf_id s + 1) mod pul_len cfg)%Z in
  let amp := to_float (param_value "amp" s) in
  let gain := Rpower 10 (to_float (param_value "gain_dB" s) / 20) in
  let phase := pha_src s + 2 * PI * to_float (param_value "fsrc" s) * Ts cfg in
  let ib := to_float (param_value "ib" s) in
  let x := randn env (rng_draws s) in
  exists status vc vr d sm s',
    sim_scav_step env (wh cfg) (dw s) (2 * PI * x * 10)
      (if (b <? Z.of_nat (t_flat cfg))%Z
       then mkC (amp * cos phase * gain) (amp * sin phase * gain)
       else C0)
      (if (Z.of_nat (t_fill cfg) <=? b)%Z && (b <? Z.of_nat (t_flat cfg))%Z
       then RtoC (- RL cfg * ib)
       else C0)
      (state_vc s) (Ts cfg) (beta cfg)
      (state_m s) (Ad env) (Bd env) (Cd env) (Dd env) true
    = (status, vc, vr, d, sm)
    /\ simulation_step env cfg s = (s', ok (vc, vr, d))
    /\ state_vc s' = vc /\ dw s' = d /\ state_m s' = sm
    /\ buf_id s' = b
    /\ beam_pul s'
       = slice_fill (t_fill cfg) (t_flat cfg) (RtoC ib) (repeat C0 (buf_size cfg))
    /\ profiled cfg s'
    /\ wf_state cfg s'.
Proof.
  intros Hwf (Hbase & xb & Hbeam) Hn Hp b amp gain phase ib x.
  pose proof (simulation_step_explicit env cfg s Hwf) as Hstep.
  pose proof (step_counter_range cfg s Hwf) as Hrange.
  destruct (after_step_fields env cfg s) as (Fbeam & Fbase & Fb & Fp & Fr & Fcp).
  assert (Hcounter : step_counter cfg s = b).
  { unfold step_counter, standalone_pulse_branch. rewrite Hp.
    apply pulse_counter_wraps. apply Hwf. }
  assert (Hsb : step_beam cfg s
                = slice_fill (t_fill cfg) (t_flat cfg) (RtoC ib) (repeat C0 (buf_size cfg))).
  { unfold step_beam. rewrite Hbeam. apply slice_fill_overwrite. }
  assert (Hcall : integrator_call env cfg s
                  = sim_scav_step env (wh cfg) (dw s) (2 * PI * x * 10)
                      (if (b <? Z.of_nat (t_flat cfg))%Z
                       then mkC (amp * cos phase * gain) (amp * sin phase * gain)
                       else C0)
                      (if (Z.of_nat (t_fill cfg) <=? b)%Z && (b <? Z.of_nat (t_flat cfg))%Z
                       then RtoC (- RL cfg * ib)
                       else C0)
                      (state_vc s) (Ts cfg) (beta cfg)
                      (state_m s) (Ad env) (Bd env) (Cd env) (Dd env) true).
  { unfold integrator_call, step_drive, step_beam_voltage. rewrite Hp, Hsb, Hbase.
    rewrite Hcounter in *.
    rewrite !envelope_window by (try exact Hn; apply Hrange).
    replace (Z.of_nat 0 <=? b)%Z with true by (symmetry; apply Z.leb_le; lia).
    cbn [andb].
    replace (0 + 2 * PI * randn env (rng_draws s) * 10) with (2 * PI * x * 10)
      by (unfold x; ring).
    f_equal.
    - f_equal.
      unfold sim_amp, sim_rfsrc. cbn [fst]. fold amp phase gain.
      destruct (b <? Z.of_nat (t_flat cfg))%Z; apply C_eq; simpl;
        replace (0 * phase - 1 * 0) with 0 by ring; rewrite ?exp_0;
        replace (0 * 0 + 1 * phase) with phase by ring; ring.
    - fold ib.
      destruct ((Z.of_nat (t_fill cfg) <=? b)%Z && (b <? Z.of_nat (t_flat cfg))%Z);
        apply C_eq; simpl; ring. }
  rewrite <- Hcall.
  destruct (integrator_call env cfg s) as [[[[status vc] vr] d] sm] eqn:Hint.
  destruct (after_step_cavity env cfg s status vc vr d sm Hint) as (Hout & Hvc & Hd & Hsm).
  exists status, vc, vr, d, sm, (after_step env cfg s).
  split; [reflexivity |].
  split; [rewrite Hstep, Hout; reflexivity |].
  split; [exact Hvc |]. split; [exact Hd |]. split; [exact Hsm |].
  split; [rewrite Fb; exact Hcounter |].
  split; [rewrite Fbeam; exact Hsb |].
  split.
  - split; [rewrite Fbase; exact Hbase |].
    exists (RtoC ib). rewrite Fbeam. exact Hsb.
  - destruct Hwf as (Hkeys & Hb0 & Hbm & Hid).
    unfold wf_state. rewrite Fcp, Fbase, Fbeam, Fb.
    split; [exact Hkeys |]. split; [exact Hb0 |].
    split; [apply slice_fill_nonempty; exact Hbm | exact Hrange].
Qed.

(** ** The beam current in continuous-wave mode *)

Lemma differ_only_in_beam_param (s1 s2 : sim_state) (k : string) :
  differ_only_in_beam s1 s2 -> k <> "ib"%string -> param_value k s1 = param_value k s2.
Proof. intros (_ & Hget & _) Hk. unfold param_value. rewrite (Hget k Hk). reflexivity. Qed.

Lemma beam_step (env : collaborators) (cfg : config) (s1 s2 : sim_state) :
  wf_state cfg s1 -> wf_state cfg s2 ->
  differ_only_in_beam s1 s2 ->
  truthy (param_value "pulsed" s2) = false ->
  snd (simulation_step env cfg s1) = snd (simulation_step env cfg s2)
  /\ differ_only_in_beam (fst (simulation_step env cfg s1))
                         (fst (simulation_step env cfg s2))
  /\ wf_state cfg (fst (simulation_step env cfg s1))
  /\ wf_state cfg (fst (simulation_step env cfg s2))
  /\ truthy (param_value "pulsed" (fst (simulation_step env cfg s2))) = false.
Proof.
  intros Hwf1 Hwf2 Hd Hcw.
  assert (Hcw1 : truthy (param_value "pulsed" s1) = false)
    by (rewrite (differ_only_in_beam_param s1 s2 "pulsed" Hd); [exact Hcw | discriminate]).
  assert (Hcall : integrator_call env cfg s1 = integrator_call env cfg s2).
  { unfold integrator_call, step_drive, step_beam_voltage. rewrite Hcw, Hcw1.
    rewrite (differ_only_in_beam_param s1 s2 "fsrc" Hd) by discriminate.
    rewrite (differ_only_in_beam_param s1 s2 "amp" Hd) by discriminate.
    rewrite (differ_only_in_beam_param s1 s2 "gain_dB" Hd) by discriminate.
    destruct Hd as (_ & _ & _ & _ & _ & -> & -> & -> & _ & -> & _ & _ & ->).
    reflexivity. }
  assert (Hw1 : wf_state cfg (after_step env cfg s1)).
  { destruct (simulation_step_spec env cfg s1 Hwf1) as (? & ? & ? & s' & ? & ? & E & _ & _ & H & _).
    rewrite (simulation_step_explicit env cfg s1 Hwf1) in E. injection E as <- _. exact H. }
  assert (Hw2 : wf_state cfg (after_step env cfg s2)).
  { destruct (simulation_step_spec env cfg s2 Hwf2) as (? & ? & ? & s' & ? & ? & E & _ & _ & H & _).
    rewrite (simulation_step_explicit env cfg s2 Hwf2) in E. injection E as <- _. exact H. }
  rewrite (simulation_step_explicit env cfg s1 Hwf1).
  rewrite (simulation_step_explicit env cfg s2 Hwf2).
  cbn [fst snd].
  split; [unfold step_output; rewrite Hcall; reflexivity |].
  split; [| split; [exact Hw1 | split; [exact Hw2 |]]].
  - unfold after_step. rewrite Hcall.
    destruct (integrator_call env cfg s2) as [[[[status vc] vr] d] sm].
    unfold step_phase, step_counter. rewrite Hcw, Hcw1.
    rewrite (differ_only_in_beam_param s1 s2 "fsrc" Hd) by discriminate.
    destruct Hd as (Hk & Hg & H1 & H2 & H3 & H4 & H5 & H6 & H7 & H8 & H9 & H10 & H11).
    unfold differ_only_in_beam. fields.
    rewrite H6, H7, H11.
    repeat split; assumption || reflexivity.
  - unfold param_value.
    destruct (after_step_fields env cfg s2) as (_ & _ & _ & _ & _ & ->).
    exact Hcw.
Qed.

(** X7. In continuous-wave mode the beam current has no influence: two runs
    from well-formed objects that agree on everything but the value of
    [control_params['ib']] and the beam profile, with the same noise, return
    the same cavity voltage, reflected voltage and detuning at every step,
    and leave objects that again agree on everything but those two. *)
Theorem beam_current_has_no_influence_in_cw
    (env : collaborators) (cfg : config) (s1 s2 : sim_state) :
  wf_state cfg s1 -> wf_state cfg s2 ->
  differ_only_in_beam s1 s2 ->
  truthy (param_value "pulsed" s2) = false ->
  snd (simulation_step env cfg s1) = snd (simulation_step env cfg s2)
  /\ forall (n : nat) (last : option (C * C * R)),
       snd (run_steps env cfg n last s1) = snd (run_steps env cfg n last s2)
       /\ differ_only_in_beam (fst (run_steps env cfg n last s1))
                              (fst (run_steps env cfg n last s2)).
Proof.
  intros Hwf1 Hwf2 Hd Hcw.
  split; [apply (beam_step env cfg s1 s2 Hwf1 Hwf2 Hd Hcw) |].
  intros n. revert s1 s2 Hwf1 Hwf2 Hd Hcw.
  induction n as [| n IH]; intros s1 s2 Hwf1 Hwf2 Hd Hcw last.
  - cbn. split; [reflexivity | exact Hd].
  - cbn [run_steps]. unfold bind.
    destruct (beam_step env cfg s1 s2 Hwf1 Hwf2 Hd Hcw)
      as (Hout & Hst & Hw1 & Hw2 & Hcw').
    destruct (simulation_step env cfg s1) as [s1' r1].
    destruct (simulation_step env cfg s2) as [s2' r2].
    cbn [fst snd] in *. subst r2.
    destruct r1 as [e | out].
    + cbn. split; [reflexivity | exact Hst].
    + apply IH; assumption.
Qed.

Lemma with_ib_differs_only_in_beam (v : R) (s : sim_state) :
  In "ib"%string (dict_keys (control_params s)) ->
  differ_only_in_beam (with_ib v s) s.
Proof.
  intros Hin. unfold differ_only_in_beam, with_ib. fields.
  split; [apply dict_keys_set; exact Hin |].
  split; [intros k Hk; apply dict_get_set_other; exact Hk |].
  repeat split; reflexivity.
Qed.

Lemma with_ib_wf (cfg : config) (v : R) (s : sim_state) :
  wf_state cfg s -> wf_state cfg (with_ib v s).
Proof.
  intros Hwf. unfold with_ib.
  apply (wf_state_set_param cfg "ib" (PFloat v) s Hwf). cbn. tauto.
Qed.

Lemma beam_current_has_no_influence_in_cw_witness :
  snd (simulation_step euler_env gui_config
         (with_ib (2 / 100) (init_state euler_env gui_config)))
  = snd (simulation_step euler_env gui_config (init_state euler_env gui_config))
  /\ forall (n : nat) (last : option (C * C * R)),
       snd (run_steps euler_env gui_config n last
              (with_ib (2 / 100) (init_state euler_env gui_config)))
       = snd (run_steps euler_env gui_config n last (init_state euler_env gui_config))
       /\ differ_only_in_beam
            (fst (run_steps euler_env gui_config n last
                    (with_ib (2 / 100) (init_state euler_env gui_config))))
            (fst (run_steps euler_env gui_config n last
                    (init_state euler_env gui_config))).
Proof.
  apply (beam_current_has_no_influence_in_cw euler_env gui_config
           (with_ib (2 / 100) (init_state euler_env gui_config))
           (init_state euler_env gui_config)).
  - apply with_ib_wf. apply gui_init_state_wf.
  - apply gui_init_state_wf.
  - apply with_ib_differs_only_in_beam. cbn. tauto.
  - reflexivity.
Defined.

(** ** Runs of several steps *)

Lemma param_same (k : string) (s s' : sim_state) :
  control_params s' = control_params s -> param_value k s' = param_value k s.
Proof. unfold param_value. intros ->. reflexivity. Qed.

(** X8. Over [n] consecutive steps from a well-formed object, none of which
    raises, the oscillator phase grows by [n] times [2 * pi * fsrc * Ts], one
    noise sample is drawn per step, and the pulse counter is moved by [n]
    modulo the pulse period in pulsed mode and not at all in continuous-wave
    mode; so a whole pulse period of steps brings the counter back to where
    it was. *)
Theorem run_steps_accumulates_phase_and_counter
    (env : collaborators) (cfg : config) (n : nat) (s : sim_state)
    (last : option (C * C * R)) :
  wf_state cfg s ->
  exists s' last',
    run_steps env cfg n last s = (s', ok last')
    /\ pha_src s'
       = pha_src s + INR n * (2 * PI * to_float (param_value "fsrc" s) * Ts cfg)
    /\ buf_id s'
       = (if truthy (param_value "pulsed" s)
          then ((buf_id s + Z.of_nat n) mod pul_len cfg)%Z
          else buf_id s)
    /\ (Z.of_nat n = pul_len cfg -> buf_id s' = buf_id s)
    /\ rng_draws s' = (n + rng_draws s)%nat
    /\ wf_state cfg s'.
Proof.
  intros Hwf.
  assert (H : exists s' last',
             run_steps env cfg n last s = (s', ok last')
             /\ pha_src s'
                = pha_src s + INR n * (2 * PI * to_float (param_value "fsrc" s) * Ts cfg)
             /\ buf_id s'
                = (if truthy (param_value "pulsed" s)
                   then ((buf_id s + Z.of_nat n) mod pul_len cfg)%Z
                   else buf_id s)
             /\ rng_draws s' = (n + rng_draws s)%nat
             /\ wf_state cfg s').
  { revert s last Hwf. induction n as [| n IH]; intros s last Hwf.
    - exists s, last. cbn [run_steps INR]. unfold ret.
      split; [reflexivity |]. split; [ring |].
      split; [| split; [reflexivity | exact Hwf]].
      destruct (truthy (param_value "pulsed" s)); [| reflexivity].
      rewrite Z.add_0_r. symmetry. apply Z.mod_small. apply Hwf.
    - destruct (simulation_step_spec env cfg s Hwf)
        as (vc & vr & d & s1 & pulsed & fsrc & Hstep & Hpul & Hfsrc & Hwf1 & Hframe
            & Hid & _ & _ & Hpha).
      destruct Hframe as (Hcp & _ & _ & _ & _ & _ & Hrng).
      destruct (IH s1 (Some (vc, vr, d)) Hwf1)
        as (s' & last' & Hrun & Hpha' & Hid' & Hrng' & Hwf').
      exists s', last'.
      split; [cbn [run_steps]; unfold bind; rewrite Hstep; unfold ok at 1; exact Hrun |].
      rewrite (param_same "fsrc" s s1 Hcp) in Hpha'.
      rewrite (param_same "pulsed" s s1 Hcp) in Hid'.
      rewrite (param_get "fsrc" s fsrc Hfsrc) in *.
      rewrite (param_get "pulsed" s pulsed Hpul) in *.
      split; [rewrite Hpha', Hpha, S_INR; ring |].
      split; [| split; [lia | exact Hwf']].
      rewrite Hid', Hid. destruct (truthy pulsed); [| reflexivity].
      rewrite Zplus_mod_idemp_l. f_equal. lia. }
  destruct H as (s' & last' & Hrun & Hpha & Hid & Hrng & Hwf').
  exists s', last'. repeat split; try assumption; try apply Hwf'.
  intros Hn. rewrite Hid. destruct (truthy (param_value "pulsed" s)); [| reflexivity].
  rewrite Hn.
  replace (buf_id s + pul_len cfg)%Z with (buf_id s + 1 * pul_len cfg)%Z by ring.
  rewrite Z_mod_plus_full. apply Z.mod_small. apply Hwf.
Qed.

Lemma run_steps_accumulates_phase_and_counter_witness :
  exists s' last',
    run_steps euler_env gui_config (2048 * 10) None
              (pulsed_at 7 (init_state euler_env gui_config)) = (s', ok last')
    /\ buf_id s' = 7%Z.
Proof.
  destruct (run_steps_accumulates_phase_and_counter euler_env gui_config (2048 * 10)
              (pulsed_at 7 (init_state euler_env gui_config)) None)
    as (s' & last' & Hrun & _ & _ & Hb & _).
  - apply pulsed_at_wf; cbn; lia.
  - exists s', last'. split; [exact Hrun |]. apply Hb.
    rewrite Nat2Z.inj_mul. reflexivity.
Defined.

(** ** The simulation loop *)

Lemma recent_all {A} (k : nat) (l : list A) :
  (List.length l <= k)%nat -> recent k l = l.
Proof.
  intros H. unfold recent.
  replace (List.length l - k)%nat with 0%nat by lia. reflexivity.
Qed.

Lemma recent_length {A} (k : nat) (l : list A) :
  List.length (recent k l) = Nat.min k (List.length l).
Proof. unfold recent. rewrite length_skipn. lia. Qed.

Lemma recent_app {A} (k : nat) (l m : list A) :
  recent k (recent k l ++ m) = recent k (l ++ m).
Proof.
  destruct (Nat.le_gt_cases (List.length l) k) as [Hle | Hgt].
  - rewrite (recent_all k l Hle). reflexivity.
  - assert (Hcut : skipn (List.length l - k) (l ++ m) = recent k l ++ m).
    { unfold recent. rewrite skipn_app.
      replace (List.length l - k - List.length l)%nat with 0%nat by lia.
      reflexivity. }
    unfold recent at 1 3. rewrite !length_app, recent_length.
    replace (Nat.min k (List.length l) + List.length m - k)%nat
      with (List.length m) by lia.
    replace (List.length l + List.length m - k)%nat
      with (List.length m + (List.length l - k))%nat by lia.
    rewrite <- skipn_skipn, Hcut. reflexivity.
Qed.

Lemma recent_push {A} (k : nat) (l : list A) (x : A) :
  (1 <= k)%nat -> (List.length l <= k)%nat ->
  recent k (l ++ [x])
  = (if (k <=? List.length l)%nat then tl l else l) ++ [x].
Proof.
  intros Hk Hl. destruct (k <=? List.length l)%nat eqn:Hfull.
  - apply Nat.leb_le in Hfull. unfold recent. rewrite length_app. cbn [List.length].
    replace (List.length l + 1 - k)%nat with 1%nat by lia.
    destruct l as [| y t]; [cbn in Hfull; lia | reflexivity].
  - apply Nat.leb_gt in Hfull. apply recent_all. rewrite length_app. cbn. lia.
Qed.

Lemma dict_get_map {V W} (f : string -> V -> W) (k : string) (d : dict V) :
  dict_get k (map (fun kv => (fst kv, f (fst kv) (snd kv))) d)
  = rbind (dict_get k d) (fun v => ok (f k v)).
Proof.
  induction d as [| [k' v'] t IH]; [reflexivity |].
  cbn [map dict_get fst snd]. destruct (String.eqb k k') eqn:Hk; [| exact IH].
  apply String.eqb_eq in Hk. subst k'. reflexivity.
Qed.

Section Loop.

Variable env : collaborators.
Variable cfg : config.

(** One turn outside playback mode: a step, then the sample is stored. *)
Lemma simulation_loop_turn_spec (n c : nat) (now : R) (s : sim_state) :
  wf_state cfg s ->
  aligned cfg n c (history_data s) ->
  (1 <= max_history cfg)%Z ->
  playback_mode s = false ->
  exists s1 vc vr d,
    simulation_step env cfg s = (s1, ok (vc, vr, d))
    /\ wf_state cfg s1
    /\ step_frame s s1
    /\ simulation_loop_turn env cfg now s
       = (fst (store_data cfg now vc vr d s1),
          if recording s then raise (KeyError "ib") else ok tt)
    /\ history_data (fst (store_data cfg now vc vr d s1))
       = stored cfg now vc vr d s1
    /\ untouched_by_step s1 (set_history_data (history_data s1)
                               (fst (store_data cfg now vc vr d s1)))
    /\ rng_draws (fst (store_data cfg now vc vr d s1)) = rng_draws s1
    /\ beam_pul (fst (store_data cfg now vc vr d s1)) = beam_pul s1
    /\ buf_id (fst (store_data cfg now vc vr d s1)) = buf_id s1.
Proof.
  intros Hwf Hal Hcap Hpb.
  destruct (simulation_step_spec env cfg s Hwf)
    as (vc & vr & d & s1 & pulsed & fsrc & Hstep & _ & _ & Hwf1 & Hframe & _).
  pose proof Hframe as (Hcp & Hrun & Hrec & Hpb1 & Hbase & Hh & Hrng).
  assert (Hal1 : aligned cfg n c (history_data s1)) by (rewrite Hh; exact Hal).
  destruct (store_data_spec cfg n c now vc vr d s1 Hal1 Hcap (proj1 Hwf1))
    as (Hstore & _).
  exists s1, vc, vr, d.
  split; [exact Hstep |]. split; [exact Hwf1 |]. split; [exact Hframe |].
  split.
  { unfold simulation_loop_turn, bind, gets. unfold ok at 1. cbv beta iota.
    rewrite Hpb. cbn [negb]. rewrite Hstep. unfold ok at 1. cbv beta iota.
    rewrite Hstore. cbn [fst]. rewrite Hrec. reflexivity. }
  rewrite Hstore. cbn [fst]. fields.
  split; [reflexivity |].
  split; [| auto].
  unfold untouched_by_step. fields. auto 10.
Qed.

(** X9. With the recording switch on, the loop does not survive its first
    turn: the step runs and the sample is stored in the sample channels, the
    per-mode channels and the four control channels, and then the loop over
    [control_params] raises [KeyError('ib')], for which the history has no
    channel.  The exception leaves the loop with [simulation_running] still
    set, after exactly one step. *)
Theorem recording_stops_the_loop
    (n c : nat) (now : R) (later : list R) (s : sim_state) :
  wf_state cfg s ->
  aligned cfg n c (history_data s) ->
  (1 <= max_history cfg)%Z ->
  (Z.of_nat n <= max_history cfg)%Z ->
  simulation_running s = true ->
  playback_mode s = false ->
  recording s = true ->
  exists s',
    simulation_loop env cfg (now :: later) s = (s', raise (KeyError "ib"))
    /\ simulation_running s' = true
    /\ rng_draws s' = S (rng_draws s)
    /\ aligned cfg
         (if (max_history cfg <=? Z.of_nat n)%Z then n else S n)
         ((if (max_history cfg <=? Z.of_nat n)%Z then pred c else c) + 1)
         (history_data s').
Proof.
  intros Hwf Hal Hcap Hn Hrun Hpb Hrec.
  destruct (simulation_loop_turn_spec n c now s Hwf Hal Hcap Hpb)
    as (s1 & vc & vr & d & Hstep & Hwf1 & Hframe & Hturn & _ & Hunt & Hrng & _).
  destruct Hframe as (Hcp & Hrun1 & Hrec1 & _ & _ & Hh & Hrng1).
  assert (Hal1 : aligned cfg n c (history_data s1)) by (rewrite Hh; exact Hal).
  destruct (store_data_aligned cfg n c now vc vr d s1 Hal1 Hcap Hn (proj1 Hwf1))
    as (Hal' & _).
  cbv zeta in Hal'. rewrite Hrec1, Hrec in Hal'.
  exists (fst (store_data cfg now vc vr d s1)).
  split.
  { cbn [simulation_loop]. unfold bind, gets. unfold ok at 1. cbv beta iota.
    rewrite Hrun, Hturn, Hrec. reflexivity. }
  split.
  { destruct Hunt as (_ & H & _). revert H. fields. congruence. }
  split; [congruence | exact Hal'].
Qed.

Lemma simulation_loop_idle (clock : list R) (s : sim_state) :
  playback_mode s = true \/ simulation_running s = false ->
  simulation_loop env cfg clock s = (s, ok tt).
Proof.
  intros H. induction clock as [| now later IH]; [reflexivity |].
  cbn [simulation_loop]. unfold bind, gets. unfold ok at 1. cbv beta iota.
  destruct (simulation_running s) eqn:Hrun; [| reflexivity].
  destruct H as [Hpb | Hstop]; [| discriminate Hstop].
  unfold simulation_loop_turn, bind, gets, ret. unfold ok at 1. cbv beta iota.
  rewrite Hpb. cbn [negb]. unfold ok at 1. cbv beta iota. exact IH.
Qed.

(** X10. In playback mode, and when the simulation is stopped, the loop
    leaves the object as it is, however long it runs: no step is made, no
    noise sample is drawn and nothing is stored. *)
Theorem simulation_loop_idles (clock : list R) (s : sim_state) :
  playback_mode s = true \/ simulation_running s = false ->
  simulation_loop env cfg clock s = (s, ok tt)
  /\ rng_draws (fst (simulation_loop env cfg clock s)) = rng_draws s
  /\ history_data (fst (simulation_loop env cfg clock s)) = history_data s.
Proof.
  intros H. rewrite (simulation_loop_idle clock s H). auto.
Qed.

Lemma stored_time (now : R) (vc vr : C) (d : R) (s : sim_state) (n c : nat)
    (time : list R) :
  aligned cfg n c (history_data s) ->
  (1 <= max_history cfg)%Z ->
  (Z.of_nat n <= max_history cfg)%Z ->
  dict_get "time" (h_main (history_data s)) = ok time ->
  dict_get "time" (h_main (stored cfg now vc vr d s))
  = ok (recent (Z.to_nat (max_history cfg)) (time ++ [now])).
Proof.
  intros Hal Hcap Hn Htime.
  assert (Hlen : List.length time = n).
  { destruct Hal as (_ & Hl & _). clear - Hl Htime.
    induction (h_main (history_data s)) as [| [k l] t IH]; [discriminate Htime |].
    cbn [dict_get] in Htime. pose proof (Forall_inv Hl) as H0. cbn [snd] in H0.
    apply Forall_inv_tail in Hl.
    destruct (String.eqb "time" k); [injection Htime as <-; exact H0 | auto]. }
  unfold stored. rewrite Htime. unfold ok, len. rewrite Hlen.
  cbn [h_main]. unfold with_sample.
  rewrite (dict_get_map (fun k l => l ++ [sample_value k now vc vr d])).
  rewrite recent_push by lia. rewrite Hlen.
  replace (Z.to_nat (max_history cfg) <=? n)%nat with (max_history cfg <=? Z.of_nat n)%Z
    by (apply eq_true_iff_eq; rewrite Z.leb_le, Nat.leb_le; lia).
  destruct (max_history cfg <=? Z.of_nat n)%Z.
  - unfold evicted. cbn [h_main].
    rewrite (dict_get_map (fun _ l => tl l)), Htime. reflexivity.
  - rewrite Htime. reflexivity.
Qed.

(** The loop with the recording switch off: one step and one stored sample
    per turn. *)
Lemma simulation_loop_spec (clock : list R) :
  forall (s : sim_state) (n c : nat) (time : list R),
    wf_state cfg s ->
    aligned cfg n c (history_data s) ->
    (1 <= max_history cfg)%Z ->
    (Z.of_nat n <= max_history cfg)%Z ->
    simulation_running s = true ->
    playback_mode s = false ->
    recording s = false ->
    dict_get "time" (h_main (history_data s)) = ok time ->
    exists s' c',
      simulation_loop env cfg clock s = (s', ok tt)
      /\ aligned cfg (Nat.min (n + List.length clock) (Z.to_nat (max_history cfg)))
                 c' (history_data s')
      /\ (c' <= c)%nat
      /\ dict_get "time" (h_main (history_data s'))
         = ok (recent (Z.to_nat (max_history cfg)) (time ++ clock))
      /\ rng_draws s' = (List.length clock + rng_draws s)%nat
      /\ control_params s' = control_params s
      /\ simulation_running s' = true
      /\ wf_state cfg s'.
Proof.
  induction clock as [| now later IH];
    intros s n c time Hwf Hal Hcap Hn Hrun Hpb Hrec Htime.
  - exists s, c. cbn [simulation_loop List.length]. unfold ret.
    split; [reflexivity |].
    replace (Nat.min (n + 0) (Z.to_nat (max_history cfg))) with n by lia.
    split; [exact Hal |]. split; [lia |].
    split; [| auto].
    rewrite app_nil_r, recent_all; [exact Htime |].
    assert (List.length time = n); [| lia].
    destruct Hal as (_ & Hl & _). clear - Hl Htime.
    induction (h_main (history_data s)) as [| [k l] t IHd]; [discriminate Htime |].
    cbn [dict_get] in Htime. pose proof (Forall_inv Hl) as H0. cbn [snd] in H0.
    apply Forall_inv_tail in Hl.
    destruct (String.eqb "time" k); [injection Htime as <-; exact H0 | auto].
  - destruct (simulation_loop_turn_spec n c now s Hwf Hal Hcap Hpb)
      as (s1 & vc & vr & d & Hstep & Hwf1 & Hframe & Hturn & Hhist & Hunt & Hrng
          & Hbeam & Hbid).
    destruct Hframe as (Hcp & Hrun1 & Hrec1 & Hpb1 & Hbase & Hh & Hrng1).
    assert (Hal1 : aligned cfg n c (history_data s1)) by (rewrite Hh; exact Hal).
    destruct (store_data_aligned cfg n c now vc vr d s1 Hal1 Hcap Hn (proj1 Hwf1))
      as (Hal' & Hrec').
    cbv zeta in Hal'. rewrite Hrec1, Hrec in Hal'.
    set (s2 := fst (store_data cfg now vc vr d s1)) in *.
    destruct Hunt as (U1 & U2 & U3 & U4 & U5 & _). revert U1 U2 U3 U4 U5. fields.
    intros U1 U2 U3 U4 U5.
    assert (Hwf2 : wf_state cfg s2).
    { destruct Hwf1 as (W1 & W2 & W3 & W4). unfold wf_state.
      rewrite U1, U5, Hbeam, Hbid. auto. }
    assert (Htime2 : dict_get "time" (h_main (history_data s2))
                     = ok (recent (Z.to_nat (max_history cfg)) (time ++ [now]))).
    { rewrite Hhist. apply (stored_time now vc vr d s1 n c time Hal1 Hcap Hn).
      rewrite Hh. exact Htime. }
    set (n2 := if (max_history cfg <=? Z.of_nat n)%Z then n else S n) in *.
    set (c2 := ((if (max_history cfg <=? Z.of_nat n)%Z then pred c else c) + 0)%nat) in *.
    assert (Hn2 : (Z.of_nat n2 <= max_history cfg)%Z).
    { subst n2. destruct (max_history cfg <=? Z.of_nat n)%Z eqn:E; [lia |].
      apply Z.leb_gt in E. lia. }
    destruct (IH s2 n2 c2 (recent (Z.to_nat (max_history cfg)) (time ++ [now]))
                Hwf2 Hal' Hcap Hn2) as (s' & c' & Hloop & Hal3 & Hc3 & Ht3 & Hr3 & Hcp3 & Hrun3 & Hwf3);
      try congruence.
    exists s', c'.
    split.
    { cbn [simulation_loop]. unfold bind, gets. unfold ok at 1. cbv beta iota.
      rewrite Hrun, Hturn, Hrec. unfold ok at 1. cbv beta iota. exact Hloop. }
    split.
    { replace (Nat.min (n + List.length (now :: later)) (Z.to_nat (max_history cfg)))
        with (Nat.min (n2 + List.length later) (Z.to_nat (max_history cfg))); [exact Hal3 |].
      subst n2. cbn [List.length].
      destruct (max_history cfg <=? Z.of_nat n)%Z eqn:E; [| lia].
      apply Z.leb_le in E. lia. }
    split.
    { subst c2. destruct (max_history cfg <=? Z.of_nat n)%Z; lia. }
    split.
    { rewrite Ht3, recent_app, <- app_assoc. reflexivity. }
    split; [cbn [List.length]; lia |].
    split; [congruence |]. split; [exact Hrun3 | exact Hwf3].
Qed.


(** X11. With the recording switch off, the loop never raises from a
    well-formed object with aligned channels: every turn makes one step and
    stores one sample, so that after the turns of [clock] the sample and
    per-mode channels hold [min (n + len clock) max_history] elements, and
    the time channel holds the most recent [max_history] of the old time
    stamps followed by the clock readings, oldest first. *)
Theorem simulation_loop_keeps_most_recent
    (clock : list R) (s : sim_state) (n c : nat) (time : list R) :
  wf_state cfg s ->
  aligned cfg n c (history_data s) ->
  (1 <= max_history cfg)%Z ->
  (Z.of_nat n <= max_history cfg)%Z ->
  simulation_running s = true ->
  playback_mode s = false ->
  recording s = false ->
  dict_get "time" (h_main (history_data s)) = ok time ->
  exists s' c',
    simulation_loop env cfg clock s = (s', ok tt)
    /\ aligned cfg (Nat.min (n + List.length clock) (Z.to_nat (max_history cfg)))
               c' (history_data s')
    /\ (c' <= c)%nat
    /\ dict_get "time" (h_main (history_data s'))
       = ok (recent (Z.to_nat (max_history cfg)) (time ++ clock))
    /\ rng_draws s' = (List.length clock + rng_draws s)%nat
    /\ control_params s' = control_params s
    /\ wf_state cfg s'.
Proof.
  intros Hwf Hal Hcap Hn Hrun Hpb Hrec Htime.
  destruct (simulation_loop_spec clock s n c time Hwf Hal Hcap Hn Hrun Hpb Hrec Htime)
    as (s' & c' & H1 & H2 & H3 & H4 & H5 & H6 & _ & H7).
  exists s', c'. auto 10.
Qed.

End Loop.

(** ** The integrator's status *)

Lemma integrator_call_with_status (reported : bool) (env : collaborators)
    (cfg : config) (s : sim_state) (status : bool) (vc vr : C) (d : R) (sm : matrix) :
  integrator_call env cfg s = (status, vc, vr, d, sm) ->
  integrator_call (with_status reported env) cfg s = (reported, vc, vr, d, sm).
Proof.
  unfold integrator_call, with_status. cbn [sim_scav_step Ad Bd Cd Dd randn].
  intros ->. reflexivity.
Qed.

(** C1, amended. The driver does not read the integrator's status.  From a
    well-formed object a step calls the integrator once, with the half
    bandwidth, the detuning of the step before, the microphonics term of the
    next noise sample, the amplified drive, the beam voltage and the stored
    cavity voltage and mechanical state; whatever status that call reports,
    failure as well as success, the step returns normally the cavity
    voltage, the reflected voltage and the detuning that the call handed
    back, stores that voltage, that detuning and the mechanical state as the
    new cavity state, and leaves [simulation_running] as it was.  The loop
    does not look at the status either: a turn stores the sample made of
    those values and goes on with the next turn, so that with the recording
    switch off and aligned channels every turn of the loop makes its step,
    also when every call of the integrator reports failure. *)
Theorem simulation_step_ignores_status
    (env : collaborators) (cfg : config) (s : sim_state) :
  wf_state cfg s ->
  exists (status : bool) (vc vr : C) (d : R) (sm : matrix) (s' : sim_state),
    sim_scav_step env (wh cfg) (dw s) (0 + 2 * PI * randn env (rng_draws s) * 10)
                  (step_drive cfg s) (step_beam_voltage cfg s) (state_vc s)
                  (Ts cfg) (beta cfg) (state_m s)
                  (Ad env) (Bd env) (Cd env) (Dd env) true
    = (status, vc, vr, d, sm)
    /\ (forall reported : bool,
          sim_scav_step (with_status reported env) (wh cfg) (dw s)
                        (0 + 2 * PI * randn env (rng_draws s) * 10)
                        (step_drive cfg s) (step_beam_voltage cfg s) (state_vc s)
                        (Ts cfg) (beta cfg) (state_m s)
                        (Ad env) (Bd env) (Cd env) (Dd env) true
          = (reported, vc, vr, d, sm)
          /\ simulation_step (with_status reported env) cfg s = (s', ok (vc, vr, d)))
    /\ state_vc s' = vc
    /\ dw s' = d
    /\ state_m s' = sm
    /\ simulation_running s' = simulation_running s
    /\ rng_draws s' = S (rng_draws s)
    /\ (simulation_running s = true ->
        playback_mode s = false ->
        forall (reported : bool) (now : R) (later : list R),
          simulation_loop (with_status reported env) cfg (now :: later) s
          = bind (store_data cfg now vc vr d)
                 (fun _ => simulation_loop (with_status reported env) cfg later) s')
    /\ (forall n c : nat,
          aligned cfg n c (history_data s) ->
          (1 <= max_history cfg)%Z ->
          (Z.of_nat n <= max_history cfg)%Z ->
          simulation_running s = true ->
          playback_mode s = false ->
          recording s = false ->
          forall (reported : bool) (clock : list R),
          exists s'' : sim_state,
            simulation_loop (with_status reported env) cfg clock s = (s'', ok tt)
            /\ rng_draws s'' = (List.length clock + rng_draws s)%nat
            /\ simulation_running s'' = true).
Proof.
  intros Hwf.
  pose proof (simulation_step_explicit env cfg s Hwf) as Hstep.
  destruct (integrator_call env cfg s) as [[[[status vc] vr] d] sm] eqn:Hcall.
  destruct (after_step_cavity env cfg s status vc vr d sm Hcall) as (Hout & Hvc & Hd & Hsm).
  destruct (after_step_fields env cfg s) as (_ & _ & _ & _ & Hrng & _).
  assert (Hrun : simulation_running (after_step env cfg s) = simulation_running s).
  { unfold after_step. rewrite Hcall. reflexivity. }
  assert (Hsteps : forall reported : bool,
             simulation_step (with_status reported env) cfg s
             = (after_step env cfg s, ok (vc, vr, d))).
  { intros reported. rewrite (simulation_step_with_status env cfg reported).
    rewrite Hstep, Hout. reflexivity. }
  exists status, vc, vr, d, sm, (after_step env cfg s).
  split; [exact Hcall |].
  split.
  { intros reported. split; [| apply Hsteps].
    apply (integrator_call_with_status reported env cfg s status vc vr d sm Hcall). }
  split; [exact Hvc |]. split; [exact Hd |]. split; [exact Hsm |].
  split; [exact Hrun |]. split; [exact Hrng |].
  split.
  - intros Hrunning Hpb reported now later.
    cbn [simulation_loop]. unfold simulation_loop_turn.
    unfold bind at 1. unfold gets at 1. unfold ok at 1. cbv beta iota.
    rewrite Hrunning.
    unfold bind at 1. unfold bind at 1. unfold gets at 1. unfold ok at 1. cbv beta iota.
    rewrite Hpb. cbn [negb].
    unfold bind at 1. rewrite (Hsteps reported). unfold ok at 1. cbv beta iota.
    unfold bind. reflexivity.
  - intros n c Hal Hcap Hn Hrunning Hpb Hrec reported clock.
    assert (Htime : exists time, dict_get "time" (h_main (history_data s)) = ok time).
    { apply dict_get_in_keys. destruct Hal as (-> & _). cbn. tauto. }
    destruct Htime as (time & Htime).
    destruct (simulation_loop_spec (with_status reported env) cfg clock s n c time
                Hwf Hal Hcap Hn Hrunning Hpb Hrec Htime)
      as (s'' & c' & Hloop & _ & _ & _ & Hr & _ & Hrun'' & _).
    exists s''. auto.
Qed.

Lemma simulation_step_ignores_status_witness :
  exists (vc vr : C) (d : R) (s' : sim_state),
    (forall reported : bool,
       simulation_step (with_status reported failing_env) gui_config
                       (init_state failing_env gui_config)
       = (s', ok (vc, vr, d)))
    /\ state_vc s' = vc
    /\ dw s' = d
    /\ simulation_running s' = simulation_running (init_state failing_env gui_config)
    /\ (forall (reported : bool) (clock : list R),
        exists s'' : sim_state,
          simulation_loop (with_status reported failing_env) gui_config clock
                          (init_state failing_env gui_config) = (s'', ok tt)
          /\ rng_draws s''
             = (List.length clock + rng_draws (init_state failing_env gui_config))%nat
          /\ simulation_running s'' = true).
Proof.
  destruct (simulation_step_ignores_status failing_env gui_config
              (init_state failing_env gui_config) (gui_init_state_wf failing_env))
    as (status & vc & vr & d & sm & s' & _ & Hstep & Hvc & Hd & _ & Hrun & _ & _ & Hloop).
  exists vc, vr, d, s'.
  split; [intros reported; apply (Hstep reported) |].
  split; [exact Hvc |]. split; [exact Hd |]. split; [exact Hrun |].
  intros reported clock.
  apply (Hloop 0%nat 0%nat).
  - exact (gui_init_history_aligned failing_env).
  - cbn. lia.
  - cbn. lia.
  - reflexivity.
  - reflexivity.
  - reflexivity.
Defined.

(** ** The widget callbacks *)

(** X12. [update_params] writes the five widget values under ['amp'],
    ['phase'], ['fsrc'], ['ib'] and ['pulsed'] and nothing else: the
    amplifier gain and the order of the keys are kept, every other field of
    the object is kept, and a well-formed object stays well formed.  When the
    widgets hold the values that are already stored, as they do until a
    slider is moved, the object is not changed at all. *)
Theorem update_params_writes_widget_values
    (cfg : config) (amp_var phase_var fsrc_var ib_var : R) (pulsed_var : bool)
    (s : sim_state) :
  wf_state cfg s ->
  let s' := fst (update_params amp_var phase_var fsrc_var ib_var pulsed_var s) in
  snd (update_params amp_var phase_var fsrc_var ib_var pulsed_var s) = ok tt
  /\ dict_get "amp" (control_params s') = ok (PFloat amp_var)
  /\ dict_get "phase" (control_params s') = ok (PFloat phase_var)
  /\ dict_get "fsrc" (control_params s') = ok (PFloat fsrc_var)
  /\ dict_get "ib" (control_params s') = ok (PFloat ib_var)
  /\ dict_get "pulsed" (control_params s') = ok (PBool pulsed_var)
  /\ dict_get "gain_dB" (control_params s') = dict_get "gain_dB" (control_params s)
  /\ s' = set_control_params (control_params s') s
  /\ wf_state cfg s'
  /\ (dict_get "amp" (control_params s) = ok (PFloat amp_var) ->
      dict_get "phase" (control_params s) = ok (PFloat phase_var) ->
      dict_get "fsrc" (control_params s) = ok (PFloat fsrc_var) ->
      dict_get "ib" (control_params s) = ok (PFloat ib_var) ->
      dict_get "pulsed" (control_params s) = ok (PBool pulsed_var) ->
      s' = s).
Proof.
  intros (Hkeys & Hbase & Hbeam & Hid).
  destruct s as [cp run rec pb sm svc ph b d beam base h rng].
  cbn [control_params base_pul beam_pul buf_id] in *.
  explode_keys cp Hkeys.
  cbv zeta.
  do 8 (split; [reflexivity |]).
  split; [unfold wf_state; cbn; auto |].
  cbn [control_params dict_get String.eqb Ascii.eqb Bool.eqb ok].
  intros [= ->] [= ->] [= ->] [= ->] [= ->]. reflexivity.
Qed.

Lemma update_params_writes_widget_values_witness :
  fst (update_params 1 0 (-460) (8 / 1000) false (init_state euler_env gui_config))
  = init_state euler_env gui_config.
Proof.
  apply (update_params_writes_widget_values gui_config 1 0 (-460) (8 / 1000) false
           (init_state euler_env gui_config) (gui_init_state_wf euler_env));
    reflexivity.
Defined.

(** ** Playback mode and reset *)

Section Playback.

Variable env : collaborators.
Variable cfg : config.

Lemma run_steps_keeps_record (n : nat) (last : option (C * C * R)) (s : sim_state) :
  playback_mode (fst (run_steps env cfg n last s)) = playback_mode s
  /\ history_data (fst (run_steps env cfg n last s)) = history_data s.
Proof.
  destruct (run_steps_untouched env cfg n last s) as (_ & _ & _ & H1 & _ & H2). auto.
Qed.

Lemma scan_setpoint_keeps_record (param : string) (value : R) (responses : list R)
    (s : sim_state) :
  playback_mode (fst (scan_setpoint env cfg param value responses s)) = playback_mode s
  /\ history_data (fst (scan_setpoint env cfg param value responses s)) = history_data s.
Proof.
  unfold scan_setpoint. mstep.
  match goal with
  | |- context [run_steps env cfg 100 None ?s0] =>
      destruct (run_steps_keeps_record 100 None s0) as (H1 & H2);
      destruct (run_steps env cfg 100 None s0) as [s1 [e | [[[vc vr] d] |]]]
  end; cbn [fst playback_mode history_data set_control_params] in *; auto.
Qed.

Lemma scan_loop_keeps_record (param : string) (values : list R) :
  forall (responses : list R) (s : sim_state),
    playback_mode (fst (scan_loop env cfg param values responses s)) = playback_mode s
    /\ history_data (fst (scan_loop env cfg param values responses s)) = history_data s.
Proof.
  induction values as [| value later IH]; intros responses s; [cbn; auto |].
  cbn [scan_loop]. unfold bind.
  destruct (scan_setpoint_keeps_record param value responses s) as (H1 & H2).
  destruct (scan_setpoint env cfg param value responses s) as [s1 [e | responses']];
    cbn [fst] in *; [auto |].
  destruct (IH responses' s1) as (G1 & G2). split; congruence.
Qed.

Lemma start_parameter_scan_keeps_record (param : string) (min_val max_val : R)
    (s : sim_state) :
  playback_mode (fst (start_parameter_scan env cfg param min_val max_val s))
  = playback_mode s
  /\ history_data (fst (start_parameter_scan env cfg param min_val max_val s))
     = history_data s.
Proof.
  unfold start_parameter_scan.
  destruct (Rge_dec min_val max_val); [cbn; auto |].
  unfold parameter_scan. mstep. cbv zeta.
  destruct (dict_get param (control_params s)) as [e | original]; [cbn; auto |].
  destruct (scan_loop_keeps_record param (linspace min_val max_val 20) [] s) as (H1 & H2).
  destruct (scan_loop env cfg param (linspace min_val max_val 20) [] s)
    as [s1 [e | responses]]; cbn [fst] in *; auto.
Qed.

Lemma cleared_idempotent (h : history) : cleared (cleared h) = cleared h.
Proof. unfold cleared. cbn [h_main h_mech_modes h_control_params]. now rewrite !map_map. Qed.

Lemma reset_simulation_history (s : sim_state) :
  history_data (fst (reset_simulation env s)) = cleared (history_data s)
  /\ playback_mode (fst (reset_simulation env s)) = playback_mode s.
Proof. split; reflexivity. Qed.

Lemma toggle_playback_on_cleared (s : sim_state) (h : history) :
  history_data s = cleared h -> fst (toggle_playback s) = s.
Proof.
  intros Hh. unfold toggle_playback. mstep.
  rewrite Hh. unfold cleared. cbn [h_main].
  rewrite (dict_get_map (fun _ (_ : list R) => @nil R)).
  destruct (dict_get "time" (h_main h)); reflexivity.
Qed.

Lemma perform_keeps_stuck (a : action) (s : sim_state) (h : history) :
  playback_mode s = true -> history_data s = cleared h ->
  playback_mode (perform env cfg a s) = true
  /\ history_data (perform env cfg a s) = cleared h.
Proof.
  intros Hpb Hh.
  destruct a as [| | | | | av pv fv iv bv | name lo hi | clock]; cbn [perform].
  - unfold start_simulation. mstep.
    destruct (simulation_running s); cbn; auto.
  - cbn; auto.
  - destruct (reset_simulation_history s) as (-> & ->).
    rewrite Hh, cleared_idempotent. auto.
  - destruct s as [cp run rec pb sm svc ph b d beam base hh rng].
    cbn [playback_mode history_data] in Hpb, Hh. subst pb hh.
    unfold toggle_recording. mstep.
    destruct rec, run; split; reflexivity.
  - rewrite (toggle_playback_on_cleared s h Hh). auto.
  - cbn; auto.
  - destruct (start_parameter_scan_keeps_record name lo hi s) as (-> & ->).
    auto.
  - rewrite (simulation_loop_idle env cfg clock s) by (left; exact Hpb). auto.
Qed.

(** X13. A reset during playback cannot be undone from the panel: the reset
    empties the history and leaves [playback_mode] set; from then on the
    playback button only shows its warning, the loop idles, and a scan does
    not store anything, so that after any sequence of button presses, slider
    moves, scans and loop turns the object is still in playback mode with
    every channel of the history empty. *)
Theorem reset_during_playback_is_final (actions : list action) (s : sim_state) :
  playback_mode s = true ->
  playback_mode (session env cfg (PressReset :: actions) s) = true
  /\ history_data (session env cfg (PressReset :: actions) s)
     = cleared (history_data s).
Proof.
  intros Hpb. unfold session. cbn [fold_left].
  assert (H0 : playback_mode (perform env cfg PressReset s) = true
               /\ history_data (perform env cfg PressReset s) = cleared (history_data s)).
  { cbn [perform]. destruct (reset_simulation_history s) as (-> & ->). auto. }
  revert H0. generalize (perform env cfg PressReset s) as s0.
  induction actions as [| a later IH]; intros s0 (H1 & H2); [cbn; auto |].
  cbn [fold_left]. apply IH. apply perform_keeps_stuck; assumption.
Qed.

End Playback.

Lemma reset_during_playback_is_final_witness :
  playback_mode
    (session euler_env gui_config
       [PressReset; PressPlayback; PressStart; LoopTurns [0; 1 / 1000]; PressPlayback]
       (set_playback_mode true one_sample_state)) = true
  /\ history_data
       (session euler_env gui_config
          [PressReset; PressPlayback; PressStart; LoopTurns [0; 1 / 1000]; PressPlayback]
          (set_playback_mode true one_sample_state))
     = cleared (history_data (set_playback_mode true one_sample_state)).
Proof.
  apply (reset_during_playback_is_final euler_env gui_config
           [PressPlayback; PressStart; LoopTurns [0; 1 / 1000]; PressPlayback]
           (set_playback_mode true one_sample_state)).
  reflexivity.
Defined.

(** *** At the program's own start state *)

Lemma continuous_wave_step_drives_integrator_witness :
  exists out s',
    simulation_step euler_env gui_config (init_state euler_env gui_config)
    = (s', ok out)
    /\ pha_src s' = 0 + 2 * PI * (-460) * (1 / 1000000)
    /\ buf_id s' = 0%Z.
Proof.
  destruct (continuous_wave_step_drives_integrator euler_env gui_config
              (init_state euler_env gui_config) (gui_init_state_wf euler_env) eq_refl)
    as (status & vc & vr & d & sm & s' & _ & Hstep & _ & _ & _ & Hp & Hb & _).
  exists (vc, vr, d), s'. split; [exact Hstep |]. split; [exact Hp | exact Hb].
Defined.

Lemma pulsed_step_gates_drive_and_beam_witness :
  exists out s',
    simulation_step euler_env gui_config
      (pulsed_at 20479 (init_state euler_env gui_config)) = (s', ok out)
    /\ buf_id s' = ((20479 + 1) mod pul_len gui_config)%Z
    /\ profiled gui_config s'.
Proof.
  destruct (pulsed_step_gates_drive_and_beam euler_env gui_config
              (pulsed_at 20479 (init_state euler_env gui_config))
              (gui_pulsed_state_wf euler_env)
              (init_state_profiled euler_env gui_config))
    as (status & vc & vr & d & sm & s' & _ & Hstep & _ & _ & _ & Hb & _ & Hp & _).
  - cbn. lia.
  - reflexivity.
  - exists (vc, vr, d), s'. split; [exact Hstep |]. split; [exact Hb | exact Hp].
Defined.

Lemma recording_stops_the_loop_witness :
  exists s',
    simulation_loop euler_env gui_config [0; 1 / 1000]
      (fst (toggle_recording (init_state euler_env gui_config)))
    = (s', raise (KeyError "ib"))
    /\ simulation_running s' = true
    /\ rng_draws s' = 1%nat.
Proof.
  destruct (recording_stops_the_loop euler_env gui_config 0 0 0 [1 / 1000]
              (fst (toggle_recording (init_state euler_env gui_config))))
    as (s' & Hloop & Hrun & Hrng & _).
  - exact (gui_init_state_wf euler_env).
  - exact (gui_init_history_aligned euler_env).
  - cbn. lia.
  - cbn. lia.
  - reflexivity.
  - reflexivity.
  - reflexivity.
  - exists s'. split; [exact Hloop |]. split; [exact Hrun | exact Hrng].
Defined.

Lemma simulation_loop_idles_witness :
  simulation_loop euler_env gui_config [0; 1 / 1000]
    (fst (stop_simulation (init_state euler_env gui_config)))
  = (fst (stop_simulation (init_state euler_env gui_config)), ok tt)
  /\ rng_draws
       (fst (simulation_loop euler_env gui_config [0; 1 / 1000]
               (fst (stop_simulation (init_state euler_env gui_config)))))
     = rng_draws (fst (stop_simulation (init_state euler_env gui_config)))
  /\ history_data
       (fst (simulation_loop euler_env gui_config [0; 1 / 1000]
               (fst (stop_simulation (init_state euler_env gui_config)))))
     = history_data (fst (stop_simulation (init_state euler_env gui_config))).
Proof.
  apply (simulation_loop_idles euler_env gui_config [0; 1 / 1000]
           (fst (stop_simulation (init_state euler_env gui_config)))).
  right. reflexivity.
Defined.

Lemma simulation_loop_keeps_most_recent_witness :
  exists s' c',
    simulation_loop euler_env gui_config [0; 1 / 1000; 2 / 1000]
                    (init_state euler_env gui_config) = (s', ok tt)
    /\ aligned gui_config
         (Nat.min (0 + List.length [0; 1 / 1000; 2 / 1000])
                  (Z.to_nat (max_history gui_config)))
         c' (history_data s')
    /\ (c' <= 0)%nat
    /\ dict_get "time" (h_main (history_data s'))
       = ok (recent (Z.to_nat (max_history gui_config)) ([] ++ [0; 1 / 1000; 2 / 1000]))
    /\ rng_draws s'
       = (List.length [0; 1 / 1000; 2 / 1000]
          + rng_draws (init_state euler_env gui_config))%nat
    /\ control_params s' = control_params (init_state euler_env gui_config)
    /\ wf_state gui_config s'.
Proof.
  apply (simulation_loop_keeps_most_recent euler_env gui_config
           [0; 1 / 1000; 2 / 1000] (init_state euler_env gui_config) 0 0 []).
  - apply gui_init_state_wf.
  - apply gui_init_history_aligned.
  - cbn. lia.
  - cbn. lia.
  - reflexivity.
  - reflexivity.
  - reflexivity.
  - reflexivity.
Defined.

(** ** More on the parameter scan *)

Lemma dict_get_missing {V} (k : string) (d : dict V) :
  ~ In k (dict_keys d) -> dict_get k d = raise (KeyError k).
Proof.
  induction d as [| [k' v] t IH]; [reflexivity |].
  cbn [dict_keys map fst In dict_get]. intros Hn.
  destruct (String.eqb k k') eqn:Hk.
  - apply String.eqb_eq in Hk. subst k'. exfalso. apply Hn. now left.
  - apply IH. intros Hin. apply Hn. now right.
Qed.

(** X14. A scan of a name that is not a key of [control_params] raises
    [KeyError] at its first lookup: no setpoint is applied, no step is made
    and the object is left exactly as it was. *)
Theorem parameter_scan_unknown_parameter
    (env : collaborators) (cfg : config) (param : string) (min_val max_val : R)
    (s : sim_state) :
  ~ In param (dict_keys (control_params s)) ->
  parameter_scan env cfg param min_val max_val s = (s, raise (KeyError param))
  /\ (min_val < max_val ->
      start_parameter_scan env cfg param min_val max_val s
      = (s, raise (KeyError param))).
Proof.
  intros Hn.
  assert (H : parameter_scan env cfg param min_val max_val s
              = (s, raise (KeyError param))).
  { unfold parameter_scan. mstep. cbv zeta.
    rewrite (dict_get_missing param (control_params s) Hn). reflexivity. }
  split; [exact H |].
  intros Hlt. unfold start_parameter_scan.
  destruct (Rge_dec min_val max_val) as [Hge | _]; [lra |].
  unfold bind. rewrite H. reflexivity.
Qed.

Lemma parameter_scan_unknown_parameter_witness :
  parameter_scan euler_env gui_config "gain" (5 / 10) (15 / 10)
                 (init_state euler_env gui_config)
  = (init_state euler_env gui_config, raise (KeyError "gain"))
  /\ (5 / 10 < 15 / 10 ->
      start_parameter_scan euler_env gui_config "gain" (5 / 10) (15 / 10)
                           (init_state euler_env gui_config)
      = (init_state euler_env gui_config, raise (KeyError "gain"))).
Proof.
  apply (parameter_scan_unknown_parameter euler_env gui_config "gain" (5 / 10)
           (15 / 10) (init_state euler_env gui_config)).
  cbn. intros H.
  repeat (destruct H as [H | H]; [discriminate H |]). exact H.
Defined.

Section PhaseScan.

Variable env : collaborators.
Variable cfg : config.

Lemma phase_run_steps (n : nat) :
  forall (s1 s2 : sim_state) (last : option (C * C * R)),
    differ_only_in_phase s1 s2 ->
    snd (run_steps env cfg n last s1) = snd (run_steps env cfg n last s2)
    /\ differ_only_in_phase (fst (run_steps env cfg n last s1))
                            (fst (run_steps env cfg n last s2)).
Proof.
  induction n as [| n IH]; intros s1 s2 last Hd.
  - cbn. split; [reflexivity | exact Hd].
  - cbn [run_steps]. unfold bind.
    destruct (phase_step env cfg s1 s2 Hd) as [Hout Hst].
    destruct (simulation_step env cfg s1) as [s1' r1].
    destruct (simulation_step env cfg s2) as [s2' r2].
    cbn [fst snd] in Hout, Hst. subst r2.
    destruct r1 as [e | out].
    + cbn. split; [reflexivity | exact Hst].
    + apply IH. exact Hst.
Qed.

Lemma dict_keys_set_congr {V} (k : string) (v1 v2 : V) (d1 : dict V) :
  forall d2 : dict V,
    dict_keys d1 = dict_keys d2 ->
    dict_keys (dict_set k v1 d1) = dict_keys (dict_set k v2 d2).
Proof.
  induction d1 as [| [k1 w1] t1 IH]; intros [| [k2 w2] t2] H;
    try discriminate H; [reflexivity |].
  cbn [dict_keys map fst] in H. injection H as -> Ht.
  cbn [dict_set]. destruct (String.eqb k k2); cbn [dict_keys map fst].
  - f_equal. exact Ht.
  - f_equal. apply IH. exact Ht.
Qed.

Lemma phase_setpoint (v1 v2 : R) (s1 s2 : sim_state) :
  differ_only_in_phase s1 s2 ->
  differ_only_in_phase
    (set_control_params (dict_set "phase" (PFloat v1) (control_params s1)) s1)
    (set_control_params (dict_set "phase" (PFloat v2) (control_params s2)) s2).
Proof.
  intros (Hk & Hg & H). unfold differ_only_in_phase. fields.
  split; [apply dict_keys_set_congr; exact Hk |].
  split; [| exact H].
  intros k Hne. rewrite !dict_get_set_other by exact Hne. apply Hg. exact Hne.
Qed.

Lemma phase_scan_setpoint (v1 v2 : R) (responses : list R) (s1 s2 : sim_state) :
  differ_only_in_phase s1 s2 ->
  snd (scan_setpoint env cfg "phase" v1 responses s1)
  = snd (scan_setpoint env cfg "phase" v2 responses s2)
  /\ differ_only_in_phase (fst (scan_setpoint env cfg "phase" v1 responses s1))
                          (fst (scan_setpoint env cfg "phase" v2 responses s2)).
Proof.
  intros Hd. unfold scan_setpoint. mstep.
  destruct (phase_run_steps 100 _ _ None (phase_setpoint v1 v2 s1 s2 Hd)) as (Hout & Hst).
  destruct (run_steps env cfg 100 None
              (set_control_params (dict_set "phase" (PFloat v1) (control_params s1)) s1))
    as [t1 r1].
  destruct (run_steps env cfg 100 None
              (set_control_params (dict_set "phase" (PFloat v2) (control_params s2)) s2))
    as [t2 r2].
  cbn [fst snd] in Hout, Hst. subst r2.
  destruct r1 as [e | [[[vc vr] d] |]]; cbn [fst snd]; auto.
Qed.

Lemma phase_scan_loop (values1 : list R) :
  forall (values2 responses : list R) (s1 s2 : sim_state),
    List.length values1 = List.length values2 ->
    differ_only_in_phase s1 s2 ->
    snd (scan_loop env cfg "phase" values1 responses s1)
    = snd (scan_loop env cfg "phase" values2 responses s2)
    /\ differ_only_in_phase (fst (scan_loop env cfg "phase" values1 responses s1))
                            (fst (scan_loop env cfg "phase" values2 responses s2)).
Proof.
  induction values1 as [| v1 t1 IH]; intros [| v2 t2] responses s1 s2 Hlen Hd;
    try discriminate Hlen.
  - cbn. auto.
  - cbn [scan_loop]. unfold bind.
    destruct (phase_scan_setpoint v1 v2 responses s1 s2 Hd) as (Hout & Hst).
    destruct (scan_setpoint env cfg "phase" v1 responses s1) as [u1 r1].
    destruct (scan_setpoint env cfg "phase" v2 responses s2) as [u2 r2].
    cbn [fst snd] in Hout, Hst. subst r2.
    destruct r1 as [e | responses']; [cbn; auto |].
    apply IH; [cbn in Hlen; lia | exact Hst].
Qed.

Lemma differ_only_in_phase_refl (s : sim_state) : differ_only_in_phase s s.
Proof. unfold differ_only_in_phase. auto 20. Qed.

(** What a scan returns and leaves, for a control parameter and a
    well-formed object. *)
Lemma parameter_scan_result (param : string) (min_val max_val : R) (s : sim_state) :
  wf_state cfg s -> In param control_keys ->
  exists responses,
    snd (scan_loop env cfg param (linspace min_val max_val 20) [] s) = ok responses
    /\ List.length responses = 20%nat
    /\ parameter_scan env cfg param min_val max_val s
       = (set_control_params (control_params s)
            (fst (scan_loop env cfg param (linspace min_val max_val 20) [] s)),
          ok (linspace min_val max_val 20, responses)).
Proof.
  intros Hwf Hin.
  destruct (wf_state_keys cfg s param Hwf Hin) as [original Horig].
  destruct (scan_loop_spec env cfg param (linspace min_val max_val 20) [] s Hwf Hin)
    as (Hloop & Hframe).
  destruct Hframe as (_ & Hcp & _).
  exists (map response_of (scan_states env cfg param (linspace min_val max_val 20) s)).
  split; [rewrite Hloop; reflexivity |].
  split; [rewrite length_map, scan_states_length; apply linspace_length |].
  unfold parameter_scan. mstep. cbv zeta. rewrite Horig. mstep.
  rewrite Hloop. mstep. cbn [fst snd app].
  rewrite Hcp, (dict_set_get param original (control_params s) Horig).
  reflexivity.
Qed.

(** X15. A scan of the phase is flat in its range: from a well-formed object
    and with the same noise, scanning ['phase'] over any two ranges returns
    the same twenty responses and leaves the same object; only the setpoints
    differ. *)
Theorem phase_scan_ignores_its_range
    (min_val max_val min_val' max_val' : R) (s : sim_state) :
  wf_state cfg s ->
  exists responses s',
    parameter_scan env cfg "phase" min_val max_val s
    = (s', ok (linspace min_val max_val 20, responses))
    /\ parameter_scan env cfg "phase" min_val' max_val' s
       = (s', ok (linspace min_val' max_val' 20, responses))
    /\ List.length responses = 20%nat.
Proof.
  intros Hwf.
  assert (Hin : In "phase"%string control_keys) by (cbn; tauto).
  destruct (parameter_scan_result "phase" min_val max_val s Hwf Hin)
    as (r1 & E1 & Hlen & H1).
  destruct (parameter_scan_result "phase" min_val' max_val' s Hwf Hin)
    as (r2 & E2 & _ & H2).
  destruct (phase_scan_loop (linspace min_val max_val 20) (linspace min_val' max_val' 20)
              [] s s) as (Hout & Hst).
  { now rewrite !linspace_length. }
  { apply differ_only_in_phase_refl. }
  rewrite E1, E2 in Hout. injection Hout as <-.
  exists r1.
  exists (set_control_params (control_params s)
            (fst (scan_loop env cfg "phase" (linspace min_val max_val 20) [] s))).
  split; [exact H1 | split; [| exact Hlen]].
  rewrite H2. clear - Hst. revert Hst.
  generalize (fst (scan_loop env cfg "phase" (linspace min_val max_val 20) [] s)) as sf1.
  generalize (fst (scan_loop env cfg "phase" (linspace min_val' max_val' 20) [] s)) as sf2.
  intros sf2 sf1 Hst.
  rewrite (differ_only_in_phase_inv sf1 sf2 Hst). reflexivity.
Qed.

End PhaseScan.

Lemma phase_scan_ignores_its_range_witness :
  exists responses s',
    parameter_scan euler_env gui_config "phase" 0 90 (init_state euler_env gui_config)
    = (s', ok (linspace 0 90 20, responses))
    /\ parameter_scan euler_env gui_config "phase" (-180) 180
                      (init_state euler_env gui_config)
       = (s', ok (linspace (-180) 180 20, responses))
    /\ List.length responses = 20%nat.
Proof.
  apply (phase_scan_ignores_its_range euler_env gui_config 0 90 (-180) 180
           (init_state euler_env gui_config)).
  apply gui_init_state_wf.
Defined.

(** ** More on session files *)

Lemma for_each_app {A} (body : A -> M unit) (l1 l2 : list A) (s : sim_state) :
  for_each (l1 ++ l2) body s
  = match for_each l1 body s with
    | (s', inl e) => (s', inl e)
    | (s', inr _) => for_each l2 body s'
    end.
Proof.
  revert s. induction l1 as [| x t IH]; intros s; [reflexivity |].
  cbn [app for_each]. unfold bind.
  destruct (body x s) as [s1 [e | u]]; [reflexivity | apply IH].
Qed.

Section MoreFiles.

Variable cfg : config.

(** X16. A [.json] file whose document is not an object, or is an object
    without a ['data'] member, is refused with the error box ([TypeError],
    or [KeyError('data')]) and the object is left exactly as it was: the
    history is replaced only after the document was read. *)
Theorem load_json_without_data_changes_nothing
    (filename : string) (doc : json) (s : sim_state) :
  filename <> EmptyString ->
  endswith filename ".json" = true ->
  (forall members, doc = JObj members -> ~ In "data"%string (dict_keys members)) ->
  load_data cfg filename (JsonFile doc) s
  = (s, ok (ShowFailure "Error" "Failed to load data"
              match doc with
              | JObj _ => KeyError "data"
              | _ => TypeError
              end)).
Proof.
  intros Hname Hjson Hdata.
  assert (Hnameb : String.eqb filename EmptyString = false)
    by (apply String.eqb_neq; exact Hname).
  unfold load_data. rewrite Hnameb, Hjson. unfold try_except.
  destruct doc as [x | b | t | items | members]; try reflexivity.
  mstep. rewrite (dict_get_missing "data" members (Hdata members eq_refl)).
  reflexivity.
Qed.

(** X17. A table is read row by row into a history that was emptied first:
    a blank row makes the load fail with [IndexError] and the error box, the
    rows after it are not read, and the history that is left is the empty
    one extended by the rows before the blank row, whatever the history held
    before the load. *)
Theorem load_csv_stops_at_blank_row
    (filename : string) (header : list string) (good later : list (list R))
    (s : sim_state) :
  filename <> EmptyString ->
  endswith filename ".json" = false ->
  Forall (fun row => List.length row = (5 + n_modes cfg)%nat) good ->
  load_data cfg filename (CsvFile (mkCsv header (good ++ [] :: later))) s
  = (set_history_data
       (fold_left (fun h row => load_row row h) good (empty_history cfg)) s,
     ok (ShowFailure "Error" "Failed to load data" IndexError)).
Proof.
  intros Hname Hjson Hgood.
  assert (Hnameb : String.eqb filename EmptyString = false)
    by (apply String.eqb_neq; exact Hname).
  unfold load_data. rewrite Hnameb, Hjson. unfold try_except.
  unfold bind at 1. unfold bind at 1. unfold modify at 1. unfold ok at 1.
  cbv beta iota. cbn [csv_rows].
  rewrite for_each_app.
  rewrite (load_rows_spec cfg good (set_history_data (empty_history cfg) s));
    [| fields; reflexivity
     | fields; cbn [empty_history h_mech_modes]; apply repeat_length
     | exact Hgood].
  unfold ok at 1. cbv beta iota. fields.
  cbn [for_each]. unfold bind at 1. unfold load_csv_row.
  unfold bind at 1. unfold lift at 1. cbn [py_index Z.ltb Z.compare].
  reflexivity.
Qed.

End MoreFiles.

Lemma load_json_without_data_changes_nothing_witness :
  load_data gui_config "run.json" (JsonFile (JObj [("metadata"%string, JObj [])]))
            one_sample_state
  = (one_sample_state,
     ok (ShowFailure "Error" "Failed to load data" (KeyError "data"))).
Proof.
  apply (load_json_without_data_changes_nothing gui_config "run.json"
           (JObj [("metadata"%string, JObj [])]) one_sample_state).
  - discriminate.
  - reflexivity.
  - intros members [= <-]. cbn. intros [H | H]; [discriminate H | exact H].
Defined.

Lemma load_csv_stops_at_blank_row_witness :
  load_data gui_config "run.csv"
            (CsvFile (mkCsv (csv_header_row gui_config)
                            ([[1; 2; 3; 4; 5; 6; 7; 8; 9; 10]] ++ [] :: [[0]])))
            one_sample_state
  = (set_history_data
       (fold_left (fun h row => load_row row h) [[1; 2; 3; 4; 5; 6; 7; 8; 9; 10]]
                  (empty_history gui_config)) one_sample_state,
     ok (ShowFailure "Error" "Failed to load data" IndexError)).
Proof.
  apply (load_csv_stops_at_blank_row gui_config "run.csv" (csv_header_row gui_config)
           [[1; 2; 3; 4; 5; 6; 7; 8; 9; 10]] [[0]] one_sample_state).
  - discriminate.
  - reflexivity.
  - repeat constructor.
Defined.

Section Reload.

Variable cfg : config.

(** The first sample stored into a history that came back from a table
    holding at least [max_history] rows: the eviction pops the time channel
    and then finds the channel [vc_real] empty. *)
Lemma store_data_on_csv_image (n c : nat) (h : history) (now : R) (vc vr : C)
    (d : R) (s : sim_state) :
  aligned cfg n c h ->
  (1 <= max_history cfg)%Z ->
  (max_history cfg <= Z.of_nat n)%Z ->
  history_data s = csv_image n h ->
  snd (store_data cfg now vc vr d s) = raise IndexError
  /\ dict_get "time" (h_main (history_data (fst (store_data cfg now vc vr d s))))
     = rbind (dict_get "time" (h_main h)) (fun l => ok (tl l))
  /\ dict_get "vc_mag" (h_main (history_data (fst (store_data cfg now vc vr d s))))
     = dict_get "vc_mag" (h_main h).
Proof.
  intros (Hkeys & Hlen & _) Hcap Hn Hh.
  destruct s as [cp run rec pb sm svc ph b dd beam base hh rng].
  cbn [history_data] in Hh. subst hh.
  destruct h as [main mech ctrl].
  cbn [h_main h_mech_modes h_control_params] in *.
  explode_keys main Hkeys.
  repeat match goal with
         | H : Forall _ (_ :: _) |- _ =>
             let Hh := fresh "Hlen" in
             pose proof (Forall_inv H) as Hh; apply Forall_inv_tail in H;
             cbn [snd] in Hh
         end.
  unfold csv_image.
  cbn [h_main h_mech_modes h_control_params map fst snd csv_column
       String.eqb Ascii.eqb Bool.eqb].
  rewrite !firstn_all2 by lia.
  match goal with
  | |- context [("time"%string, ?l)] =>
      match goal with
      | H : List.length l = n |- _ =>
          destruct l as [| x t]; [cbn [List.length] in H; lia |];
          assert (Hflen : List.length (x :: t) = n) by exact H
      end
  end.
  unfold store_data, limit_history_size. mstep.
  cbn [history_data h_main dict_get String.eqb Ascii.eqb Bool.eqb].
  mstep. unfold len. rewrite Hflen.
  assert (Hfull : (max_history cfg <=? Z.of_nat n)%Z = true) by (apply Z.leb_le; lia).
  rewrite Hfull.
  unfold evict_oldest. mstep.
  cbn [history_data h_main dict_keys map fst for_each].
  unfold channel_pop0, put_main. mstep.
  cbn [history_data h_main h_mech_modes h_control_params dict_get dict_set
       String.eqb Ascii.eqb Bool.eqb pop0 set_history_data].
  mstep.
  cbn [history_data h_main h_mech_modes h_control_params dict_get dict_set
       String.eqb Ascii.eqb Bool.eqb pop0 set_history_data].
  mstep.
  cbn [fst snd history_data h_main dict_get String.eqb Ascii.eqb Bool.eqb rbind tl].
  repeat split; reflexivity.
Qed.

(** X18. A full history written as a table does not survive being loaded
    back while the loop stores samples: the table does not hold the channels
    [vc_real], [vc_imag], [vr_real], [vr_imag] and [vr_phase], so after the
    load they are empty while the time channel is at capacity, and the next
    [store_data] raises [IndexError] when it evicts from [vc_real], after it
    has dropped the oldest time stamp. *)
Theorem store_after_csv_reload_raises
    (filename timestamp : string) (s s0 : sim_state) (n c : nat)
    (now : R) (vc vr : C) (d : R) :
  aligned cfg n c (history_data s) ->
  (1 <= max_history cfg)%Z ->
  (max_history cfg <= Z.of_nat n)%Z ->
  filename <> EmptyString ->
  endswith filename ".json" = false ->
  exists table s1,
    save_data cfg filename timestamp s
    = ok (Some (CsvFile table), ShowInfo "Success" ("Data saved to " ++ filename))
    /\ load_data cfg filename (CsvFile table) s0
       = (s1, ok (ShowInfo "Success" ("Data loaded from " ++ filename)))
    /\ snd (store_data cfg now vc vr d s1) = raise IndexError
    /\ dict_get "time" (h_main (history_data (fst (store_data cfg now vc vr d s1))))
       = rbind (dict_get "time" (h_main (history_data s))) (fun l => ok (tl l)).
Proof.
  intros Hal Hcap Hn Hname Hjson.
  destruct (save_csv_then_load cfg filename timestamp s s0 n c Hal ltac:(lia) Hname Hjson)
    as (Hsave & Hload).
  eexists. eexists. split; [exact Hsave |]. split; [exact Hload |].
  destruct (store_data_on_csv_image n c (history_data s) now vc vr d
              (set_history_data (csv_image n (history_data s)) s0) Hal Hcap Hn eq_refl)
    as (H1 & H2 & _).
  split; assumption.
Qed.

End Reload.

Lemma store_after_csv_reload_raises_witness :
  exists table s1,
    save_data gui_config "run.csv" "2025-09-01T12:00:00" full_history_state
    = ok (Some (CsvFile table), ShowInfo "Success" ("Data saved to " ++ "run.csv"))
    /\ load_data gui_config "run.csv" (CsvFile table) (init_state euler_env gui_config)
       = (s1, ok (ShowInfo "Success" ("Data loaded from " ++ "run.csv")))
    /\ snd (store_data gui_config 1 (mkC 1 0) C0 0 s1) = raise IndexError
    /\ dict_get "time"
         (h_main (history_data (fst (store_data gui_config 1 (mkC 1 0) C0 0 s1))))
       = rbind (dict_get "time" (h_main (history_data full_history_state)))
               (fun l => ok (tl l)).
Proof.
  apply (store_after_csv_reload_raises gui_config "run.csv" "2025-09-01T12:00:00"
           full_history_state (init_state euler_env gui_config) gui_capacity 0
           1 (mkC 1 0) C0 0).
  - apply full_history_state_aligned.
  - cbn. lia.
  - rewrite gui_capacity_is_max_history. lia.
  - discriminate.
  - reflexivity.
Defined.

(** *** A table loaded and saved again *)

Lemma with_modes_seq (val : nat -> R) (g : nat -> list R) (m : nat) :
  forall a : nat,
    with_modes val a (map g (seq a m)) = map (fun j => g j ++ [val j]) (seq a m).
Proof.
  induction m as [| m IH]; intros a; [reflexivity |].
  cbn [seq map with_modes]. f_equal. apply IH.
Qed.

Lemma repeat_nil_seq {A} (m : nat) :
  forall a : nat, repeat (@nil A) m = map (fun _ => []) (seq a m).
Proof. induction m as [| m IH]; intros a; cbn; [reflexivity | f_equal; apply IH]. Qed.

Lemma map_nth_seq {A} (l : list A) (d : A) :
  map (fun i => nth i l d) (seq 0 (List.length l)) = l.
Proof.
  induction l as [| x t IH]; [reflexivity |].
  cbn [List.length seq map nth]. f_equal.
  rewrite <- seq_shift, map_map. exact IH.
Qed.

Lemma py_index_map {A B} (f : A -> B) (l : list A) (i : nat) (d : A) :
  (i < List.length l)%nat -> py_index (map f l) (Z.of_nat i) = ok (f (nth i l d)).
Proof.
  intros Hi. rewrite (py_index_in_range (map f l) (Z.of_nat i) (f d))
    by (unfold len; rewrite length_map; lia).
  rewrite Nat2Z.id, map_nth. reflexivity.
Qed.

Lemma row_eta (r : list R) (m : nat) :
  List.length r = (5 + m)%nat ->
  [nth 0 r 0; nth 1 r 0; nth 2 r 0; nth 3 r 0; nth 4 r 0]
    ++ map (fun j => nth (j + 5) r 0) (seq 0 m)
  = r.
Proof.
  intros H.
  destruct r as [| c0 [| c1 [| c2 [| c3 [| c4 modes]]]]]; try (cbn in H; lia).
  cbn [nth app]. do 5 f_equal.
  assert (Hm : List.length modes = m) by (cbn in H; lia).
  subst m. rewrite <- (map_nth_seq modes 0) at 2.
  apply map_ext. intros j. replace (j + 5)%nat with (S (S (S (S (S j))))) by lia.
  reflexivity.
Qed.

Section LoadSave.

Variable cfg : config.

(** The history that the rows of a table build up from the empty one. *)
Lemma loaded_channels (rows : list (list R)) :
  dict_keys (h_main (fold_left (fun h row => load_row row h) rows (empty_history cfg)))
  = main_keys
  /\ (forall key j,
        csv_column key = Some j ->
        dict_get key
          (h_main (fold_left (fun h row => load_row row h) rows (empty_history cfg)))
        = ok (map (fun row => nth j row 0) rows))
  /\ h_mech_modes (fold_left (fun h row => load_row row h) rows (empty_history cfg))
     = map (fun j => map (fun row => nth (j + 5) row 0) rows) (seq 0 (n_modes cfg)).
Proof.
  induction rows as [| row rows IH] using rev_ind.
  - cbn [fold_left]. split; [reflexivity |]. split.
    + intros key j Hcol. unfold csv_column in Hcol. cbn [map].
      repeat match type of Hcol with
             | (if String.eqb key ?k then _ else _) = _ =>
                 let E := fresh "E" in
                 destruct (String.eqb key k) eqn:E;
                 [apply String.eqb_eq in E; subst key; reflexivity |]
             end.
      discriminate Hcol.
    + cbn [empty_history h_mech_modes map]. apply repeat_nil_seq.
  - destruct IH as (Hk & Hmain & Hmech).
    rewrite fold_left_app. cbn [fold_left].
    set (h := fold_left (fun h row => load_row row h) rows (empty_history cfg)) in *.
    split; [| split].
    + destruct (load_row_keys row h) as (-> & _). exact Hk.
    + intros key j Hcol. unfold load_row. cbn [h_main].
      rewrite (dict_get_map
                 (fun k l => match csv_column k with
                             | Some j => l ++ [nth j row 0]
                             | None => l
                             end)).
      rewrite (Hmain key j Hcol). cbn [rbind ok]. rewrite Hcol, map_app. reflexivity.
    + unfold load_row. cbn [h_mech_modes]. rewrite Hmech, with_modes_seq.
      apply map_ext. intros j. rewrite map_app. reflexivity.
Qed.

Lemma csv_row_of_loaded (rows : list (list R)) (i : nat) :
  Forall (fun row => List.length row = (5 + n_modes cfg)%nat) rows ->
  (i < List.length rows)%nat ->
  csv_row cfg (fold_left (fun h row => load_row row h) rows (empty_history cfg)) i
  = ok (nth i rows []).
Proof.
  intros Hwidth Hi.
  destruct (loaded_channels rows) as (_ & Hmain & Hmech).
  set (h := fold_left (fun h row => load_row row h) rows (empty_history cfg)) in *.
  assert (Hrow : List.length (nth i rows []) = (5 + n_modes cfg)%nat).
  { rewrite Forall_forall in Hwidth. apply Hwidth. apply nth_In. exact Hi. }
  unfold csv_row.
  rewrite (Hmain "time"%string 0%nat eq_refl), (Hmain "vc_mag"%string 1%nat eq_refl),
    (Hmain "vc_phase"%string 2%nat eq_refl), (Hmain "vr_mag"%string 3%nat eq_refl),
    (Hmain "detuning"%string 4%nat eq_refl).
  cbn [rbind ok]. rewrite !(py_index_map _ rows i []) by exact Hi.
  cbn [rbind ok].
  assert (Hmodes :
    map_result
      (fun j => rbind (py_index (h_mech_modes h) (Z.of_nat j))
                      (fun mj => if (Z.of_nat i <? len mj)%Z
                                 then py_index mj (Z.of_nat i) else ok 0))
      (seq 0 (n_modes cfg))
    = ok (map (fun j => nth (j + 5) (nth i rows []) 0) (seq 0 (n_modes cfg)))).
  { rewrite Hmech.
    pose proof (map_result_index_list
                  (fun mj : list R => if (Z.of_nat i <? len mj)%Z
                                      then py_index mj (Z.of_nat i) else ok 0)
                  (map (fun j => map (fun row => nth (j + 5) row 0) rows)
                       (seq 0 (n_modes cfg))) []) as Hidx.
    cbn [app List.length] in Hidx. rewrite length_map, length_seq in Hidx.
    rewrite Hidx. clear Hidx.
    generalize (seq 0 (n_modes cfg)) as js.
    induction js as [| j js IHjs]; [reflexivity |].
    cbn [map map_result].
    assert (Hb : (Z.of_nat i
                  <? len (map (fun row : list R => nth (j + 5)%nat row 0%R) rows))%Z = true)
      by (apply Z.ltb_lt; unfold len; rewrite length_map; lia).
    rewrite Hb.
    rewrite (py_index_map (fun row : list R => nth (j + 5) row 0) rows i []) by exact Hi.
    cbn [rbind ok]. rewrite IHjs. reflexivity. }
  rewrite Hmodes. cbn [rbind ok]. f_equal. apply row_eta. exact Hrow.
Qed.

Lemma csv_write_rows_of_loaded (rows : list (list R)) (indices : list nat) :
  Forall (fun row => List.length row = (5 + n_modes cfg)%nat) rows ->
  Forall (fun i => (i < List.length rows)%nat) indices ->
  csv_write_rows cfg (fold_left (fun h row => load_row row h) rows (empty_history cfg))
                 indices
  = (map (fun i => nth i rows []) indices, ok tt).
Proof.
  intros Hwidth Hall. induction indices as [| i t IH]; [reflexivity |].
  pose proof (Forall_inv Hall) as Hi. cbv beta in Hi. apply Forall_inv_tail in Hall.
  cbn [csv_write_rows map]. rewrite (csv_row_of_loaded rows i Hwidth Hi).
  unfold ok at 1. rewrite (IH Hall). reflexivity.
Qed.

(** X19. A table whose rows all have the five sample columns and one column
    per mechanical mode survives being loaded and saved again: the load
    succeeds, and saving the loaded history as a table writes the standard
    header and the same rows, cell for cell and in the same order. *)
Theorem load_then_save_gives_the_same_rows
    (filename filename' timestamp : string) (header : list string)
    (rows : list (list R)) (s : sim_state) :
  filename <> EmptyString ->
  endswith filename ".json" = false ->
  filename' <> EmptyString ->
  endswith filename' ".json" = false ->
  rows <> [] ->
  Forall (fun row => List.length row = (5 + n_modes cfg)%nat) rows ->
  exists s1,
    load_data cfg filename (CsvFile (mkCsv header rows)) s
    = (s1, ok (ShowInfo "Success" ("Data loaded from " ++ filename)))
    /\ save_data cfg filename' timestamp s1
       = ok (Some (CsvFile (mkCsv (csv_header_row cfg) rows)),
             ShowInfo "Success" ("Data saved to " ++ filename')).
Proof.
  intros Hname Hjson Hname' Hjson' Hrows Hwidth.
  assert (Hnameb : String.eqb filename EmptyString = false)
    by (apply String.eqb_neq; exact Hname).
  assert (Hnameb' : String.eqb filename' EmptyString = false)
    by (apply String.eqb_neq; exact Hname').
  set (h := fold_left (fun h row => load_row row h) rows (empty_history cfg)).
  exists (set_history_data h s).
  split.
  - unfold load_data. rewrite Hnameb, Hjson. unfold try_except.
    unfold bind at 1. unfold bind at 1. unfold modify at 1. unfold ok at 1.
    cbv beta iota. cbn [csv_rows].
    rewrite (load_rows_spec cfg rows (set_history_data (empty_history cfg) s));
      [| fields; reflexivity
       | fields; cbn [empty_history h_mech_modes]; apply repeat_length
       | exact Hwidth].
    unfold ok at 1. cbv beta iota. fields. reflexivity.
  - destruct (loaded_channels rows) as (_ & Hmain & _). fold h in Hmain.
    unfold save_data. fields. rewrite (Hmain "time"%string 0%nat eq_refl).
    cbn [rbind ok].
    destruct rows as [| row0 rows0]; [contradiction Hrows; reflexivity |].
    cbn [map]. rewrite Hnameb', Hjson'.
    change (nth 0 row0 0 :: map (fun row => nth 0 row 0) rows0)
      with (map (fun row => nth 0 row 0) (row0 :: rows0)).
    rewrite length_map.
    rewrite (csv_write_rows_of_loaded (row0 :: rows0) _ Hwidth)
      by (apply Forall_forall; intros i Hi; apply in_seq in Hi; lia).
    rewrite map_nth_seq. reflexivity.
Qed.

End LoadSave.

Lemma load_then_save_gives_the_same_rows_witness :
  exists s1,
    load_data gui_config "in.csv"
      (CsvFile (mkCsv ["t"%string] [[1; 2; 3; 4; 5; 6; 7; 8; 9; 10];
                                    [11; 12; 13; 14; 15; 16; 17; 18; 19; 20]]))
      one_sample_state
    = (s1, ok (ShowInfo "Success" ("Data loaded from " ++ "in.csv")))
    /\ save_data gui_config "out.csv" "2025-09-01T12:00:00" s1
       = ok (Some (CsvFile (mkCsv (csv_header_row gui_config)
                                  [[1; 2; 3; 4; 5; 6; 7; 8; 9; 10];
                                   [11; 12; 13; 14; 15; 16; 17; 18; 19; 20]])),
             ShowInfo "Success" ("Data saved to " ++ "out.csv")).
Proof.
  apply (load_then_save_gives_the_same_rows gui_config "in.csv" "out.csv"
           "2025-09-01T12:00:00" ["t"%string]
           [[1; 2; 3; 4; 5; 6; 7; 8; 9; 10]; [11; 12; 13; 14; 15; 16; 17; 18; 19; 20]]
           one_sample_state).
  - discriminate.
  - reflexivity.
  - discriminate.
  - reflexivity.
  - discriminate.
  - repeat constructor.
Defined.

(** ** The standalone script and the driver *)

Lemma list_update_length {A} (l : list A) :
  forall (i : nat) (x : A), List.length (list_update i x l) = List.length l.
Proof.
  induction l as [| y t IH]; intros [| i] x; cbn; try reflexivity.
  now rewrite IH.
Qed.

Lemma list_update_nth_same {A} (l : list A) :
  forall (i : nat) (x d : A),
    (i < List.length l)%nat -> nth i (list_update i x l) d = x.
Proof.
  induction l as [| y t IH]; intros [| i] x d Hi; cbn in *; try lia; try reflexivity.
  apply IH. lia.
Qed.

Lemma list_update_nth_other {A} (l : list A) :
  forall (i k : nat) (x d : A),
    k <> i -> nth k (list_update i x l) d = nth k l d.
Proof.
  induction l as [| y t IH]; intros [| i] [| k] x d Hne; cbn; try reflexivity;
    try contradiction.
  apply IH. lia.
Qed.

Lemma list_update_twice {A} (l : list A) :
  forall (i : nat) (x y : A), list_update i y (list_update i x l) = list_update i y l.
Proof.
  induction l as [| z t IH]; intros [| i] x y; cbn; try reflexivity.
  now rewrite IH.
Qed.

Lemma nth_error_list_update_same {A} (l : list A) :
  forall (i : nat) (x : A),
    (i < List.length l)%nat -> nth_error (list_update i x l) i = Some x.
Proof.
  induction l as [| y t IH]; intros [| i] x Hi; cbn in *; try lia; try reflexivity.
  apply IH. lia.
Qed.

Lemma list_update_app_repeat {A} (pre : list A) (z x : A) (k : nat) :
  list_update (List.length pre) x (pre ++ repeat z (S k)) = (pre ++ [x]) ++ repeat z k.
Proof.
  cbn [repeat]. rewrite list_update_app_middle, <- app_assoc. reflexivity.
Qed.

Lemma array_set_in_range {A} (i : nat) (x : A) (a : list A) :
  (i < List.length a)%nat -> array_set i x a = ok (list_update i x a).
Proof.
  intros Hi. unfold array_set.
  replace (i <? List.length a)%nat with true by (symmetry; apply Nat.ltb_lt; exact Hi).
  reflexivity.
Qed.

Lemma init_control_params (env : collaborators) (cfg : config) :
  control_params (init_state env cfg)
  = [("amp", PFloat 1); ("phase", PFloat 0); ("fsrc", PFloat (-460));
     ("pulsed", PBool false); ("ib", PFloat (8 / 1000));
     ("gain_dB", PFloat (20 * log10 12000000))]%string.
Proof. reflexivity. Qed.

Section ScriptAndDriver.

Variable env : collaborators.
Variable cfg_script cfg_gui : config.

Hypothesis Hsame : same_cavity cfg_script cfg_gui.

(** The row of [sig_mech] that a turn fills. *)
Lemma script_store_mech_row (i : nat) (sm : matrix) (a : list (list C)) :
  (i < List.length a)%nat ->
  nth i a [] = repeat C0 (n_modes cfg_script) ->
  script_store_mech cfg_script i sm a
  = list_update i (map (fun j => RtoC (mode_value sm j)) (seq 0 (n_modes cfg_script))) a.
Proof.
  intros Hi Hrow. unfold script_store_mech.
  set (m := n_modes cfg_script) in *.
  set (f := fun j : nat => RtoC (mode_value sm j)).
  assert (H : forall k, (k <= m)%nat ->
            fold_left
              (fun a0 j =>
                 match sm with
                 | [] => a0
                 | r :: _ =>
                     match nth_error r j, nth_error a0 i with
                     | Some v, Some row =>
                         if (j <? List.length row)%nat
                         then list_update i (list_update j (RtoC v) row) a0
                         else a0
                     | _, _ => a0
                     end
                 end) (seq 0 k) a
            = list_update i (map f (seq 0 k) ++ repeat C0 (m - k)) a).
  { induction k as [| k IH]; intros Hk.
    - cbn [seq fold_left map app]. rewrite Nat.sub_0_r, <- Hrow.
      clear - Hi. revert i Hi. induction a as [| r t IHa]; intros [| i] Hi;
        cbn in *; try lia; try reflexivity.
      f_equal. apply IHa. lia.
    - rewrite seq_S, fold_left_app, IH by lia. cbn [Nat.add fold_left].
      replace (m - k)%nat with (S (m - S k)) by lia.
      assert (Hlen : List.length (map f (seq 0 k)) = k)
        by (now rewrite length_map, length_seq).
      assert (Hsame_row :
        (map f (seq 0 k) ++ [f k]) ++ repeat C0 (m - S k)
        = map f (seq 0 k ++ [k]) ++ repeat C0 (m - S k))
        by (now rewrite map_app).
      destruct sm as [| r rest].
      + assert (Hfk : f k = C0) by reflexivity.
        rewrite <- Hsame_row, Hfk, <- app_assoc. reflexivity.
      + rewrite nth_error_list_update_same by exact Hi.
        destruct (nth_error r k) as [v |] eqn:Hv.
        * replace (k <? List.length (map f (seq 0 k) ++ repeat C0 (S (m - S k))))%nat
            with true
            by (symmetry; apply Nat.ltb_lt; rewrite length_app, Hlen, repeat_length; lia).
          rewrite list_update_twice. f_equal.
          assert (Hfk : f k = RtoC v)
            by (unfold f; cbn [mode_value]; rewrite Hv; reflexivity).
          rewrite <- Hlen at 1. rewrite list_update_app_repeat, <- Hsame_row, Hfk.
          reflexivity.
        * assert (Hfk : f k = C0)
            by (unfold f; cbn [mode_value]; rewrite Hv; reflexivity).
          rewrite <- Hsame_row, Hfk, <- app_assoc. reflexivity. }
  rewrite (H m) by lia. rewrite Nat.sub_diag, app_nil_r. reflexivity.
Qed.

(** One turn of the script against one step of the driver at its start
    parameters. *)
Lemma script_turn_spec (i : nat) (g : script_state) (s : sim_state) :
  wf_state cfg_gui s ->
  control_params s = control_params (init_state env cfg_gui) ->
  in_step g s ->
  (i < List.length (sig_vc g))%nat ->
  (i < List.length (sig_vr g))%nat ->
  (i < List.length (sig_dw g))%nat ->
  exists vc vr d,
    step_output env cfg_gui s = (vc, vr, d)
    /\ simulation_step env cfg_gui s = (after_step env cfg_gui s, ok (vc, vr, d))
    /\ script_turn env cfg_script i g
       = ok (mkScript (state_m (after_step env cfg_gui s))
                      (state_vc (after_step env cfg_gui s))
                      (pha_src (after_step env cfg_gui s))
                      (g_buf_id g)
                      (dw (after_step env cfg_gui s))
                      (rng_draws (after_step env cfg_gui s))
                      (list_update i vc (sig_vc g))
                      (list_update i vr (sig_vr g))
                      (list_update i (RtoC d) (sig_dw g))
                      (script_store_mech cfg_script i
                         (state_m (after_step env cfg_gui s)) (sig_mech g))).
Proof.
  intros Hwf Hcp (Hm & Hvc & Hp & Hd & Hr) Hi1 Hi2 Hi3.
  pose proof (simulation_step_explicit env cfg_gui s Hwf) as Hstep.
  destruct Hsame as (ETs & Ef0 & EQL & EroQ & Ebeta & Ebase & Ebeam).
  assert (Hpar : param_value "fsrc" s = PFloat (-460)
                 /\ param_value "amp" s = PFloat 1
                 /\ param_value "pulsed" s = PBool false
                 /\ param_value "gain_dB" s = PFloat (20 * log10 12000000)).
  { unfold param_value. rewrite Hcp, init_control_params. repeat split; reflexivity. }
  destruct Hpar as (Pf & Pa & Pp & Pg).
  assert (Hcall : integrator_call env cfg_gui s
                  = sim_scav_step env (wh cfg_script) (g_dw g)
                      (0 + 2 * PI * randn env (g_rng_draws g) * 10)
                      (sim_amp
                         (Cmult (fst (sim_rfsrc script_fsrc script_amp (g_pha_src g)
                                                (Ts cfg_script)))
                                (RtoC (base_cw cfg_script)))
                         script_gain_dB)
                      (RtoC (- RL cfg_script * beam_cw cfg_script))
                      (g_state_vc g) (Ts cfg_script) (beta cfg_script) (g_state_m g)
                      (Ad env) (Bd env) (Cd env) (Dd env) true).
  { unfold integrator_call, step_drive, step_beam_voltage.
    rewrite Pf, Pa, Pp, Pg. cbn [truthy to_float].
    unfold wh, RL, script_fsrc, script_amp, script_gain_dB.
    rewrite Hm, Hvc, Hp, Hd, Hr, ETs, Ef0, EQL, EroQ, Ebeta, Ebase, Ebeam.
    reflexivity. }
  assert (Hphase : step_phase cfg_gui s
                   = snd (sim_rfsrc script_fsrc script_amp (g_pha_src g) (Ts cfg_script))).
  { unfold step_phase, sim_rfsrc, script_fsrc. cbn [snd].
    rewrite Pf, Hp, ETs. reflexivity. }
  destruct (integrator_call env cfg_gui s) as [[[[status vc] vr] d] sm] eqn:Hint.
  destruct (after_step_cavity env cfg_gui s status vc vr d sm Hint)
    as (Hout & Avc & Ad' & Asm).
  destruct (after_step_fields env cfg_gui s) as (_ & _ & _ & Ap & Ar & _).
  exists vc, vr, d.
  split; [exact Hout |]. split; [rewrite Hstep, Hout; reflexivity |].
  rewrite Avc, Ad', Asm, Ap, Ar, Hphase, <- Hr.
  unfold script_turn.
  destruct (sim_rfsrc script_fsrc script_amp (g_pha_src g) (Ts cfg_script))
    as [S0 pha] eqn:Hsrc.
  cbn [fst snd] in *.
  unfold script_pulsed, standalone_pulse_branch, sim_iqmod, sim_cav.
  cbn [rbind ok]. unfold ok at 1. cbn [rbind].
  rewrite <- Hcall. unfold rbind at 1.
  rewrite (array_set_in_range i vc _ Hi1), (array_set_in_range i vr _ Hi2),
    (array_set_in_range i (RtoC d) _ Hi3).
  reflexivity.
Qed.

Lemma state_after_S (s0 : sim_state) (n : nat) :
  state_after env cfg_gui (S n) s0
  = fst (simulation_step env cfg_gui (state_after env cfg_gui n s0)).
Proof. reflexivity. Qed.

Lemma state_after_wf (s0 : sim_state) (n : nat) :
  wf_state cfg_gui s0 ->
  wf_state cfg_gui (state_after env cfg_gui n s0)
  /\ control_params (state_after env cfg_gui n s0) = control_params s0
  /\ state_after env cfg_gui (S n) s0
     = after_step env cfg_gui (state_after env cfg_gui n s0).
Proof.
  intros Hwf.
  assert (H : wf_state cfg_gui (state_after env cfg_gui n s0)
              /\ control_params (state_after env cfg_gui n s0) = control_params s0).
  { induction n as [| n [IHwf IHcp]]; [split; [exact Hwf | reflexivity] |].
    rewrite state_after_S.
    destruct (simulation_step_spec env cfg_gui _ IHwf)
      as (vc & vr & d & s' & p & f & Hstep & _ & _ & Hwf' & (Hcp & _) & _).
    rewrite Hstep. cbn [fst]. split; [exact Hwf' | congruence]. }
  destruct H as (H1 & H2). split; [exact H1 |]. split; [exact H2 |].
  rewrite state_after_S, (simulation_step_explicit env cfg_gui _ H1). reflexivity.
Qed.

Lemma script_loop_filled (s0 : sim_state) (len_arrays : nat) :
  wf_state cfg_gui s0 ->
  control_params s0 = control_params (init_state env cfg_gui) ->
  forall (k a : nat) (g : script_state),
    (a + k <= len_arrays)%nat ->
    filled env cfg_script cfg_gui s0 len_arrays a g ->
    exists g' : script_state,
      script_loop env cfg_script (seq a k) g = ok g'
      /\ filled env cfg_script cfg_gui s0 len_arrays (a + k) g'.
Proof.
  intros Hwf0 Hcp0. induction k as [| k IH]; intros a g Hle Hfill.
  - exists g. rewrite Nat.add_0_r. split; [reflexivity | exact Hfill].
  - destruct Hfill as (Hin & Hbuf & L1 & L2 & L3 & L4 & Hpast & Hfuture).
    destruct (state_after_wf s0 a Hwf0) as (Hwf & Hcp & Hnext).
    rewrite Hcp0 in Hcp.
    destruct (script_turn_spec a g _ Hwf Hcp Hin) as (vc & vr & d & Hout & Hstep & Hturn);
      try lia.
    cbn [seq script_loop]. rewrite Hturn. unfold rbind at 1.
    replace (a + S k)%nat with (S a + k)%nat by lia.
    apply IH; [lia |].
    rewrite <- Hnext in *.
    assert (Hrow : script_store_mech cfg_script a
                     (state_m (state_after env cfg_gui (S a) s0)) (sig_mech g)
                   = list_update a
                       (map (fun j => RtoC (mode_value
                                              (state_m (state_after env cfg_gui (S a) s0)) j))
                            (seq 0 (n_modes cfg_script)))
                       (sig_mech g)).
    { apply script_store_mech_row; [lia |]. apply Hfuture. lia. }
    unfold filled. cbn [g_state_m g_state_vc g_pha_src g_buf_id g_dw g_rng_draws
                        sig_vc sig_vr sig_dw sig_mech].
    rewrite Hrow, !list_update_length.
    split; [unfold in_step; cbn; repeat split; reflexivity |].
    do 5 (split; [assumption |]).
    split.
    + intros i Hi. destruct (Nat.eq_dec i a) as [-> | Hne].
      * rewrite !list_update_nth_same by lia. cbn [Re Im RtoC].
        split; [exact Hout |]. split; reflexivity.
      * rewrite !list_update_nth_other by exact Hne. apply Hpast. lia.
    + intros i Hi. rewrite list_update_nth_other by lia. apply Hfuture. lia.
Qed.

End ScriptAndDriver.

(** X20. Run from its first statement, the standalone script ends without an
    exception, whatever the integrator returns, and its loop is the driver's
    step at the driver's start parameters: for two sets of constants that
    describe the same cavity, entry [i] of [sig_vc], [sig_vr] and [sig_dw] is
    what the [i]-th call of [simulation_step] on a fresh object returns, row
    [i] of [sig_mech] is the mechanical state that call leaves, and after the
    loop the script's variables hold what the object's fields hold.  The
    script's counter stays at [0]. *)
Theorem standalone_script_matches_gui_driver
    (env : collaborators) (cfg_script cfg_gui : config) (sim_len : nat) :
  same_cavity cfg_script cfg_gui ->
  (0 < buf_size cfg_gui)%nat ->
  (0 < pul_len cfg_gui)%Z ->
  exists g : script_state,
    script_run env cfg_script sim_len = ok g
    /\ (forall i : nat, (i < sim_len)%nat ->
          simulation_step env cfg_gui (state_after env cfg_gui i (init_state env cfg_gui))
          = (state_after env cfg_gui (S i) (init_state env cfg_gui),
             ok (nth i (sig_vc g) C0, nth i (sig_vr g) C0, Re (nth i (sig_dw g) C0)))
          /\ Im (nth i (sig_dw g) C0) = 0
          /\ nth i (sig_mech g) []
             = map (fun j => RtoC (mode_value
                              (state_m (state_after env cfg_gui (S i)
                                                    (init_state env cfg_gui))) j))
                   (seq 0 (n_modes cfg_script)))
    /\ in_step g (state_after env cfg_gui sim_len (init_state env cfg_gui))
    /\ g_buf_id g = 0%Z
    /\ g_rng_draws g = sim_len.
Proof.
  intros Hsame Hbuf Hpul.
  pose proof (init_state_wf env cfg_gui Hbuf Hpul) as Hwf0.
  assert (Hfill0 : filled env cfg_script cfg_gui (init_state env cfg_gui) sim_len 0
                     (script_init env cfg_script sim_len)).
  { unfold filled, script_init. cbn [g_state_m g_state_vc g_pha_src g_buf_id g_dw
                                      g_rng_draws sig_vc sig_vr sig_dw sig_mech].
    rewrite !repeat_length.
    split; [unfold in_step; cbn; repeat split; reflexivity |].
    do 5 (split; [reflexivity |]).
    split; [intros i Hi; lia |].
    intros i Hi. apply nth_repeat_const. lia. }
  destruct (script_loop_filled env cfg_script cfg_gui Hsame (init_state env cfg_gui)
              sim_len Hwf0 eq_refl sim_len 0%nat _ (Nat.le_refl _) Hfill0)
    as (g & Hrun & Hin & Hb & _ & _ & _ & _ & Hpast & _).
  cbn [Nat.add] in *.
  exists g. split; [exact Hrun |].
  split.
  - intros i Hi. destruct (Hpast i Hi) as (Hout & Him & Hmech).
    destruct (state_after_wf env cfg_gui (init_state env cfg_gui) i Hwf0)
      as (Hwf & _ & Hnext).
    rewrite (simulation_step_explicit env cfg_gui _ Hwf), Hout, <- Hnext.
    split; [reflexivity |]. split; assumption.
  - split; [exact Hin |]. split; [exact Hb |].
    destruct Hin as (_ & _ & _ & _ & Hr). rewrite Hr.
    clear - Hwf0. induction sim_len as [| n IH]; [reflexivity |].
    destruct (state_after_wf env cfg_gui (init_state env cfg_gui) n Hwf0)
      as (Hwf & _ & Hnext).
    rewrite Hnext.
    destruct (after_step_fields env cfg_gui (state_after env cfg_gui n (init_state env cfg_gui)))
      as (_ & _ & _ & _ & Hr & _).
    rewrite Hr, IH. reflexivity.
Qed.

(** The script at its own constants against the application at its own: the
    two pulse periods differ, the cavity does not. *)
Lemma standalone_script_matches_gui_driver_witness :
  same_cavity standalone_config gui_config
  /\ (0 < buf_size gui_config)%nat
  /\ (0 < pul_len gui_config)%Z
  /\ exists g : script_state,
       script_run failing_env standalone_config standalone_sim_len = ok g
       /\ in_step g (state_after failing_env gui_config standalone_sim_len
                                (init_state failing_env gui_config)).
Proof.
  assert (H1 : same_cavity standalone_config gui_config)
    by (unfold same_cavity; repeat split; reflexivity).
  assert (H2 : (0 < buf_size gui_config)%nat) by (cbn; lia).
  assert (H3 : (0 < pul_len gui_config)%Z) by (cbn; lia).
  split; [exact H1 |]. split; [exact H2 |]. split; [exact H3 |].
  destruct (standalone_script_matches_gui_driver failing_env standalone_config gui_config
              standalone_sim_len H1 H2 H3) as (g & Hrun & _ & Hin & _).
  exists g. split; assumption.
Defined.
